(** * remix-dev CLI commands: build, watch and dev

    A shallow embedding of [packages/remix-dev/cli/commands.ts]: the mode
    defaults of [build], [watch] and [dev], the live-reload broadcast of
    [watch] with its lifecycle hooks, its exit hook and the teardown it
    attaches to it, the start-up and the request pipeline of [dev],
    [purgeAppRequireCache], and the scaffolding commands [create], [init],
    [setup] and [routes].

    The commands are effectful.  They are written in a state-and-exception
    monad over a [World] that holds the observable trace of calls, the pending
    broadcast timers, the WebSocket clients, the file system, the clock and
    the local variables that closures share.  A run ends by returning, by
    throwing, or with the process.  Node's module cache
    [require.cache] is a finite map from resolved file names to loaded
    modules.  Code that lives outside this file (the compiler, the
    configuration reader, [pretty-ms], [path.relative], [JSON.stringify],
    [get-port], the request handler of [@remix-run/serve]) is gathered in the
    classes [Collaborators] and [Tooling]: every result holds whatever they
    compute.

    Part I gives the definitions, Part II the lemmas and theorems on the
    broadcast, the continuation of [watch], the start-up of [dev] and the
    purge, Part III the exit of [watch], the modes and further properties of
    all the commands. *)

From Stdlib Require Import ZArith String List Bool Lia.
From stdpp Require Import base option list strings pretty gmap fin_maps.

Import ListNotations.
Local Open Scope string_scope.
Local Open Scope list_scope.
Local Open Scope Z_scope.

(** * Part I: the program *)

(** ** JavaScript values, exceptions and effects *)

(** What cuts a computation short: a thrown value, which is
    [new Error(message)] or a system error of Node's [fs] with its code and
    the path it is about, or the end of the process at [process.exit()]. *)
Inductive Error : Type :=
| JsError (message : string)
| SystemError (code : string) (path : string)
| ProcessExit.

Inductive Result (A : Type) : Type :=
| Ok (a : A)
| Throw (e : Error).
Arguments Ok {A} a.
Arguments Throw {A} e.

(** Truthiness of a [string | undefined]: [undefined] and the empty string
    are falsy. *)
Definition truthy (v : option string) : bool :=
  match v with
  | None => false
  | Some s => negb (String.eqb s "")
  end.

(** [`${v}`] for a [string | undefined]. *)
Definition template (v : option string) : string :=
  match v with
  | None => "undefined"
  | Some s => s
  end.

(** Computations over a state [S] that return a value or are cut short. *)
Definition M (S A : Type) : Type := S -> Result A * S.

#[global] Instance M_ret {S} : MRet (M S) := fun A a s => (Ok a, s).

#[global] Instance M_bind {S} : MBind (M S) := fun A B k m s =>
  match m s with
  | (Ok a, s') => k a s'
  | (Throw e, s') => (Throw e, s')
  end.

Definition throw {S A} (e : Error) : M S A := fun s => (Throw e, s).

Definition gets {S A} (f : S -> A) : M S A := fun s => (Ok (f s), s).

Definition modify {S} (f : S -> S) : M S unit := fun s => (Ok tt, f s).

(** An [await] on a collaborator whose outcome is known. *)
Definition settle {S A} (r : Result A) : M S A := fun s => (r, s).

(** [try { body } finally { fin }]: [fin] runs whether [body] returns or
    throws, and what it throws replaces the outcome of [body].  When the
    process ends inside [body], nothing runs any more. *)
Definition try_finally {S A} (body : M S A) (fin : M S unit) : M S A :=
  fun s =>
    match body s with
    | (Throw ProcessExit, s') => (Throw ProcessExit, s')
    | (r, s') =>
        match fin s' with
        | (Ok _, s'') => (r, s'')
        | (Throw e, s'') => (Throw e, s'')
        end
    end.

(** [for (x of xs) body(x)] *)
Fixpoint for_each {S A} (body : A -> M S unit) (xs : list A) : M S unit :=
  match xs with
  | [] => mret tt
  | x :: xs' => body x ;; for_each body xs'
  end.

(** ** The data of a run *)

(** The fields of [RemixConfig] that the commands read. *)
Record RemixConfig : Type := {
  rootDirectory : string;
  assetsBuildDirectory : string;
  serverBuildPath : string;
  devServerPort : Z;
  devServerBroadcastDelay : Z;
  serverEntryPoint : option string;
}.

(** The objects handed to [broadcast]: [{ type: "LOG", message }] and
    [{ type: "RELOAD" }]. *)
Inductive BroadcastEvent : Type :=
| LOG (message : string)
| RELOAD.

#[global] Instance BroadcastEvent_eq_dec : EqDecision BroadcastEvent.
Proof. solve_decision. Defined.

(** [WebSocket.readyState] *)
Inductive ReadyState : Type := CONNECTING | OPEN | CLOSING | CLOSED.

#[global] Instance ReadyState_eq_dec : EqDecision ReadyState.
Proof. solve_decision. Defined.

(** A member of [wss.clients]. *)
Record Client : Type := {
  client_id : nat;
  readyState : ReadyState;
}.

(** What a path leads to. *)
Inductive Entry : Type := File | Directory.

(** The argument of [getPort]: [Number(process.env.PORT)] or
    [makeRange(3000, 3100)]. *)
Inductive PortRequest : Type :=
| PortNumber (text : string)
| PortRange (from to : Z).

(** The hooks that [watch] hands to the compiler. *)
Inductive Hook : Type :=
| InitialBuild
| RebuildStart
| RebuildFinish
| FileCreated (file : string)
| FileChanged (file : string)
| FileDeleted (file : string).

(** What the outside does while a command waits: time passes, the compiler
    invokes a hook, a pending broadcast timer (numbered from the oldest)
    fires, connections join, leave or change state. *)
Inductive Occurrence : Type :=
| ClockReaches (now : Z)
| Fires (h : Hook)
| TimerElapses (i : nat)
| Sockets (cs : list Client).

(** What crosses the boundary of a command, in order: the calls it makes on
    the outside, and the compiler's invocations of its hooks.  [X] is the type
    of the calls made by the caller of [watch] and by its callbacks. *)
Inductive Call (X : Type) : Type :=
| hook_invoked (h : Hook)
| console_log (line : string)
| console_warn (line : string)
| readConfig_call (remixRoot : string)
| new_WebSocket_Server (port : Z)
| setTimeout_call (event : BroadcastEvent) (delay : Z)
| client_send (client : nat) (payload : string)
| compiler_watch_call (mode : option string)
| compiler_build_call (mode : option string) (sourcemap : bool)
| formatBuildFailure_call
| exitHook_call
| wss_close
| closeWatcher_call
| emptyDirSync_call (dir : string)
| rmSync_call (path : string)
| by_caller (x : X).
Arguments hook_invoked {X} h.
Arguments console_log {X} line.
Arguments console_warn {X} line.
Arguments readConfig_call {X} remixRoot.
Arguments new_WebSocket_Server {X} port.
Arguments setTimeout_call {X} event delay.
Arguments client_send {X} client payload.
Arguments compiler_watch_call {X} mode.
Arguments compiler_build_call {X} mode sourcemap.
Arguments formatBuildFailure_call {X}.
Arguments exitHook_call {X}.
Arguments wss_close {X}.
Arguments closeWatcher_call {X}.
Arguments emptyDirSync_call {X} dir.
Arguments rmSync_call {X} path.
Arguments by_caller {X} x.

(** The state a command runs in.  [E] is the state private to the caller of
    [watch] (the local variables of [dev]). *)
Record World (X E : Type) : Type := {
  trace : list (Call X);
  timers : list (BroadcastEvent * Z);
  clients : list Client;
  files : gmap string Entry;
  clock : Z;
  start : Z;
  caller : E;
}.
Arguments trace {X E} w.
Arguments timers {X E} w.
Arguments clients {X E} w.
Arguments files {X E} w.
Arguments clock {X E} w.
Arguments start {X E} w.
Arguments caller {X E} w.

Definition with_trace {X E} (f : list (Call X) -> list (Call X))
    (w : World X E) : World X E :=
  {| trace := f (trace w); timers := timers w; clients := clients w;
     files := files w; clock := clock w; start := start w;
     caller := caller w |}.

Definition with_timers {X E}
    (f : list (BroadcastEvent * Z) -> list (BroadcastEvent * Z))
    (w : World X E) : World X E :=
  {| trace := trace w; timers := f (timers w); clients := clients w;
     files := files w; clock := clock w; start := start w;
     caller := caller w |}.

Definition with_clients {X E} (cs : list Client) (w : World X E) : World X E :=
  {| trace := trace w; timers := timers w; clients := cs;
     files := files w; clock := clock w; start := start w;
     caller := caller w |}.

Definition with_files {X E} (fs : gmap string Entry)
    (w : World X E) : World X E :=
  {| trace := trace w; timers := timers w; clients := clients w;
     files := fs; clock := clock w; start := start w;
     caller := caller w |}.

Definition with_clock {X E} (now : Z) (w : World X E) : World X E :=
  {| trace := trace w; timers := timers w; clients := clients w;
     files := files w; clock := now; start := start w;
     caller := caller w |}.

Definition with_start {X E} (t : Z) (w : World X E) : World X E :=
  {| trace := trace w; timers := timers w; clients := clients w;
     files := files w; clock := clock w; start := t;
     caller := caller w |}.

Definition with_caller {X E} (f : E -> E) (w : World X E) : World X E :=
  {| trace := trace w; timers := timers w; clients := clients w;
     files := files w; clock := clock w; start := start w;
     caller := f (caller w) |}.

(** A call is appended to the trace. *)
Definition call {X E} (c : Call X) : M (World X E) unit :=
  modify (with_trace (fun t => t ++ [c])).

(** [Date.now()] *)
Definition Date_now {X E} : M (World X E) Z := gets clock.

(** ** Node's file system *)

(** Paths are absolute and normalised, as the configuration reader resolves
    them; [below dir p] says that [p] lies inside the directory [dir]. *)
Definition below (dir p : string) : bool := String.prefix (dir +:+ "/") p.

(** The directories above a path, the nearest last: [/tmp/build/css] has
    [/tmp] and [/tmp/build].  The root is always there and is left out. *)
Fixpoint ancestors_from (seen rest : string) : list string :=
  match rest with
  | EmptyString => []
  | String c rest' =>
      (if String.eqb (String c "") "/" && negb (String.eqb seen "")
       then [seen] else [])
      ++ ancestors_from (seen +:+ String c "") rest'
  end.

Definition ancestors (p : string) : list string := ancestors_from "" p.

Definition is_file (fs : gmap string Entry) (p : string) : bool :=
  match fs !! p with
  | Some File => true
  | _ => false
  end.

(** [fse.mkdirsSync(dir)], which is [fs.mkdirSync(dir, { recursive: true })]:
    the directory is made together with the directories above it that are
    missing; a plain file in the way is an error. *)
Definition mkdirsSync (dir : string) (fs : gmap string Entry)
    : Result (gmap string Entry) :=
  if is_file fs dir
  then Throw (SystemError "EEXIST" dir)
  else if existsb (is_file fs) (ancestors dir)
       then Throw (SystemError "ENOTDIR" dir)
       else Ok (foldr (fun a made => <[a := Directory]> made) fs
                  (dir :: ancestors dir)).

(** [fse.emptyDirSync(dir)]: the items of a directory are removed, each with
    all that lies inside it, and the directory itself stays.  When the
    directory cannot be read, because it is missing or is a plain file,
    fs-extra makes it with [mkdirsSync].  Nothing lies inside a directory
    that is missing; on a map that holds such paths all the same, they go
    too. *)
Definition emptyDirSync (dir : string) (fs : gmap string Entry)
    : Result (gmap string Entry) :=
  let emptied := filter (fun e => below dir e.1 = false) fs in
  match fs !! dir with
  | Some Directory => Ok emptied
  | _ => mkdirsSync dir emptied
  end.

(** [fse.rmSync(path)] with no options: removes a file; a missing path and a
    directory are errors. *)
Definition rmSync (path : string) (fs : gmap string Entry)
    : Result (gmap string Entry) :=
  match fs !! path with
  | Some File => Ok (delete path fs)
  | Some Directory => Throw (SystemError "ERR_FS_EISDIR" path)
  | None => Throw (SystemError "ENOENT" path)
  end.

(** A file-system operation run on the world's file system. *)
Definition on_files {X E}
    (op : gmap string Entry -> Result (gmap string Entry))
    : M (World X E) unit :=
  fun w =>
    match op (files w) with
    | Ok fs => (Ok tt, with_files fs w)
    | Throw e => (Throw e, w)
    end.

(** A collaborator that works on the file system and then returns or
    throws: either way the file system is as it has left it. *)
Definition leaving {X E}
    (op : gmap string Entry -> Result unit * gmap string Entry)
    : M (World X E) unit :=
  fun w => ((op (files w)).1, with_files (op (files w)).2 w).

(** ** Collaborators *)

(** How a one-shot [compiler.build] ends: the build is written, or the
    compiler reports a failure through [onBuildFailure]; either way [fs] is
    the file system as the compiler has left it by then. *)
Inductive BuildOutcome : Type :=
| Built (fs : gmap string Entry)
| BuildFailure (fs : gmap string Entry).

Class Collaborators : Type := {
  (** [../build]: the guard of the [BuildMode] enumeration and its members *)
  isBuildMode : option string -> bool;
  BuildMode_Development : string;
  BuildMode_Production : string;
  (** [pretty-ms], [path.relative], [process.cwd()], [JSON.stringify] *)
  prettyMs : Z -> string;
  path_relative : string -> string -> string;
  process_cwd : string;
  JSON_stringify : BroadcastEvent -> string;
  (** [../config], [../env], [get-port], module resolution by [require],
      and the environment variables as they stand once [loadEnv] has run *)
  readConfig : string -> Result RemixConfig;
  loadEnv : string -> Result unit;
  getPort : PortRequest -> Result Z;
  resolves : string -> bool;
  env_PORT : option string;
  env_HOST : option string;
  lan_address : option string;
  (** [../compiler]: whether [compiler.watch] resolves, how awaiting the
      function it resolves to ends and what it does to the file system, and
      how [compiler.build] ends *)
  compiler_watch : Result unit;
  closeWatcher : gmap string Entry -> Result unit * gmap string Entry;
  compiler_build : RemixConfig -> option string -> bool ->
                   gmap string Entry -> BuildOutcome;
  (** [@remix-run/serve]: the request handler made by [createApp], which
      loads the server build through [require] *)
  Module_ : Type;
  Request : Type;
  createApp : string -> option string -> Request ->
              gmap string Module_ -> gmap string Module_;
}.

(** ** The module cache and [purgeAppRequireCache] *)

Module RequireCache.

(** [key.startsWith(buildPath)] *)
Definition startsWith (key buildPath : string) : bool :=
  String.prefix buildPath key.

(** The body of the loop [for (let key in require.cache)]. *)
Definition purge_step {V : Type} (buildPath : string)
    (cache : gmap string V) (key : string) : gmap string V :=
  if startsWith key buildPath then delete key cache else cache.

(** The loop visits the keys that the object has when the loop starts;
    deleting the key under visit does not disturb the enumeration. *)
Definition purgeAppRequireCache {V : Type} (buildPath : string)
    (cache : gmap string V) : gmap string V :=
  foldl (purge_step buildPath) cache (map_to_list cache).*1.

End RequireCache.

(** ** An express application *)

Module Express.

(** A middleware receives the request and [next]; the state it works on is
    the module cache of the process. *)
Definition Middleware (R V : Type) : Type :=
  R -> (gmap string V -> gmap string V) -> gmap string V -> gmap string V.

(** A request runs down the stack built by [app.use]; a request that no
    middleware answers falls off the end. *)
Fixpoint handle {R V : Type} (stack : list (Middleware R V)) (req : R)
    (cache : gmap string V) : gmap string V :=
  match stack with
  | [] => cache
  | mw :: rest => mw req (handle rest req) cache
  end.

End Express.

(** ** [watch] *)

Module WatchCallbacks.

(** A callback is a closure of the caller of [watch]: it works on the
    caller's state, the calls it makes are the caller's, and it returns.
    The channel of [watch] is not in its scope. *)
Definition Callback (X E : Type) : Type := E -> list X * E.

(** [type WatchCallbacks]: both members are optional. *)
Record t (X E : Type) : Type := {
  onRebuildStart : option (Callback X E);
  onInitialBuild : option (Callback X E);
}.
Arguments onRebuildStart {X E} _.
Arguments onInitialBuild {X E} _.

(** [callbacks || {}] *)
Definition or_empty {X E} (callbacks : option (t X E)) : t X E :=
  match callbacks with
  | Some c => c
  | None => {| onRebuildStart := None; onInitialBuild := None |}
  end.

End WatchCallbacks.

Module Watch.

Section Watch.
Context `{Collaborators} {X E : Type}.

(** [callback?.()] *)
Definition invoke (callback : option (WatchCallbacks.Callback X E))
    : M (World X E) unit :=
  match callback with
  | None => mret tt
  | Some f =>
      modify (fun w =>
        with_caller (fun _ => (f (caller w)).2)
          (with_trace (fun t => t ++ map by_caller (f (caller w)).1) w))
  end.

(** The callback that [broadcast] hands to [setTimeout]: the event goes to
    the clients that are open when the timer fires. *)
Definition deliver (event : BroadcastEvent) : M (World X E) unit :=
  cs ← gets clients;
  for_each (fun client =>
      if decide (readyState client = OPEN)
      then call (client_send (client_id client) (JSON_stringify event))
      else mret tt)
    cs.

(** [broadcast(event)]: one timer is set, with the configured delay. *)
Definition broadcast (config : RemixConfig) (event : BroadcastEvent)
    : M (World X E) unit :=
  call (setTimeout_call event (devServerBroadcastDelay config)) ;;
  modify (with_timers
            (fun ts => ts ++ [(event, devServerBroadcastDelay config)])).

(** The local [log] of [watch]. *)
Definition log (config : RemixConfig) (_message : string)
    : M (World X E) unit :=
  let message := "💿 " +:+ _message in
  call (console_log message) ;;
  broadcast config (LOG message).

(** The hooks passed to [compiler.watch]. *)
Definition onRebuildStart (config : RemixConfig)
    (callbacks : WatchCallbacks.t X E) : M (World X E) unit :=
  now ← Date_now;
  modify (with_start now) ;;
  invoke (WatchCallbacks.onRebuildStart callbacks) ;;
  log config "Rebuilding...".

Definition onRebuildFinish (config : RemixConfig) : M (World X E) unit :=
  now ← Date_now;
  began ← gets start;
  log config ("Rebuilt in " +:+ prettyMs (now - began)) ;;
  broadcast config RELOAD.

Definition onFileCreated (config : RemixConfig) (file : string)
    : M (World X E) unit :=
  log config ("File created: " +:+ path_relative process_cwd file).

Definition onFileChanged (config : RemixConfig) (file : string)
    : M (World X E) unit :=
  log config ("File changed: " +:+ path_relative process_cwd file).

Definition onFileDeleted (config : RemixConfig) (file : string)
    : M (World X E) unit :=
  log config ("File deleted: " +:+ path_relative process_cwd file).

(** The compiler invokes a hook; [onInitialBuild] is the caller's callback,
    passed through as it is. *)
Definition fire (config : RemixConfig) (callbacks : WatchCallbacks.t X E)
    (h : Hook) : M (World X E) unit :=
  match h with
  | InitialBuild => invoke (WatchCallbacks.onInitialBuild callbacks)
  | RebuildStart => onRebuildStart config callbacks
  | RebuildFinish => onRebuildFinish config
  | FileCreated file => onFileCreated config file
  | FileChanged file => onFileChanged config file
  | FileDeleted file => onFileDeleted config file
  end.

(** A pending timer fires: it leaves the queue and its callback runs. *)
Definition elapse (i : nat) : M (World X E) unit :=
  ts ← gets timers;
  match ts !! i with
  | Some (event, _) => modify (with_timers (delete i)) ;; deliver event
  | None => mret tt
  end.

Definition happen (config : RemixConfig) (callbacks : WatchCallbacks.t X E)
    (o : Occurrence) : M (World X E) unit :=
  match o with
  | ClockReaches now => modify (with_clock now)
  | Fires h => call (hook_invoked h) ;; fire config callbacks h
  | TimerElapses i => elapse i
  | Sockets cs => modify (with_clients cs)
  end.

(** [client.terminate()], which [wss.close()] calls on every client: a
    connection that is not closed yet is closing from then on. *)
Definition terminate (client : Client) : Client :=
  {| client_id := client_id client;
     readyState := match readyState client with
                   | CLOSED => CLOSED
                   | _ => CLOSING
                   end |}.

(** The continuation of the promise that the exit hook resolves; [closing]
    is what happens while it awaits the watcher's stop function. *)
Definition teardown (config : RemixConfig) (callbacks : WatchCallbacks.t X E)
    (closing : list Occurrence) : M (World X E) unit :=
  call wss_close ;;
  modify (fun w => with_clients (map terminate (clients w)) w) ;;
  call closeWatcher_call ;;
  for_each (happen config callbacks) closing ;;
  leaving closeWatcher ;;
  call (emptyDirSync_call (assetsBuildDirectory config)) ;;
  on_files (emptyDirSync (assetsBuildDirectory config)) ;;
  call (rmSync_call (serverBuildPath config)) ;;
  on_files (rmSync (serverBuildPath config)).

(** [isBuildMode(modeArg) ? modeArg : BuildMode.Development] *)
Definition mode_of (modeArg : option string) : option string :=
  if isBuildMode modeArg then modeArg else Some BuildMode_Development.

(** The process is told to exit, by a signal or by [process.exit()], while
    the promise of [watch] is pending.  exit-hook runs the callback it was
    given, which resolves the promise and so queues [continuation], and the
    process ends in the same turn of the event loop: nothing that is queued
    gets to run.  [continuation] takes what would happen while it awaits. *)
Definition exit_hook_fires {A}
    (continuation : list Occurrence -> M (World X E) A) : M (World X E) A :=
  throw ProcessExit.

(** [watch(remixRootOrConfig, modeArg, callbacks)].  [building] is what
    happens until [compiler.watch] settles, [waiting] what happens from then
    until the process is told to exit. *)
Definition watch (remixRootOrConfig : string + RemixConfig)
    (modeArg : option string) (callbacks : option (WatchCallbacks.t X E))
    (building waiting : list Occurrence) : M (World X E) unit :=
  let cbs := WatchCallbacks.or_empty callbacks in
  let mode := mode_of modeArg in
  call (console_log ("Watching Remix app in " +:+ template mode
                     +:+ " mode...")) ;;
  now ← Date_now;
  modify (with_start now) ;;
  config ← match remixRootOrConfig with
           | inr config => mret config
           | inl remixRoot =>
               call (readConfig_call remixRoot) ;;
               settle (readConfig remixRoot)
           end;
  call (new_WebSocket_Server (devServerPort config)) ;;
  call (compiler_watch_call mode) ;;
  for_each (happen config cbs) building ;;
  settle compiler_watch ;;
  now ← Date_now;
  began ← gets start;
  call (console_log ("💿 Built in " +:+ prettyMs (now - began))) ;;
  call exitHook_call ;;
  for_each (happen config cbs) waiting ;;
  exit_hook_fires (teardown config cbs).

End Watch.

End Watch.

(** ** [build] *)

Module Build.

Section Build.
Context `{Collaborators} {X E : Type}.

(** [isBuildMode(modeArg) ? modeArg : BuildMode.Production] *)
Definition mode_of (modeArg : option string) : option string :=
  if isBuildMode modeArg then modeArg else Some BuildMode_Production.

Definition newline : string := String (Ascii.ascii_of_nat 10) "".

Definition warning_bar : string :=
  "⚠️⚠️⚠️⚠️⚠️⚠️⚠️⚠️⚠️⚠️⚠️⚠️⚠️⚠️⚠️⚠️⚠️⚠️⚠️⚠️⚠️⚠️⚠️⚠️⚠️⚠️⚠️⚠️⚠️⚠️⚠️⚠️⚠️⚠️⚠️⚠️⚠️⚠️⚠️⚠️⚠️⚠️".

Definition sourcemap_warning : string :=
  "You have enabled source maps in production. This will make your " +:+
  "server-side code visible to the public and is highly discouraged! If " +:+
  "you insist, please ensure you are using environment variables for " +:+
  "secrets and not hard-coding them into your source!".

(** [build(remixRoot, modeArg, sourcemap)]; [finished] is the time at which
    [compiler.build] settles.  The imported [log] writes to the console. *)
Definition build (remixRoot : string) (modeArg : option string)
    (sourcemap : bool) (finished : Z) : M (World X E) unit :=
  let mode := mode_of modeArg in
  call (console_log ("Building Remix app in " +:+ template mode
                     +:+ " mode...")) ;;
  (if bool_decide (modeArg = Some BuildMode_Production) && sourcemap
   then call (console_warn (newline +:+ warning_bar)) ;;
        call (console_warn sourcemap_warning) ;;
        call (console_warn (warning_bar +:+ newline))
   else mret tt) ;;
  began ← Date_now;
  call (readConfig_call remixRoot) ;;
  config ← settle (readConfig remixRoot);
  call (emptyDirSync_call (assetsBuildDirectory config)) ;;
  on_files (emptyDirSync (assetsBuildDirectory config)) ;;
  call (compiler_build_call mode sourcemap) ;;
  fs ← gets files;
  match compiler_build config mode sourcemap fs with
  | Built fs' => modify (with_files fs')
  | BuildFailure fs' =>
      modify (with_files fs') ;;
      call formatBuildFailure_call ;;
      throw (JsError "")
  end ;;
  modify (with_clock finished) ;;
  now ← Date_now;
  call (console_log ("Built in " +:+ prettyMs (now - began))).

End Build.

End Build.

(** ** [dev] *)

Module Dev.

(** The calls that [dev] and its [onInitialBuild] callback make.  The last
    argument of [app_listen] is the line that the listening callback writes
    to the console. *)
Inductive DevCall : Type :=
| require_call (name : string)
| loadEnv_call (rootDirectory : string)
| getPort_call (request : PortRequest)
| express_call
| app_disable (setting : string)
| createApp_call (buildPath : string) (mode : option string)
| app_use
| app_listen (port : Z) (host : option string) (onListen : string)
| server_close.

(** The handle that [app.listen] returns. *)
Record Server : Type := {
  bound_port : Z;
  bound_host : option string;
}.

Section Dev.
Context `{Collaborators}.

(** The local variables of [dev] that its closures share: the middleware
    stack of [app], and [server]. *)
Record Locals : Type := {
  app : list (Express.Middleware Request Module_);
  server : option Server;
}.

Definition with_app
    (f : list (Express.Middleware Request Module_) ->
         list (Express.Middleware Request Module_))
    (e : Locals) : Locals :=
  {| app := f (app e); server := server e |}.

Definition with_server (s : option Server) (e : Locals) : Locals :=
  {| app := app e; server := s |}.

(** Both modules are required inside one [try]; whatever fails, the same
    error is thrown. *)
Definition require_serve : M (World DevCall Locals) unit :=
  let missing :=
    JsError ("Could not locate @remix-run/serve. Please verify you have it "
             +:+ "installed to use the dev command.") in
  call (by_caller (require_call "@remix-run/serve")) ;;
  if resolves "@remix-run/serve"
  then call (by_caller (require_call "express")) ;;
       if resolves "express" then mret tt else throw missing
  else throw missing.

(** [isBuildMode(modeArg) ? modeArg : BuildMode.Development] *)
Definition mode_of (modeArg : option string) : option string :=
  if isBuildMode modeArg then modeArg else Some BuildMode_Development.

(** [process.env.PORT ? Number(process.env.PORT) : makeRange(3000, 3100)] *)
Definition port_request : PortRequest :=
  if truthy env_PORT then PortNumber (template env_PORT)
  else PortRange 3000 3100.

(** The first middleware: purge, then [next()]. *)
Definition purge_middleware (config : RemixConfig)
    : Express.Middleware Request Module_ :=
  fun _ next cache =>
    next (RequireCache.purgeAppRequireCache (serverBuildPath config) cache).

(** The second middleware: the handler made by [createApp]. *)
Definition createApp_middleware (config : RemixConfig) (mode : option string)
    : Express.Middleware Request Module_ :=
  fun req _ cache => createApp (serverBuildPath config) mode req cache.

(** [app.use(middleware)] *)
Definition use (mw : Express.Middleware Request Module_)
    : M (World DevCall Locals) unit :=
  call (by_caller app_use) ;;
  modify (with_caller (with_app (fun stack => stack ++ [mw]))).

(** The line that [onListen] writes. *)
Definition onListen (port : Z) : string :=
  let address := if truthy env_HOST then env_HOST else lan_address in
  if truthy address
  then "Remix App Server started at http://localhost:" +:+ pretty port
       +:+ " (http://" +:+ template address +:+ ":" +:+ pretty port +:+ ")"
  else "Remix App Server started at http://localhost:" +:+ pretty port.

(** The [onInitialBuild] callback that [dev] gives to [watch]: the only
    place where [server] is assigned a listener. *)
Definition onInitialBuild (port : Z)
    : WatchCallbacks.Callback DevCall Locals :=
  fun e =>
    let host := if truthy env_HOST then env_HOST else None in
    ([app_listen port host (onListen port)],
     with_server (Some {| bound_port := port; bound_host := host |}) e).

(** The callbacks object that [dev] gives to [watch]. *)
Definition callbacks (port : Z) : WatchCallbacks.t DevCall Locals :=
  {| WatchCallbacks.onRebuildStart := None;
     WatchCallbacks.onInitialBuild := Some (onInitialBuild port) |}.

(** [server!?.close()] *)
Definition close_server : M (World DevCall Locals) unit :=
  s ← gets (fun w => server (caller w));
  match s with
  | None => mret tt
  | Some _ => call (by_caller server_close)
  end.

(** [dev(remixRoot, modeArg)]; [building] and [waiting] are as for
    [Watch.watch]. *)
Definition dev (remixRoot : string) (modeArg : option string)
    (building waiting : list Occurrence) : M (World DevCall Locals) unit :=
  require_serve ;;
  call (readConfig_call remixRoot) ;;
  config ← settle (readConfig remixRoot);
  let mode := mode_of modeArg in
  call (by_caller (loadEnv_call (rootDirectory config))) ;;
  settle (loadEnv (rootDirectory config)) ;;
  call (by_caller (getPort_call port_request)) ;;
  port ← settle (getPort port_request);
  if truthy (serverEntryPoint config)
  then throw (JsError "remix dev is not supported for custom servers.")
  else
    call (by_caller express_call) ;;
    modify (with_caller (with_app (fun _ => []))) ;;
    call (by_caller (app_disable "x-powered-by")) ;;
    use (purge_middleware config) ;;
    call (by_caller (createApp_call (serverBuildPath config) mode)) ;;
    use (createApp_middleware config mode) ;;
    modify (with_caller (with_server None)) ;;
    try_finally
      (Watch.watch (inr config) mode (Some (callbacks port))
         building waiting)
      close_server.

End Dev.

End Dev.

(** ** The scaffolding commands: [create], [init], [setup], [routes] *)

(** The package managers that [create] and [init] accept. *)
Inductive PackageManager : Type := npm | yarn | pnpm.

Definition PackageManager_name (packageManager : PackageManager) : string :=
  match packageManager with
  | npm => "npm"
  | yarn => "yarn"
  | pnpm => "pnpm"
  end.

(** The options of [create]. *)
Record CreateOptions : Type := {
  appTemplate : string;
  projectDir : string;
  remixVersion : option string;
  installDeps : bool;
  packageManager : PackageManager;
  useTypeScript : bool;
  githubToken : option string;
  debug : option bool;
}.

(** A value thrown by the code that [init] runs: an [Error] object, of
    which [init] reads and writes the message, or any other value. *)
Inductive Thrown : Type :=
| ErrorObject (message : string)
| OtherValue (value : string).

Inductive Outcome (A : Type) : Type :=
| Returned (a : A)
| Threw (t : Thrown).
Arguments Returned {A} a.
Arguments Threw {A} t.

(** The object that [init] hands to the init function. *)
Record InitArguments : Type := {
  init_isTypeScript : bool;
  init_packageManager : PackageManager;
  init_rootDirectory : string;
}.

(** The function that the init script exports: run on the arguments, it
    works on the file system and resolves or rejects. *)
Definition InitFunction : Type :=
  InitArguments -> gmap string Entry -> Outcome (gmap string Entry).

(** The calls of the scaffolding commands. *)
Inductive ToolCall : Type :=
| ora_start (text : string)
| spinner_stop
| spinner_clear
| create_createApp (options : CreateOptions)
| execSync_call (command : string) (cwd : string)
| require_script (path : string)
| initFn_call (arguments : InitArguments)
| setupRemix_call (platform : option string).

Class Tooling : Type := {
  (** [./create] *)
  createApp_of_create : CreateOptions -> gmap string Entry ->
                        Result (gmap string Entry);
  (** [path.join], [path.resolve], [colors.error] *)
  path_join : string -> string -> string;
  path_resolve : string -> string -> string;
  colors_error : string -> string;
  (** [execSync(command, { stdio: "ignore", cwd })] and [require(path)] of
      an init script *)
  execSync : string -> string -> gmap string Entry ->
             Outcome (gmap string Entry);
  require_init : string -> Outcome InitFunction;
  (** [./setup]: the guard of the [SetupPlatform] enumeration, two of its
      members, and [setupRemix] *)
  isSetupPlatform : option string -> bool;
  SetupPlatform_Cloudflare : string;
  SetupPlatform_Node : string;
  setupRemix : option string -> Result unit;
  (** [../config/format]: the guard of [RoutesFormat], its member [jsx], and
      [formatRoutes] applied to the routes of a configuration; and what
      [readConfig] gives when it is called without a directory *)
  isRoutesFormat : option string -> bool;
  RoutesFormat_jsx : string;
  formatRoutes : RemixConfig -> option string -> string;
  readConfig_default : Result RemixConfig;
}.

Module Create.

Section Create.
Context `{Tooling} {E : Type}.

(** [create(options)] *)
Definition create (options : CreateOptions) : M (World ToolCall E) unit :=
  call (by_caller (ora_start "Creating your app…")) ;;
  call (by_caller (create_createApp options)) ;;
  on_files (createApp_of_create options) ;;
  call (by_caller spinner_stop) ;;
  call (by_caller spinner_clear).

End Create.

End Create.

Module Setup.

Section Setup.
Context `{Tooling} {E : Type}.

(** [platformArg === "cloudflare-workers" ||
     platformArg === "cloudflare-pages"] *)
Definition deprecated (platformArg : option string) : bool :=
  bool_decide (platformArg = Some "cloudflare-workers")
  || bool_decide (platformArg = Some "cloudflare-pages").

(** [setup(platformArg)].  The imported [log] writes to the console. *)
Definition setup (platformArg : option string) : M (World ToolCall E) unit :=
  platform ←
    (if deprecated platformArg
     then
       call (console_warn ("Using '" +:+ template platformArg
                           +:+ "' as a platform value is deprecated. Use "
                           +:+ "'cloudflare' instead.")) ;;
       call (console_log
               "HINT: check the `postinstall` script in `package.json`") ;;
       mret (Some SetupPlatform_Cloudflare)
     else
       mret (if isSetupPlatform platformArg then platformArg
             else Some SetupPlatform_Node));
  call (by_caller (setupRemix_call platform)) ;;
  settle (setupRemix platform) ;;
  call (console_log ("Successfully setup Remix for " +:+ template platform
                     +:+ ".")).

End Setup.

End Setup.

Module Routes.

Section Routes.
Context `{Collaborators} `{Tooling} {X E : Type}.

(** [isRoutesFormat(formatArg) ? formatArg : RoutesFormat.jsx] *)
Definition format_of (formatArg : option string) : option string :=
  if isRoutesFormat formatArg then formatArg else Some RoutesFormat_jsx.

(** [routes(remixRoot, formatArg)] *)
Definition routes (remixRoot formatArg : option string)
    : M (World X E) unit :=
  config ← settle (match remixRoot with
                   | Some directory => readConfig directory
                   | None => readConfig_default
                   end);
  let format := format_of formatArg in
  call (console_log (formatRoutes config format)).

End Routes.

End Routes.

Module Init.

(** Computations of [init]: what they throw is any value. *)
Definition I (A : Type) : Type :=
  World ToolCall unit -> Outcome A * World ToolCall unit.

#[global] Instance I_ret : MRet I := fun A a w => (Returned a, w).

#[global] Instance I_bind : MBind I := fun A B k m w =>
  match m w with
  | (Returned a, w') => k a w'
  | (Threw t, w') => (Threw t, w')
  end.

Definition raise {A} (t : Thrown) : I A := fun w => (Threw t, w).

(** [try { body } catch (error) { handler(error) }] *)
Definition try_catch {A} (body : I A) (handler : Thrown -> I A) : I A :=
  fun w =>
    match body w with
    | (Returned a, w') => (Returned a, w')
    | (Threw t, w') => handler t w'
    end.

Definition act (c : ToolCall) : I unit :=
  fun w => (Returned tt, with_trace (fun t => t ++ [by_caller c]) w).

(** [fse.existsSync(path)] and [await fse.pathExists(path)] *)
Definition pathExists (path : string) : I bool :=
  fun w => (Returned (bool_decide (is_Some (files w !! path))), w).

(** A collaborator that works on the file system and may throw. *)
Definition on_disk (op : gmap string Entry -> Outcome (gmap string Entry))
    : I unit :=
  fun w =>
    match op (files w) with
    | Returned fs => (Returned tt, with_files fs w)
    | Threw t => (Threw t, w)
    end.

Definition settled {A} (o : Outcome A) : I A := fun w => (o, w).

Section Init.
Context `{Tooling}.

(** The message that [init] gives to an [Error] of the init function. *)
Definition oops (message : string) : string :=
  colors_error "🚨 Oops, remix.init failed"
  +:+ Build.newline +:+ Build.newline +:+ message.

(** [init(projectDir, packageManager)] *)
Definition init (projectDir : string) (packageManager : PackageManager)
    : I unit :=
  let initScriptDir := path_join projectDir "remix.init" in
  let initScript := path_resolve initScriptDir "index.js" in
  let initPackageJson := path_resolve initScriptDir "package.json" in
  isTypeScript ← pathExists (path_join projectDir "tsconfig.json");
  has_script ← pathExists initScript;
  if has_script : bool then
    has_package ← pathExists initPackageJson;
    (if has_package : bool then
       act (execSync_call (PackageManager_name packageManager +:+ " install")
              initScriptDir) ;;
       on_disk (execSync (PackageManager_name packageManager +:+ " install")
                  initScriptDir)
     else mret tt) ;;
    act (require_script initScript) ;;
    initFn ← settled (require_init initScript);
    try_catch
      (let arguments :=
         {| init_isTypeScript := isTypeScript;
            init_packageManager := packageManager;
            init_rootDirectory := projectDir |} in
       act (initFn_call arguments) ;;
       on_disk (initFn arguments))
      (fun error =>
         match error with
         | ErrorObject message => raise (ErrorObject (oops message))
         | OtherValue _ => raise error
         end)
  else mret tt.

End Init.

End Init.

(** ** Observations on traces *)

(** The events that were handed to [broadcast], in call order. *)
Definition publishes {X} (t : list (Call X)) : list BroadcastEvent :=
  omap (fun c => match c with
                 | setTimeout_call event _ => Some event
                 | _ => None
                 end) t.

Definition is_LOG (event : BroadcastEvent) : bool :=
  match event with
  | LOG _ => true
  | RELOAD => false
  end.

Definition is_RELOAD (event : BroadcastEvent) : bool :=
  match event with
  | LOG _ => false
  | RELOAD => true
  end.

(** The calls that a computation adds to the trace of the world it runs in. *)
Definition calls_of {X E A} (m : M (World X E) A) (w : World X E)
    : list (Call X) :=
  drop (length (trace w)) (trace (m w).2).

(** What [log] does to the world. *)
Definition logged {X E : Type} (config : RemixConfig) (_message : string)
    (w : World X E) : World X E :=
  with_timers (fun ts => ts ++ [(LOG ("💿 " +:+ _message),
                                 devServerBroadcastDelay config)])
    (with_trace (fun t => t ++ [console_log ("💿 " +:+ _message);
                                setTimeout_call (LOG ("💿 " +:+ _message))
                                  (devServerBroadcastDelay config)]) w).

(** What [callback?.()] does to the world. *)
Definition invoked {X E : Type}
    (callback : option (WatchCallbacks.Callback X E)) (w : World X E)
    : World X E :=
  match callback with
  | None => w
  | Some f =>
      with_caller (fun _ => (f (caller w)).2)
        (with_trace (fun t => t ++ map by_caller (f (caller w)).1) w)
  end.

(** The events that a hook hands to [broadcast], in a world with the given
    clock and start time. *)
Definition announced `{Collaborators} (now began : Z) (h : Hook)
    : list BroadcastEvent :=
  match h with
  | InitialBuild => []
  | RebuildStart => [LOG "💿 Rebuilding..."]
  | RebuildFinish => [LOG ("💿 Rebuilt in " +:+ prettyMs (now - began)); RELOAD]
  | FileCreated file =>
      [LOG ("💿 File created: " +:+ path_relative process_cwd file)]
  | FileChanged file =>
      [LOG ("💿 File changed: " +:+ path_relative process_cwd file)]
  | FileDeleted file =>
      [LOG ("💿 File deleted: " +:+ path_relative process_cwd file)]
  end.

(** How many members of a list pass a test. *)
Definition count {A} (p : A -> bool) (l : list A) : nat :=
  length (List.filter p l).

(** The sends that a delivery makes to a list of clients. *)
Definition deliveries `{Collaborators} {X : Type} (event : BroadcastEvent)
    (cs : list Client) : list (Call X) :=
  map (fun client => client_send (client_id client) (JSON_stringify event))
    (filter (fun client => readyState client = OPEN) cs).

(** The hooks that a list of occurrences fires. *)
Definition fired (os : list Occurrence) : list Hook :=
  omap (fun o => match o with
                 | Fires h => Some h
                 | _ => None
                 end) os.

Definition is_InitialBuild (h : Hook) : bool :=
  match h with
  | InitialBuild => true
  | _ => false
  end.

Definition is_RebuildFinish (h : Hook) : bool :=
  match h with
  | RebuildFinish => true
  | _ => false
  end.

(** The calls of [dev] that open a listener or touch the broadcast channel:
    creating the express application and mounting on it, binding the HTTP
    server, opening the WebSocket server, publishing, sending.  Asking
    [get-port] for a free port is not among them: it serves nothing. *)
Definition opens_or_broadcasts (c : Call Dev.DevCall) : bool :=
  match c with
  | new_WebSocket_Server _ => true
  | setTimeout_call _ _ => true
  | client_send _ _ => true
  | by_caller Dev.express_call => true
  | by_caller Dev.app_use => true
  | by_caller (Dev.app_listen _ _ _) => true
  | _ => false
  end.

(** The world in which [dev] calls [watch], when the start-up has gone
    through: the calls of the start-up are on the trace, the two middlewares
    are mounted, and [server] is null. *)
Definition booted `{Collaborators} (remixRoot : string) (config : RemixConfig)
    (mode : option string) (w : World Dev.DevCall Dev.Locals)
    : World Dev.DevCall Dev.Locals :=
  with_caller
    (fun _ => {| Dev.app := [Dev.purge_middleware config;
                             Dev.createApp_middleware config mode];
                 Dev.server := None |})
    (with_trace
       (fun t => t ++
          [by_caller (Dev.require_call "@remix-run/serve");
           by_caller (Dev.require_call "express");
           readConfig_call remixRoot;
           by_caller (Dev.loadEnv_call (rootDirectory config));
           by_caller (Dev.getPort_call Dev.port_request);
           by_caller Dev.express_call;
           by_caller (Dev.app_disable "x-powered-by");
           by_caller Dev.app_use;
           by_caller (Dev.createApp_call (serverBuildPath config) mode);
           by_caller Dev.app_use])
       w).

(** A property of traces that holds of the empty trace and is kept by
    concatenation; a computation [adds] such a property when the calls it
    appends to the trace, whatever the world, have it. *)
Class Closed {X} (P : list (Call X) -> Prop) : Prop := {
  closed_nil : P [];
  closed_app : forall l k, P l -> P k -> P (l ++ k);
}.

Definition adds {X E A} (P : list (Call X) -> Prop) (m : M (World X E) A)
    : Prop :=
  forall w, exists l, trace (m w).2 = trace w ++ l /\ P l.

(** A computation [keeps] a property of the caller's state when the state
    has it after the run whenever it had it before. *)
Definition keeps {X E A} (I : E -> Prop) (m : M (World X E) A) : Prop :=
  forall w, I (caller w) -> I (caller (m w).2).

(** Binding of the HTTP listener, and the compiler's invocation of the
    initial-build hook. *)
Definition is_listen (c : Call Dev.DevCall) : bool :=
  match c with
  | by_caller (Dev.app_listen _ _ _) => true
  | _ => false
  end.

Definition is_initial_build (c : Call Dev.DevCall) : bool :=
  match c with
  | hook_invoked InitialBuild => true
  | _ => false
  end.

(** Every binding of the listener on the trace comes right after an
    invocation of the initial-build hook; [after] says whether the trace
    itself comes right after one. *)
Fixpoint listens_in_hook (after : bool) (t : list (Call Dev.DevCall)) : bool :=
  match t with
  | [] => true
  | c :: rest =>
      (if is_listen c then after else true)
      && listens_in_hook (is_initial_build c) rest
  end.

(** The payloads handed to [client.send], each with the client it went to. *)
Definition sent {X} (t : list (Call X)) : list (nat * string) :=
  omap (fun c => match c with
                 | client_send client payload => Some (client, payload)
                 | _ => None
                 end) t.

(** The client sets that a list of occurrences installs. *)
Definition socket_sets (os : list Occurrence) : list (list Client) :=
  omap (fun o => match o with
                 | Sockets cs => Some cs
                 | _ => None
                 end) os.

(** Every member of a list that passes [p] comes right after a member that
    passes [q]; [after] says whether the list itself comes right after one. *)
Fixpoint preceded {A} (p q : A -> bool) (after : bool) (l : list A) : bool :=
  match l with
  | [] => true
  | x :: rest => (if p x then after else true) && preceded p q (q x) rest
  end.

(** The LOG event of a finished rebuild. *)
Definition is_rebuilt_log (event : BroadcastEvent) : bool :=
  match event with
  | LOG message => String.prefix "💿 Rebuilt in " message
  | RELOAD => false
  end.

(** The kinds of call that a session of [watch] makes: invocation marks,
    console lines, timers, sends and the calls of the caller's callbacks. *)
Definition is_session_call {X} (c : Call X) : bool :=
  match c with
  | hook_invoked _ | console_log _ | setTimeout_call _ _
  | client_send _ _ | by_caller _ => true
  | _ => false
  end.

(** A computation [ensures] a property of the caller's state when the state
    has it after every run. *)
Definition ensures {X E A} (J : E -> Prop) (m : M (World X E) A) : Prop :=
  forall w, J (caller (m w).2).

(** A computation that never throws. *)
Definition total {S A} (m : M S A) : Prop :=
  forall s, exists a, (m s).1 = Ok a.

(** What a binding of the listener must be: on the port that [get-port]
    resolved, on the host of the environment when it names one, and with the
    line of [onListen] for that port. *)
Definition listens_as_asked `{Collaborators} (c : Call Dev.DevCall) : Prop :=
  forall port host line,
    c = by_caller (Dev.app_listen port host line) ->
    getPort Dev.port_request = Ok port /\
    host = (if truthy env_HOST then env_HOST else None) /\
    line = Dev.onListen port.

Definition is_console_warn {X} (c : Call X) : bool :=
  match c with
  | console_warn _ => true
  | _ => false
  end.

(** The paths that [init] looks at, the arguments it makes for the init
    function from the file system it starts in, and the outcome of the
    installation that comes first when the init script has a package file. *)
Definition init_script `{Tooling} (projectDir : string) : string :=
  path_resolve (path_join projectDir "remix.init") "index.js".

Definition init_package `{Tooling} (projectDir : string) : string :=
  path_resolve (path_join projectDir "remix.init") "package.json".

Definition init_arguments `{Tooling} (projectDir : string)
    (packageManager : PackageManager) (fs : gmap string Entry)
    : InitArguments :=
  {| init_isTypeScript :=
       bool_decide (is_Some (fs !! path_join projectDir "tsconfig.json"));
     init_packageManager := packageManager;
     init_rootDirectory := projectDir |}.

Definition init_installed `{Tooling} (projectDir : string)
    (packageManager : PackageManager) (fs : gmap string Entry)
    : Outcome (gmap string Entry) :=
  if bool_decide (is_Some (fs !! init_package projectDir))
  then execSync (PackageManager_name packageManager +:+ " install")
         (path_join projectDir "remix.init") fs
  else Returned fs.

(** The calls that [init] makes before it calls the init function. *)
Definition init_preparation `{Tooling} (projectDir : string)
    (packageManager : PackageManager) (fs : gmap string Entry)
    : list (Call ToolCall) :=
  (if bool_decide (is_Some (fs !! init_package projectDir))
   then [by_caller
           (execSync_call (PackageManager_name packageManager +:+ " install")
              (path_join projectDir "remix.init"))]
   else [])
  ++ [by_caller (require_script (init_script projectDir))].

(** What a send must come from: an event that was pending or has been
    published, and a client that was open in one of the client sets. *)
Definition accounted `{Collaborators} {X : Type}
    (pending : list BroadcastEvent) (sets : list (list Client))
    (l : list (Call X)) : Prop :=
  forall id payload, (id, payload) ∈ sent l ->
    exists event client cs,
      payload = JSON_stringify event /\
      (event ∈ pending \/ event ∈ publishes l) /\
      cs ∈ sets /\ client ∈ cs /\
      client_id client = id /\ readyState client = OPEN.

(** The calls with which [watch] opens, once it has its configuration. *)
Definition opening `{Collaborators} {X : Type}
    (remixRootOrConfig : string + RemixConfig) (modeArg : option string)
    (config : RemixConfig) : list (Call X) :=
  console_log ("Watching Remix app in " +:+ template (Watch.mode_of modeArg)
               +:+ " mode...")
  :: match remixRootOrConfig with
     | inl remixRoot => [readConfig_call remixRoot]
     | inr _ => []
     end
  ++ [new_WebSocket_Server (devServerPort config);
      compiler_watch_call (Watch.mode_of modeArg)].

(** The scope of the purge as the specification words it: a key is rooted
    under a path when it is the path or lies inside it. *)
Definition rooted_under (buildPath key : string) : bool :=
  String.eqb key buildPath || below buildPath key.

(** The world in which [watch] has opened, and the one in which it starts to
    wait: the compiler has started and the exit hook is registered. *)
Definition opened `{Collaborators} {X E : Type}
    (remixRootOrConfig : string + RemixConfig) (modeArg : option string)
    (config : RemixConfig) (w : World X E) : World X E :=
  with_trace (fun t => t ++ opening remixRootOrConfig modeArg config)
    (with_start (clock w) w).

Definition watching `{Collaborators} {X E : Type}
    (remixRootOrConfig : string + RemixConfig) (modeArg : option string)
    (callbacks : option (WatchCallbacks.t X E)) (building : list Occurrence)
    (config : RemixConfig) (w : World X E) : World X E :=
  let built :=
    (for_each (Watch.happen config (WatchCallbacks.or_empty callbacks))
       building (opened remixRootOrConfig modeArg config w)).2 in
  with_trace
    (fun t => t ++ [console_log ("💿 Built in "
                                 +:+ prettyMs (clock built - start built));
                    exitHook_call])
    built.

(** The world in which the continuation of [watch] would await the watcher's
    stop function, and the one in which the stop function would return. *)
Definition closing_down {X E : Type} (w : World X E) : World X E :=
  with_trace (fun t => t ++ [wss_close; closeWatcher_call])
    (with_clients (map Watch.terminate (clients w)) w).

Definition closed_down `{Collaborators} {X E : Type} (config : RemixConfig)
    (callbacks : WatchCallbacks.t X E) (closing : list Occurrence)
    (w : World X E) : World X E :=
  (for_each (Watch.happen config callbacks) closing (closing_down w)).2.

(** ** A sample run

    Concrete collaborators and a concrete world, on which the definitions can
    be evaluated. *)

Module Sample.

(** Modelled from the spec: [../build] is not among the sources; the spec
    gives BuildMode as the enumeration of development and production, and
    the guard accepts exactly its members. *)
Definition guard (modeArg : option string) : bool :=
  match modeArg with
  | Some mode => String.eqb mode "development" || String.eqb mode "production"
  | None => false
  end.

Definition quote : string := String (Ascii.ascii_of_nat 34) "".

(** [JSON.stringify] on the two shapes of event, for messages that need no
    escaping. *)
Definition stringify (event : BroadcastEvent) : string :=
  match event with
  | LOG message =>
      "{" +:+ quote +:+ "type" +:+ quote +:+ ":" +:+ quote +:+ "LOG" +:+ quote
      +:+ "," +:+ quote +:+ "message" +:+ quote +:+ ":" +:+ quote +:+ message
      +:+ quote +:+ "}"
  | RELOAD =>
      "{" +:+ quote +:+ "type" +:+ quote +:+ ":" +:+ quote +:+ "RELOAD"
      +:+ quote +:+ "}"
  end.

(** [path.relative] for a path inside the directory it is taken from. *)
Definition relative (from to : string) : string :=
  if String.prefix (from +:+ "/") to
  then String.substring (S (String.length from))
         (String.length to - S (String.length from)) to
  else to.

Definition config : RemixConfig :=
  {| rootDirectory := "/app";
     assetsBuildDirectory := "/tmp/build";
     serverBuildPath := "/tmp/server.js";
     devServerPort := 8811;
     devServerBroadcastDelay := 50;
     serverEntryPoint := None |}.

(** The same project with a custom server. *)
Definition custom_config : RemixConfig :=
  {| rootDirectory := "/custom";
     assetsBuildDirectory := "/tmp/build";
     serverBuildPath := "/tmp/server.js";
     devServerPort := 8811;
     devServerBroadcastDelay := 50;
     serverEntryPoint := Some "./server.js" |}.

Definition collaborators : Collaborators :=
  {| isBuildMode := guard;
     BuildMode_Development := "development";
     BuildMode_Production := "production";
     prettyMs := fun ms => pretty ms +:+ "ms";
     path_relative := relative;
     process_cwd := "/app";
     JSON_stringify := stringify;
     readConfig := fun remixRoot =>
       if String.eqb remixRoot "/custom" then Ok custom_config else Ok config;
     loadEnv := fun _ => Ok tt;
     getPort := fun request =>
       match request with
       | PortNumber _ => Ok 8080
       | PortRange from _ => Ok from
       end;
     resolves := fun _ => true;
     env_PORT := None;
     env_HOST := None;
     lan_address := None;
     compiler_watch := Ok tt;
     closeWatcher := fun fs => (Ok tt, fs);
     compiler_build := fun _ _ _ fs => Built fs;
     Module_ := unit;
     Request := string;
     createApp := fun buildPath _ _ cache => <[buildPath := tt]> cache |}.

Definition sockets : list Client :=
  [ {| client_id := 1; readyState := OPEN |};
    {| client_id := 2; readyState := CLOSING |};
    {| client_id := 3; readyState := OPEN |} ].

Definition disk : gmap string Entry :=
  {[ "/tmp/build" := Directory;
     "/tmp/build/entry.js" := File;
     "/tmp/server.js" := File ]}.

(** A module cache of a project built into [/app/build], with two modules
    of the build, two modules beside it and one of [node_modules]. *)
Definition modules : gmap string unit :=
  {[ "/app/build" := tt;
     "/app/build/index.js" := tt;
     "/app/buildx" := tt;
     "/app/build-other/x.js" := tt;
     "/app/node_modules/react/index.js" := tt ]}.

(** A world in which nothing has happened yet. *)
Definition world {X E : Type} (e : E) : World X E :=
  {| trace := []; timers := []; clients := sockets; files := disk;
     clock := 1000; start := 0; caller := e |}.

Definition locals : @Dev.Locals collaborators :=
  {| Dev.app := []; Dev.server := None |}.

End Sample.

(** ** Sample runs that go wrong *)

Module Faulty.

(** The sample collaborators, with a configuration reader, a module
    resolution, a compiler and an environment of one's choice. *)
Definition collaborators
    (reader : string -> Result RemixConfig) (installed : string -> bool)
    (watching : Result unit)
    (building : RemixConfig -> option string -> bool ->
                gmap string Entry -> BuildOutcome)
    (port host : option string) : Collaborators :=
  {| isBuildMode := Sample.guard;
     BuildMode_Development := "development";
     BuildMode_Production := "production";
     prettyMs := fun ms => pretty ms +:+ "ms";
     path_relative := Sample.relative;
     process_cwd := "/app";
     JSON_stringify := Sample.stringify;
     readConfig := reader;
     loadEnv := fun _ => Ok tt;
     getPort := fun request =>
       match request with
       | PortNumber _ => Ok 8080
       | PortRange from _ => Ok from
       end;
     resolves := installed;
     env_PORT := port;
     env_HOST := host;
     lan_address := None;
     compiler_watch := watching;
     closeWatcher := fun fs => (Ok tt, fs);
     compiler_build := building;
     Module_ := unit;
     Request := string;
     createApp := fun buildPath _ _ cache => <[buildPath := tt]> cache |}.

(** A project directory without configuration. *)
Definition no_config : Collaborators :=
  collaborators (fun _ => Throw (JsError "no remix.config.js"))
    (fun _ => true) (Ok tt) (fun _ _ _ fs => Built fs) None None.

(** A compiler that fails to start watching. *)
Definition no_watcher : Collaborators :=
  collaborators (fun _ => Ok Sample.config) (fun _ => true)
    (Throw (JsError "esbuild failed to start")) (fun _ _ _ fs => Built fs)
    None None.

(** A project whose build fails after the compiler has written one asset. *)
Definition broken_build : Collaborators :=
  collaborators (fun _ => Ok Sample.config) (fun _ => true) (Ok tt)
    (fun _ _ _ fs => BuildFailure (<[ "/tmp/build/partial.css" := File ]> fs))
    None None.

(** An installation without [express]. *)
Definition no_express : Collaborators :=
  collaborators (fun _ => Ok Sample.config)
    (fun name => String.eqb name "@remix-run/serve") (Ok tt)
    (fun _ _ _ fs => Built fs) None None.

(** An environment that names the port and the host. *)
Definition with_env : Collaborators :=
  collaborators (fun _ => Ok Sample.config) (fun _ => true) (Ok tt)
    (fun _ _ _ fs => Built fs) (Some "8080") (Some "0.0.0.0").

End Faulty.

(** ** Sample tooling *)

Module SampleTools.

(** An init function that writes a readme, and fails in the project
    [/broken] with an [Error] and in [/odd] with a string. *)
Definition initFn : InitFunction :=
  fun arguments fs =>
    if String.eqb (init_rootDirectory arguments) "/broken"
    then Threw (ErrorObject "cannot write README.md")
    else if String.eqb (init_rootDirectory arguments) "/odd"
         then Threw (OtherValue "stop")
         else Returned
                (<[init_rootDirectory arguments +:+ "/README.md" := File]> fs).

(** Tooling with an installer, a script loader and a [setupRemix] of one's
    choice. *)
Definition tooling_with
    (install : string -> string -> gmap string Entry ->
               Outcome (gmap string Entry))
    (load : string -> Outcome InitFunction)
    (set_up : option string -> Result unit) : Tooling :=
  {| createApp_of_create := fun options fs =>
       if String.eqb (appTemplate options) "remix"
       then Ok (<[projectDir options := Directory]> fs)
       else Throw (JsError "template not found");
     path_join := fun directory name => directory +:+ "/" +:+ name;
     path_resolve := fun directory name => directory +:+ "/" +:+ name;
     colors_error := fun text => text;
     execSync := install;
     require_init := load;
     isSetupPlatform := fun platformArg =>
       bool_decide (platformArg = Some "cloudflare")
       || bool_decide (platformArg = Some "node");
     SetupPlatform_Cloudflare := "cloudflare";
     SetupPlatform_Node := "node";
     setupRemix := set_up;
     isRoutesFormat := fun formatArg =>
       bool_decide (formatArg = Some "jsx")
       || bool_decide (formatArg = Some "json");
     RoutesFormat_jsx := "jsx";
     formatRoutes := fun config format =>
       "<Routes root=" +:+ rootDirectory config +:+ " as=" +:+ template format
       +:+ ">";
     readConfig_default := Ok Sample.config |}.

Definition tooling : Tooling :=
  tooling_with
    (fun _ cwd fs => Returned (<[cwd +:+ "/node_modules" := Directory]> fs))
    (fun _ => Returned initFn) (fun _ => Ok tt).

(** Tooling whose installation fails. *)
Definition offline : Tooling :=
  tooling_with (fun _ _ _ => Threw (ErrorObject "npm ERR! network"))
    (fun _ => Returned initFn) (fun _ => Ok tt).

(** A project with an init script and its package file. *)
Definition project (root : string) : gmap string Entry :=
  {[ root +:+ "/remix.init/index.js" := File;
     root +:+ "/remix.init/package.json" := File;
     root +:+ "/tsconfig.json" := File ]}.

Definition world (fs : gmap string Entry) : World ToolCall unit :=
  {| trace := []; timers := []; clients := []; files := fs;
     clock := 0; start := 0; caller := tt |}.

End SampleTools.

(** * Part II: properties *)

(** Unfolds the monad so that a run can be computed. *)
Ltac run :=
  cbv [mbind mret M_bind M_ret call modify gets settle throw Date_now
       with_trace with_timers with_clients with_files with_clock with_start
       with_caller trace timers clients files clock start caller fst snd].

(** One step of a run: the monad's plumbing alone. *)
Ltac step :=
  cbv beta iota delta [mbind mret M_bind M_ret call modify gets settle throw
                       Date_now].

(** Normalises the trace of a computed run. *)
Ltac settle_trace :=
  run; rewrite <- ?app_assoc; rewrite ?drop_app_length; cbn [app last].

(** ** Traces *)

Section TraceFacts.
Context {X E : Type}.
Implicit Types (w : World X E) (t l : list (Call X)).

Lemma calls_of_intro {A} (m : M (World X E) A) w l :
  trace (m w).2 = trace w ++ l -> calls_of m w = l.
Proof. intros Ht. unfold calls_of. rewrite Ht. apply drop_app_length. Qed.

Lemma publishes_app t l : publishes (t ++ l) = publishes t ++ publishes l.
Proof. apply omap_app. Qed.

Lemma publishes_by_caller (xs : list X) :
  publishes (map (@by_caller X) xs) = [].
Proof. induction xs as [|x xs IH]; [done|]. exact IH. Qed.

End TraceFacts.

(** ** The hooks of [watch] *)

Section HookFacts.
Context `{Collaborators} {X E : Type}.
Implicit Types (w : World X E) (config : RemixConfig).
Implicit Types (callbacks : WatchCallbacks.t X E).

Lemma log_run config _message w :
  Watch.log config _message w = (Ok tt, logged config _message w).
Proof.
  unfold Watch.log, Watch.broadcast, logged. run. by rewrite <- app_assoc.
Qed.

Lemma broadcast_run config event w :
  Watch.broadcast config event w =
    (Ok tt,
     with_timers (fun ts => ts ++ [(event, devServerBroadcastDelay config)])
       (with_trace (fun t => t ++ [setTimeout_call event
                                     (devServerBroadcastDelay config)]) w)).
Proof. reflexivity. Qed.

Lemma invoke_run (callback : option (WatchCallbacks.Callback X E)) w :
  Watch.invoke callback w = (Ok tt, invoked callback w).
Proof. by destruct callback. Qed.

Lemma onRebuildStart_run config callbacks w :
  Watch.onRebuildStart config callbacks w =
    (Ok tt,
     logged config "Rebuilding..."
       (invoked (WatchCallbacks.onRebuildStart callbacks)
          (with_start (clock w) w))).
Proof.
  unfold Watch.onRebuildStart. step. rewrite invoke_run. step.
  apply log_run.
Qed.

Lemma onRebuildFinish_run config w :
  Watch.onRebuildFinish config w =
    (Ok tt,
     with_timers (fun ts => ts ++ [(RELOAD, devServerBroadcastDelay config)])
       (with_trace (fun t => t ++ [setTimeout_call RELOAD
                                     (devServerBroadcastDelay config)])
          (logged config ("Rebuilt in " +:+ prettyMs (clock w - start w)) w))).
Proof.
  unfold Watch.onRebuildFinish. step. rewrite log_run. step.
  apply broadcast_run.
Qed.

(** A hook always returns. *)
Lemma fire_returns config callbacks h w :
  (Watch.fire config callbacks h w).1 = Ok tt.
Proof.
  destruct h; unfold Watch.fire.
  - by rewrite invoke_run.
  - by rewrite onRebuildStart_run.
  - by rewrite onRebuildFinish_run.
  - unfold Watch.onFileCreated. by rewrite log_run.
  - unfold Watch.onFileChanged. by rewrite log_run.
  - unfold Watch.onFileDeleted. by rewrite log_run.
Qed.

Lemma fire_trace config callbacks h w :
  exists l,
    trace (Watch.fire config callbacks h w).2 = trace w ++ l /\
    publishes l = announced (clock w) (start w) h.
Proof.
  destruct h; unfold Watch.fire.
  - rewrite invoke_run.
    destruct (WatchCallbacks.onInitialBuild callbacks) as [f|]; simpl.
    + eexists. split; [done|]. apply publishes_by_caller.
    + exists []. by rewrite app_nil_r.
  - rewrite onRebuildStart_run.
    destruct (WatchCallbacks.onRebuildStart callbacks) as [f|]; simpl.
    + eexists. split; [by rewrite <- app_assoc|].
      rewrite publishes_app, publishes_by_caller. done.
    + by eexists.
  - rewrite onRebuildFinish_run. simpl.
    eexists. split; [by rewrite <- app_assoc|]. done.
  - unfold Watch.onFileCreated. rewrite log_run. by eexists.
  - unfold Watch.onFileChanged. rewrite log_run. by eexists.
  - unfold Watch.onFileDeleted. rewrite log_run. by eexists.
Qed.

Lemma fire_publishes config callbacks h w :
  publishes (calls_of (Watch.fire config callbacks h) w) =
    announced (clock w) (start w) h.
Proof.
  destruct (fire_trace config callbacks h w) as (l & Ht & Hl).
  by rewrite (calls_of_intro _ _ _ Ht).
Qed.

End HookFacts.

(** C1.  Every invocation of the rebuild-finish hook returns, and what it
    adds to the trace is the console line, then the publish of the LOG event
    whose message is the disc, [Rebuilt in] and the pretty-printed time since
    the rebuild started, then the publish of RELOAD; the timer queue receives
    the two events in that order.  An invocation of any hook that publishes
    RELOAD is a rebuild-finish invocation, and has published that LOG just
    before. *)
Theorem rebuild_finish_log_then_reload `{Collaborators} {X E : Type}
    (config : RemixConfig) (callbacks : WatchCallbacks.t X E)
    (w : World X E) :
  let message := "💿 Rebuilt in " +:+ prettyMs (clock w - start w) in
  let delay := devServerBroadcastDelay config in
  (Watch.fire config callbacks RebuildFinish w).1 = Ok tt /\
  calls_of (Watch.fire config callbacks RebuildFinish) w =
    [console_log message; setTimeout_call (LOG message) delay;
     setTimeout_call RELOAD delay] /\
  timers (Watch.fire config callbacks RebuildFinish w).2 =
    timers w ++ [(LOG message, delay); (RELOAD, delay)] /\
  forall h,
    RELOAD ∈ publishes (calls_of (Watch.fire config callbacks h) w) ->
    h = RebuildFinish /\
    publishes (calls_of (Watch.fire config callbacks h) w) =
      [LOG message; RELOAD].
Proof.
  intros message delay. split; [apply fire_returns|].
  split.
  { apply calls_of_intro. unfold Watch.fire. rewrite onRebuildFinish_run.
    simpl. by rewrite <- app_assoc. }
  split.
  { unfold Watch.fire. rewrite onRebuildFinish_run. simpl.
    by rewrite <- app_assoc. }
  intros h Hin. rewrite fire_publishes in Hin |- *.
  destruct h; simpl in Hin; try done;
    repeat (apply elem_of_cons in Hin as [Hin|Hin]; try discriminate);
    by apply elem_of_nil in Hin.
Qed.

(** ** Delivery and sessions *)

Section SessionFacts.
Context `{Collaborators} {X E : Type}.
Implicit Types (w : World X E) (config : RemixConfig).
Implicit Types (callbacks : WatchCallbacks.t X E).

Lemma send_loop_run (event : BroadcastEvent) (cs : list Client) w :
  for_each (fun client =>
      if decide (readyState client = OPEN)
      then call (client_send (client_id client) (JSON_stringify event))
      else mret tt) cs w =
    (Ok tt, with_trace (fun t => t ++ deliveries event cs) w).
Proof.
  revert w. induction cs as [|client cs IH]; intros w.
  - unfold deliveries. simpl. unfold mret, M_ret, with_trace. simpl.
    rewrite app_nil_r. by destruct w.
  - cbn [for_each]. unfold deliveries. rewrite filter_cons.
    destruct (decide (readyState client = OPEN)) as [Hopen|Hnot].
    + step. rewrite IH. unfold with_trace. simpl.
      by rewrite <- app_assoc.
    + step. apply IH.
Qed.

Lemma deliver_run (event : BroadcastEvent) w :
  Watch.deliver event w =
    (Ok tt, with_trace (fun t => t ++ deliveries event (clients w)) w).
Proof. unfold Watch.deliver. step. apply send_loop_run. Qed.

Lemma elapse_run (i : nat) w :
  Watch.elapse i w =
    match timers w !! i with
    | Some (event, _) =>
        (Ok tt,
         with_trace (fun t => t ++ deliveries event (clients w))
           (with_timers (delete i) w))
    | None => (Ok tt, w)
    end.
Proof.
  unfold Watch.elapse. step.
  destruct (timers w !! i) as [[event delay]|]; [|done].
  step. by rewrite deliver_run.
Qed.

Lemma publishes_deliveries (event : BroadcastEvent) (cs : list Client) :
  publishes (deliveries (X := X) event cs) = [].
Proof.
  unfold deliveries.
  induction (filter _ cs) as [|client l IH]; [done|]. exact IH.
Qed.

Lemma happen_returns config callbacks o w :
  (Watch.happen config callbacks o w).1 = Ok tt.
Proof.
  destruct o as [now|h|i|cs]; unfold Watch.happen; try done.
  - step. apply fire_returns.
  - rewrite elapse_run. by destruct (timers w !! i) as [[? ?]|].
Qed.

(** What one occurrence adds to the trace, and the publishes in it. *)
Lemma happen_trace config callbacks o w :
  exists l,
    trace (Watch.happen config callbacks o w).2 = trace w ++ l /\
    publishes l = match o with
                  | Fires h => announced (clock w) (start w) h
                  | _ => []
                  end.
Proof.
  destruct o as [now|h|i|cs]; unfold Watch.happen.
  - exists []. simpl. by rewrite app_nil_r.
  - step.
    destruct (fire_trace config callbacks h
                (with_trace (fun t => t ++ [hook_invoked h]) w))
      as (l & Ht & Hl).
    exists (hook_invoked h :: l). split; [|exact Hl].
    rewrite Ht. simpl. by rewrite <- app_assoc.
  - rewrite elapse_run. destruct (timers w !! i) as [[event delay]|].
    + eexists. split; [done|]. apply publishes_deliveries.
    + exists []. simpl. by rewrite app_nil_r.
  - exists []. simpl. by rewrite app_nil_r.
Qed.

Lemma for_each_step {A} (f : A -> M (World X E) unit) x xs w :
  (f x w).1 = Ok tt -> for_each f (x :: xs) w = for_each f xs (f x w).2.
Proof.
  intros Hok. cbn [for_each]. unfold mbind, M_bind.
  destruct (f x w) as [[[]|e] w']; simpl in *; [done|discriminate].
Qed.

Lemma count_app {A} (p : A -> bool) (l k : list A) :
  count p (l ++ k) = (count p l + count p k)%nat.
Proof. unfold count. by rewrite List.filter_app, length_app. Qed.

Lemma count_announced now began h :
  count is_LOG (announced now began h) = (if is_InitialBuild h then 0 else 1)%nat
  /\ count is_RELOAD (announced now began h) =
       (if is_RebuildFinish h then 1 else 0)%nat.
Proof. by destruct h. Qed.

(** A session returns, only adds to the trace, and publishes one LOG for
    each hook fired other than the initial-build hook and one RELOAD for each
    rebuild-finish hook fired. *)
Lemma session_trace config callbacks os w :
  (for_each (Watch.happen config callbacks) os w).1 = Ok tt /\
  exists l,
    trace (for_each (Watch.happen config callbacks) os w).2 = trace w ++ l /\
    count is_LOG (publishes l) =
      count (fun h => negb (is_InitialBuild h)) (fired os) /\
    count is_RELOAD (publishes l) = count is_RebuildFinish (fired os).
Proof.
  revert w. induction os as [|o os IH]; intros w.
  - split; [done|]. exists []. simpl. by rewrite app_nil_r.
  - rewrite for_each_step by apply happen_returns.
    destruct (happen_trace config callbacks o w) as (l1 & Ht1 & Hp1).
    destruct (IH (Watch.happen config callbacks o w).2)
      as (Hok & l2 & Ht2 & Hlog & Hreload).
    split; [exact Hok|]. exists (l1 ++ l2).
    split; [by rewrite Ht2, Ht1, <- app_assoc|].
    rewrite publishes_app, !count_app, Hp1, Hlog, Hreload.
    destruct o as [now|h|i|cs]; try done.
    destruct (count_announced (clock w) (start w) h) as [-> ->].
    by destruct h.
Qed.

(** File changes alone publish their LOG events, one each, in order. *)
Lemma file_changes_trace config callbacks (paths : list string) w :
  exists l,
    trace (for_each (Watch.happen config callbacks)
             (map (fun file => Fires (FileChanged file)) paths) w).2
      = trace w ++ l /\
    publishes l =
      map (fun file =>
             LOG ("💿 File changed: " +:+ path_relative process_cwd file))
        paths.
Proof.
  revert w. induction paths as [|file paths IH]; intros w.
  - exists []. simpl. by rewrite app_nil_r.
  - cbn [map]. rewrite for_each_step by apply happen_returns.
    destruct (happen_trace config callbacks (Fires (FileChanged file)) w)
      as (l1 & Ht1 & Hp1).
    destruct (IH (Watch.happen config callbacks
                    (Fires (FileChanged file)) w).2) as (l2 & Ht2 & Hp2).
    exists (l1 ++ l2). split; [by rewrite Ht2, Ht1, <- app_assoc|].
    by rewrite publishes_app, Hp1, Hp2.
Qed.

End SessionFacts.

(** C6, as stated, fails at the initial-build hook: [watch] passes the
    caller's [onInitialBuild] to the compiler as it is, so firing it with the
    callbacks of [dev] opens the listener and publishes nothing. *)
Lemma initial_build_publishes_no_log :
  calls_of (@Watch.fire Sample.collaborators _ _ Sample.config
              (Dev.callbacks 3000) InitialBuild)
           (Sample.world Sample.locals)
    = [by_caller (Dev.app_listen 3000 None
                    "Remix App Server started at http://localhost:3000")] /\
  count is_LOG
    (publishes
       (calls_of (@Watch.fire Sample.collaborators _ _ Sample.config
                    (Dev.callbacks 3000) InitialBuild)
                 (Sample.world Sample.locals))) = 0%nat /\
  count is_LOG
    (publishes
       (calls_of (@Watch.fire Sample.collaborators _ _ Sample.config
                    (Dev.callbacks 3000) InitialBuild)
                 (Sample.world Sample.locals))) <> 1%nat.
Proof.
  assert (Hcalls :
    calls_of (@Watch.fire Sample.collaborators _ _ Sample.config
                (Dev.callbacks 3000) InitialBuild)
             (Sample.world Sample.locals)
      = [by_caller (Dev.app_listen 3000 None
                      "Remix App Server started at http://localhost:3000")]).
  { vm_compute. reflexivity. }
  rewrite Hcalls. split; [reflexivity|]. split; [reflexivity|].
  simpl. discriminate.
Qed.

(** C6, amended.  Each of the hooks for rebuild start, rebuild finish, file
    created, file changed and file deleted publishes exactly one LOG event;
    the initial-build hook publishes none; the rebuild-finish hook is the only
    one that publishes RELOAD, once.  So N file changes publish their N LOG
    events, in order, and nothing else, and a whole session publishes one LOG
    per hook fired other than the initial build and one RELOAD per rebuild
    finished. *)
Theorem hooks_publish_one_log `{Collaborators} {X E : Type}
    (config : RemixConfig) (callbacks : WatchCallbacks.t X E) :
  (forall h (w : World X E),
     count is_LOG (publishes (calls_of (Watch.fire config callbacks h) w))
       = (if is_InitialBuild h then 0 else 1)%nat /\
     count is_RELOAD (publishes (calls_of (Watch.fire config callbacks h) w))
       = (if is_RebuildFinish h then 1 else 0)%nat) /\
  (forall (paths : list string) (w : World X E),
     let session :=
       for_each (Watch.happen config callbacks)
         (map (fun file => Fires (FileChanged file)) paths) in
     publishes (calls_of session w) =
       map (fun file =>
              LOG ("💿 File changed: " +:+ path_relative process_cwd file))
         paths /\
     count is_LOG (publishes (calls_of session w)) = length paths /\
     count is_RELOAD (publishes (calls_of session w)) = 0%nat) /\
  (forall (os : list Occurrence) (w : World X E),
     let session := for_each (Watch.happen config callbacks) os in
     count is_LOG (publishes (calls_of session w))
       = count (fun h => negb (is_InitialBuild h)) (fired os) /\
     count is_RELOAD (publishes (calls_of session w))
       = count is_RebuildFinish (fired os)).
Proof.
  split; [|split].
  - intros h w. rewrite fire_publishes. apply count_announced.
  - intros paths w session.
    destruct (file_changes_trace config callbacks paths w) as (l & Ht & Hl).
    unfold session. rewrite (calls_of_intro _ _ _ Ht), Hl.
    split; [done|]. clear Ht Hl.
    induction paths as [|file paths [IHlog IHreload]]; [done|].
    unfold count in *. simpl. by rewrite IHlog, IHreload.
  - intros os w session.
    destruct (session_trace config callbacks os w) as (_ & l & Ht & Hc).
    unfold session. by rewrite (calls_of_intro _ _ _ Ht).
Qed.

(** One file change and one rebuild that takes 120 ms, in the sample
    project: the four publishes, in call order. *)
Example session_of_one_rebuild :
  publishes
    (calls_of
       (for_each (@Watch.happen Sample.collaborators unit unit Sample.config
                    (WatchCallbacks.or_empty None))
          [Fires (FileChanged "/app/routes/index.tsx"); Fires RebuildStart;
           ClockReaches 1120; Fires RebuildFinish])
       (Sample.world tt))
  = [LOG "💿 File changed: routes/index.tsx"; LOG "💿 Rebuilding...";
     LOG "💿 Rebuilt in 120ms"; RELOAD].
Proof. vm_compute. reflexivity. Qed.

(** C5.  When the timer of a pending broadcast fires, the computation
    returns, and what it adds to the trace is one send of the JSON text of the
    event to each client whose state is OPEN at that moment, in the order of
    the client set: a client in another state receives nothing.  The timer
    leaves the queue and no timer is added, and the client set is as it
    was. *)
Theorem delivery_reaches_open_clients_only `{Collaborators} {X E : Type}
    (i : nat) (event : BroadcastEvent) (delay : Z) (w : World X E) :
  timers w !! i = Some (event, delay) ->
  (Watch.elapse i w).1 = Ok tt /\
  calls_of (Watch.elapse i) w =
    map (fun client => client_send (client_id client) (JSON_stringify event))
      (filter (fun client => readyState client = OPEN) (clients w)) /\
  (forall c, c ∈ calls_of (Watch.elapse i) w ->
     exists client, client ∈ clients w /\ readyState client = OPEN /\
       c = client_send (client_id client) (JSON_stringify event)) /\
  timers (Watch.elapse i w).2 = delete i (timers w) /\
  clients (Watch.elapse i w).2 = clients w.
Proof.
  intros Htimer.
  assert (Hcalls : calls_of (Watch.elapse i) w = deliveries event (clients w)).
  { apply calls_of_intro. by rewrite elapse_run, Htimer. }
  rewrite Hcalls, elapse_run, Htimer. simpl.
  split; [done|]. split; [done|]. split; [|done].
  intros c Hc. unfold deliveries in Hc.
  apply list_elem_of_fmap in Hc as (client & -> & Hclient).
  apply list_elem_of_filter in Hclient as [Hopen Hin].
  by exists client.
Qed.

(** C5 at work: of three clients, the one that is closing is passed over. *)
Lemma delivery_sample :
  let w : World unit unit :=
    with_timers (fun _ => [(RELOAD, 50)]) (Sample.world tt) in
  (@Watch.elapse Sample.collaborators _ _ 0 w).1 = Ok tt /\
  calls_of (@Watch.elapse Sample.collaborators _ _ 0) w =
    [client_send 1 (Sample.stringify RELOAD);
     client_send 3 (Sample.stringify RELOAD)] /\
  timers (@Watch.elapse Sample.collaborators _ _ 0 w).2 = [].
Proof.
  intros w.
  destruct (@delivery_reaches_open_clients_only Sample.collaborators
              unit unit 0%nat RELOAD 50 w eq_refl)
    as (Hok & Hcalls & _ & Htimers & _).
  split; [exact Hok|]. split; [|exact Htimers].
  rewrite Hcalls. reflexivity.
Defined.

(** ** The file system and the continuation of [watch] *)

Lemma prefix_length (s1 s2 : string) :
  String.prefix s1 s2 = true -> (String.length s1 <= String.length s2)%nat.
Proof.
  revert s2. induction s1 as [|a s1 IH]; intros s2 Hp; simpl; [lia|].
  destruct s2 as [|b s2]; simpl in Hp; [discriminate|].
  destruct (Ascii.ascii_dec a b); [|discriminate].
  simpl. apply IH in Hp. lia.
Qed.

Lemma append_length (s1 s2 : string) :
  String.length (s1 +:+ s2) = (String.length s1 + String.length s2)%nat.
Proof. induction s1 as [|a s1 IH]; simpl; [done|]. by rewrite IH. Qed.

Lemma prefix_trans (s1 s2 s3 : string) :
  String.prefix s1 s2 = true -> String.prefix s2 s3 = true ->
  String.prefix s1 s3 = true.
Proof.
  revert s2 s3. induction s1 as [|a s1 IH]; intros s2 s3 H12 H23;
    [by destruct s3|].
  destruct s2 as [|b s2]; [done|]. destruct s3 as [|c s3]; [done|].
  simpl in *.
  destruct (Ascii.ascii_dec a b) as [->|]; [|done].
  destruct (Ascii.ascii_dec b c) as [->|]; [|done].
  by apply (IH s2 s3).
Qed.

Lemma prefix_append (s t : string) : String.prefix s (s +:+ t) = true.
Proof.
  induction s as [|a s IH]; simpl; [by destruct t|].
  by destruct (Ascii.ascii_dec a a).
Qed.

Lemma prefix_refl (s : string) : String.prefix s s = true.
Proof.
  induction s as [|a s IH]; simpl; [done|].
  by destruct (Ascii.ascii_dec a a).
Qed.

Lemma prefix_split (s1 s2 : string) :
  String.prefix s1 s2 = true -> exists t, s2 = s1 +:+ t.
Proof.
  revert s2. induction s1 as [|a s1 IH]; intros s2 Hp.
  - by exists s2.
  - destruct s2 as [|b s2]; simpl in Hp; [discriminate|].
    destruct (Ascii.ascii_dec a b) as [->|]; [|discriminate].
    destruct (IH s2 Hp) as [t ->]. by exists t.
Qed.

(** A directory does not lie inside itself. *)
Lemma below_irrefl (dir : string) : below dir dir = false.
Proof.
  unfold below. destruct (String.prefix _ _) eqn:Hp; [|done].
  apply prefix_length in Hp. rewrite append_length in Hp. simpl in Hp. lia.
Qed.

(** A directory above a path has a shorter name than the path. *)
Lemma ancestors_from_length (seen rest a : string) :
  a ∈ ancestors_from seen rest ->
  (String.length a < String.length seen + String.length rest)%nat.
Proof.
  revert seen. induction rest as [|c rest IH]; intros seen Ha; simpl in *.
  - by apply elem_of_nil in Ha.
  - apply elem_of_app in Ha as [Ha|Ha].
    + destruct (_ && _); [|by apply elem_of_nil in Ha].
      apply list_elem_of_singleton in Ha as ->. lia.
    + apply IH in Ha. rewrite append_length in Ha. simpl in Ha. lia.
Qed.

Lemma ancestors_not_below (dir a : string) :
  a ∈ ancestors dir -> below dir a = false.
Proof.
  intros Ha. apply ancestors_from_length in Ha. simpl in Ha.
  unfold below. destruct (String.prefix _ _) eqn:Hp; [|done].
  apply prefix_length in Hp. rewrite append_length in Hp. simpl in Hp. lia.
Qed.

(** The directories that [mkdirsSync] makes, and nothing else, are new. *)
Lemma lookup_made (l : list string) (fs : gmap string Entry) (p : string) :
  foldr (fun a made => <[a := Directory]> made) fs l !! p =
    if bool_decide (p ∈ l) then Some Directory else fs !! p.
Proof.
  induction l as [|a l IH]; simpl.
  - done.
  - destruct (decide (p = a)) as [->|Hne].
    + rewrite lookup_insert_eq.
      by rewrite bool_decide_eq_true_2 by apply list_elem_of_here.
    + rewrite lookup_insert_ne, IH by done.
      apply (f_equal (fun b : bool => if b then Some Directory else fs !! p)).
      apply bool_decide_ext. rewrite elem_of_cons. tauto.
Qed.

(** What [emptyDirSync] leaves, when it returns: the file system without
    what lay inside the directory, and with the directories it made. *)
Lemma emptyDirSync_result (dir : string) (fs fs' : gmap string Entry) :
  emptyDirSync dir fs = Ok fs' ->
  exists made,
    made ⊆ dir :: ancestors dir /\
    (fs !! dir = Some Directory \/ dir ∈ made) /\
    fs' = foldr (fun a made => <[a := Directory]> made)
            (filter (fun e => below dir e.1 = false) fs) made.
Proof.
  unfold emptyDirSync, mkdirsSync. intros Hrun.
  destruct (fs !! dir) as [[]|] eqn:Hdir.
  - destruct (is_file _ dir); [discriminate|].
    destruct (existsb _ _); [discriminate|]. injection Hrun as <-.
    exists (dir :: ancestors dir). split; [done|]. split; [|done].
    right. apply list_elem_of_here.
  - injection Hrun as <-. exists []. split; [apply list_subseteq_nil|].
    split; [by left|done].
  - destruct (is_file _ dir); [discriminate|].
    destruct (existsb _ _); [discriminate|]. injection Hrun as <-.
    exists (dir :: ancestors dir). split; [done|]. split; [|done].
    right. apply list_elem_of_here.
Qed.

Lemma emptyDirSync_empties (dir : string) (fs fs' : gmap string Entry) :
  emptyDirSync dir fs = Ok fs' ->
  forall p, below dir p = true -> fs' !! p = None.
Proof.
  intros Hrun p Hp.
  destruct (emptyDirSync_result _ _ _ Hrun) as (made & Hmade & _ & ->).
  rewrite lookup_made, bool_decide_eq_false_2.
  - apply map_lookup_filter_None. right. intros e _. simpl. congruence.
  - intros Hin. apply Hmade in Hin. apply elem_of_cons in Hin as [->|Hin].
    + rewrite below_irrefl in Hp. discriminate.
    + apply ancestors_not_below in Hin. congruence.
Qed.

(** The emptied directory is there. *)
Lemma emptyDirSync_directory (dir : string) (fs fs' : gmap string Entry) :
  emptyDirSync dir fs = Ok fs' -> fs' !! dir = Some Directory.
Proof.
  intros Hrun.
  destruct (emptyDirSync_result _ _ _ Hrun) as (made & _ & Hdir & ->).
  rewrite lookup_made. case_bool_decide as Hin; [done|].
  destruct Hdir as [Hdir|Hdir]; [|done].
  apply map_lookup_filter_Some. split; [done|]. apply below_irrefl.
Qed.

Lemma rmSync_removes (path : string) (fs fs' : gmap string Entry) :
  rmSync path fs = Ok fs' -> fs' = delete path fs.
Proof. unfold rmSync. destruct (fs !! path) as [[]|]; congruence. Qed.

Section TeardownFacts.
Context `{Collaborators} {X E : Type}.
Implicit Types (w : World X E) (config : RemixConfig).
Implicit Types (callbacks : WatchCallbacks.t X E).

(** A run of the continuation, step by step: it stops at the first step
    that throws. *)
Lemma teardown_run config callbacks closing w :
  let w1 := closed_down config callbacks closing w in
  Watch.teardown config callbacks closing w =
    match closeWatcher (files w1) with
    | (Throw e, fs1) => (Throw e, with_files fs1 w1)
    | (Ok _, fs1) =>
        match emptyDirSync (assetsBuildDirectory config) fs1 with
        | Throw e =>
            (Throw e,
             with_trace
               (fun t => t ++ [emptyDirSync_call (assetsBuildDirectory config)])
               (with_files fs1 w1))
        | Ok fs2 =>
            let w2 :=
              with_trace
                (fun t => t ++ [emptyDirSync_call (assetsBuildDirectory config);
                                rmSync_call (serverBuildPath config)])
                (with_files fs2 w1) in
            match rmSync (serverBuildPath config) fs2 with
            | Throw e => (Throw e, w2)
            | Ok fs3 => (Ok tt, with_files fs3 w2)
            end
        end
    end.
Proof.
  intros w1. unfold Watch.teardown. step.
  pose proof (proj1 (session_trace config callbacks closing (closing_down w)))
    as Hok.
  assert (Hstart :
    with_trace (fun t => t ++ [closeWatcher_call])
      (with_clients
         (map Watch.terminate
            (clients (with_trace (fun t => t ++ [wss_close]) w)))
         (with_trace (fun t => t ++ [wss_close]) w)) = closing_down w).
  { unfold closing_down, with_trace, with_clients. simpl.
    by rewrite <- app_assoc. }
  rewrite Hstart. fold (closed_down config callbacks closing w) in Hok.
  unfold closed_down in w1. fold w1 in Hok.
  destruct (for_each _ closing (closing_down w)) as [[[]|e] w1'] eqn:Hrun;
    simpl in Hok; [|discriminate].
  subst w1. simpl. unfold on_files, leaving. step.
  destruct (closeWatcher (files w1')) as [[[]|e1] fs1]; cbn [fst snd];
    [|done].
  cbn [files with_files with_trace].
  destruct (emptyDirSync _ fs1) as [fs2|e2]; [|done].
  cbn [files with_files with_trace].
  destruct (rmSync _ fs2) as [fs3|e3];
    unfold with_trace, with_files; simpl; by rewrite <- app_assoc.
Qed.

End TeardownFacts.

(** The continuation that [watch] attaches to its promise, had it run to
    its end: it closes the WebSocket server, awaits the watcher's stop
    function, empties the assets build directory and removes the server
    build, in this order, with the calls of the hooks and deliveries that
    occur during the await in between; no client is left open, nothing lies
    inside the assets build directory and nothing is found at the server
    build path. *)
Lemma teardown_steps_in_order `{Collaborators} {X E : Type}
    (config : RemixConfig) (callbacks : WatchCallbacks.t X E)
    (closing : list Occurrence) (w w' : World X E) :
  Watch.teardown config callbacks closing w = (Ok tt, w') ->
  calls_of (Watch.teardown config callbacks closing) w =
    [wss_close; closeWatcher_call]
    ++ calls_of (for_each (Watch.happen config callbacks) closing)
         (closing_down w)
    ++ [emptyDirSync_call (assetsBuildDirectory config);
        rmSync_call (serverBuildPath config)] /\
  (forall p, below (assetsBuildDirectory config) p = true ->
             files w' !! p = None) /\
  files w' !! serverBuildPath config = None.
Proof.
  intros Hrun. unfold calls_of at 1. rewrite Hrun.
  rewrite teardown_run in Hrun. cbv zeta in Hrun.
  destruct (session_trace config callbacks closing (closing_down w))
    as (_ & l & Hl & _).
  rewrite (calls_of_intro _ _ _ Hl).
  fold (closed_down config callbacks closing w) in Hl.
  destruct (closeWatcher _) as [[[]|e1] fs1]; [|discriminate].
  destruct (emptyDirSync _ fs1) as [fs2|e2] eqn:Hempty; [|discriminate].
  destruct (rmSync _ fs2) as [fs3|e3] eqn:Hrm; [|discriminate].
  injection Hrun as <-. apply rmSync_removes in Hrm as ->.
  split; [|split].
  - simpl. rewrite Hl. unfold closing_down. simpl.
    rewrite <- !app_assoc. rewrite drop_app_length. done.
  - intros p Hp. simpl. apply lookup_delete_None. right.
    by apply (emptyDirSync_empties _ _ _ Hempty).
  - simpl. apply lookup_delete_eq.
Qed.

(** The continuation on the sample project, had it run: the four steps, and
    no client left open. *)
Example teardown_of_the_sample :
  let torn :=
    @Watch.teardown Sample.collaborators unit unit Sample.config
      (WatchCallbacks.or_empty None) [] in
  calls_of torn (Sample.world tt) =
    [wss_close; closeWatcher_call; emptyDirSync_call "/tmp/build";
     rmSync_call "/tmp/server.js"] /\
  map_to_list (files (torn (Sample.world tt)).2) = [("/tmp/build", Directory)]
  /\ map readyState (clients (torn (Sample.world tt)).2) =
       [CLOSING; CLOSING; CLOSING].
Proof. repeat split; vm_compute; reflexivity. Qed.

(** The continuation could not complete when the server build lies inside
    the assets build directory: emptying the directory removes it, and the
    removal that follows finds nothing. *)
Example teardown_of_nested_build :
  let nested :=
    {| rootDirectory := "/app";
       assetsBuildDirectory := "/tmp/build";
       serverBuildPath := "/tmp/build/entry.js";
       devServerPort := 8811;
       devServerBroadcastDelay := 50;
       serverEntryPoint := None |} in
  (@Watch.teardown Sample.collaborators unit unit nested
     (WatchCallbacks.or_empty None) [] (Sample.world tt)).1
    = Throw (SystemError "ENOENT" "/tmp/build/entry.js").
Proof. vm_compute. reflexivity. Qed.

(** ** The start-up of [dev] *)

(** C3.  Take a configuration whose [serverEntryPoint] is set (a non-empty
    string, which is what the test of [dev] accepts).  Then [dev] throws;
    the calls it has made by then are an initial part of: require
    [@remix-run/serve], require [express], read the configuration, load the
    environment, ask for a port.  None of them creates or binds the express
    application or opens the WebSocket server, and apart from the trace the
    world is as it was: no timer is pending, [server] is not assigned.  When
    the five calls succeed, the error is the one about custom servers. *)
Theorem custom_server_fails_before_listening `{Collaborators}
    (remixRoot : string) (modeArg : option string)
    (building waiting : list Occurrence)
    (w : World Dev.DevCall Dev.Locals) (config : RemixConfig) :
  readConfig remixRoot = Ok config ->
  truthy (serverEntryPoint config) = true ->
  let run := Dev.dev remixRoot modeArg building waiting in
  let prelude :=
    [by_caller (Dev.require_call "@remix-run/serve");
     by_caller (Dev.require_call "express");
     readConfig_call remixRoot;
     by_caller (Dev.loadEnv_call (rootDirectory config));
     by_caller (Dev.getPort_call Dev.port_request)] in
  (exists e, (run w).1 = Throw e) /\
  calls_of run w `prefix_of` prelude /\
  Forall (fun c => opens_or_broadcasts c = false) (calls_of run w) /\
  (run w).2 = with_trace (fun t => t ++ calls_of run w) w /\
  (resolves "@remix-run/serve" = true -> resolves "express" = true ->
   loadEnv (rootDirectory config) = Ok tt ->
   (exists port, getPort Dev.port_request = Ok port) ->
   (run w).1 =
     Throw (JsError "remix dev is not supported for custom servers.") /\
   calls_of run w = prelude).
Proof.
  intros Hconfig Hcustom run prelude.
  unfold run, calls_of, Dev.dev, Dev.require_serve. run.
  destruct (resolves "@remix-run/serve") eqn:Hserve; simpl.
  2: { rewrite drop_app_length.
       split; [eauto|]. split; [by eexists [_; _; _; _]|].
       split; [by repeat constructor|]. split; [done|]. intros [=]. }
  destruct (resolves "express") eqn:Hexpress; simpl.
  2: { rewrite <- !app_assoc, drop_app_length. simpl.
       split; [eauto|]. split; [by eexists [_; _; _]|].
       split; [by repeat constructor|].
       split; [done|]. intros _ [=]. }
  rewrite Hconfig. simpl.
  destruct (loadEnv (rootDirectory config)) as [[]|e] eqn:Henv; simpl.
  2: { rewrite <- !app_assoc, drop_app_length. simpl.
       split; [eauto|]. split; [by eexists [_]|].
       split; [by repeat constructor|].
       split; [done|]. intros _ _ [=]. }
  destruct (getPort Dev.port_request) as [port|e] eqn:Hport; simpl.
  2: { rewrite <- !app_assoc, drop_app_length. simpl.
       split; [eauto|]. split; [done|].
       split; [by repeat constructor|].
       split; [done|]. intros _ _ _ [? [=]]. }
  rewrite Hcustom. simpl.
  rewrite <- !app_assoc, drop_app_length. simpl.
  split; [eauto|]. split; [done|].
  split; [by repeat constructor|].
  split; [done|]. done.
Qed.

(** C3 at work: the sample project with a custom server. *)
Lemma custom_server_sample :
  let run := @Dev.dev Sample.collaborators "/custom" None
               [Fires InitialBuild] [] in
  (run (Sample.world Sample.locals)).1 =
    Throw (JsError "remix dev is not supported for custom servers.") /\
  Forall (fun c => opens_or_broadcasts c = false)
    (calls_of run (Sample.world Sample.locals)).
Proof.
  intros run.
  destruct (@custom_server_fails_before_listening Sample.collaborators
              "/custom" None [Fires InitialBuild] []
              (Sample.world Sample.locals) Sample.custom_config
              eq_refl eq_refl)
    as (_ & _ & Hquiet & _ & Hwhy).
  split; [|exact Hquiet].
  apply Hwhy; try reflexivity. by exists 3000.
Defined.

Section DevFacts.
Context `{Collaborators}.
Implicit Types (w : World Dev.DevCall Dev.Locals) (config : RemixConfig).

(** When the start-up goes through, [dev] is [watch] run in the booted
    world, followed by the closing of [server]. *)
Lemma dev_run remixRoot modeArg building waiting w config port :
  resolves "@remix-run/serve" = true ->
  resolves "express" = true ->
  readConfig remixRoot = Ok config ->
  loadEnv (rootDirectory config) = Ok tt ->
  getPort Dev.port_request = Ok port ->
  truthy (serverEntryPoint config) = false ->
  Dev.dev remixRoot modeArg building waiting w =
    try_finally
      (Watch.watch (inr config) (Dev.mode_of modeArg)
         (Some (Dev.callbacks port)) building waiting)
      Dev.close_server
      (booted remixRoot config (Dev.mode_of modeArg) w).
Proof.
  intros Hserve Hexpress Hconfig Henv Hport Hcustom.
  unfold Dev.dev, Dev.require_serve, Dev.use, booted. step.
  rewrite Hserve. step. rewrite Hexpress, Hconfig. step.
  rewrite Henv, Hport. step. rewrite Hcustom.
  f_equal.
  cbv beta iota delta [with_caller with_trace Dev.with_app Dev.with_server
                       trace timers clients files clock start caller
                       Dev.app Dev.server].
  rewrite <- !app_assoc. reflexivity.
Qed.

End DevFacts.

(** ** Trace properties kept by every step *)

Section Adds.
Context {X E : Type} (P : list (Call X) -> Prop) `{!Closed P}.

Lemma adds_ret {A} (a : A) : adds P (mret a : M (World X E) A).
Proof. intros w. exists []. split; [by rewrite app_nil_r|apply closed_nil]. Qed.

Lemma adds_bind {A B} (m : M (World X E) A) (k : A -> M (World X E) B) :
  adds P m -> (forall a, adds P (k a)) -> adds P (m ≫= k).
Proof.
  intros Hm Hk w. destruct (Hm w) as (l & Hl & HP).
  unfold mbind, M_bind. destruct (m w) as [[a|e] w1]; simpl in *.
  - destruct (Hk a w1) as (l' & Hl' & HP'). exists (l ++ l').
    split; [by rewrite Hl', Hl, <- app_assoc|by apply closed_app].
  - by exists l.
Qed.

Lemma adds_call (c : Call X) : P [c] -> adds P (call c : M (World X E) unit).
Proof. intros Hc w. by exists [c]. Qed.

Lemma adds_modify (f : World X E -> World X E) :
  (forall w, trace (f w) = trace w) -> adds P (modify f).
Proof.
  intros Hf w. exists []. simpl. split; [by rewrite Hf, app_nil_r|].
  apply closed_nil.
Qed.

Lemma adds_gets {A} (f : World X E -> A) : adds P (gets f).
Proof. intros w. exists []. split; [by rewrite app_nil_r|apply closed_nil]. Qed.

Lemma adds_settle {A} (r : Result A) : adds P (settle r : M (World X E) A).
Proof. intros w. exists []. split; [by rewrite app_nil_r|apply closed_nil]. Qed.

Lemma adds_throw {A} (e : Error) : adds P (throw e : M (World X E) A).
Proof. intros w. exists []. split; [by rewrite app_nil_r|apply closed_nil]. Qed.

Lemma adds_exit_hook_fires {A}
    (continuation : list Occurrence -> M (World X E) A) :
  adds P (Watch.exit_hook_fires continuation).
Proof. apply adds_throw. Qed.

Lemma adds_leaving
    (op : gmap string Entry -> Result unit * gmap string Entry) :
  adds P (leaving op : M (World X E) unit).
Proof. intros w. exists []. split; [by rewrite app_nil_r|apply closed_nil]. Qed.

Lemma adds_on_files (op : gmap string Entry -> Result (gmap string Entry)) :
  adds P (on_files op : M (World X E) unit).
Proof.
  intros w. exists []. unfold on_files.
  split; [|apply closed_nil]. rewrite app_nil_r.
  by destruct (op (files w)).
Qed.

Lemma adds_for_each {A} (f : A -> M (World X E) unit) (xs : list A) :
  (forall x, adds P (f x)) -> adds P (for_each f xs).
Proof.
  intros Hf. induction xs as [|x xs IH]; simpl.
  - apply adds_ret.
  - apply adds_bind; [apply Hf|]. intros _. exact IH.
Qed.

Lemma adds_try_finally {A} (body : M (World X E) A) (fin : M (World X E) unit) :
  adds P body -> adds P fin -> adds P (try_finally body fin).
Proof.
  intros Hbody Hfin w. unfold try_finally.
  destruct (Hbody w) as (l & Hl & HP).
  destruct (body w) as [r w1]. simpl in *.
  destruct (Hfin w1) as (l' & Hl' & HP').
  destruct r as [a|[message|code path|]]; [..|by exists l];
    (exists (l ++ l'); split; [|by apply closed_app]);
    destruct (fin w1) as [[[]|e] w2]; simpl in *;
    by rewrite Hl', Hl, <- app_assoc.
Qed.

Lemma adds_calls_of {A} (m : M (World X E) A) w : adds P m -> P (calls_of m w).
Proof.
  intros Hm. destruct (Hm w) as (l & Hl & HP).
  by rewrite (calls_of_intro _ _ _ Hl).
Qed.

End Adds.

Section Keeps.
Context {X E : Type} (I : E -> Prop).

Lemma keeps_unchanged {A} (m : M (World X E) A) :
  (forall w, caller (m w).2 = caller w) -> keeps I m.
Proof. intros Hm w Hw. by rewrite Hm. Qed.

Lemma keeps_ret {A} (a : A) : keeps I (mret a : M (World X E) A).
Proof. by apply keeps_unchanged. Qed.

Lemma keeps_bind {A B} (m : M (World X E) A) (k : A -> M (World X E) B) :
  keeps I m -> (forall a, keeps I (k a)) -> keeps I (m ≫= k).
Proof.
  intros Hm Hk w Hw. specialize (Hm w Hw).
  unfold mbind, M_bind. destruct (m w) as [[a|e] w1]; simpl in *; [|done].
  by apply Hk.
Qed.

Lemma keeps_call (c : Call X) : keeps I (call c : M (World X E) unit).
Proof. by apply keeps_unchanged. Qed.

Lemma keeps_modify (f : World X E -> World X E) :
  (forall w, I (caller w) -> I (caller (f w))) -> keeps I (modify f).
Proof. intros Hf w Hw. by apply Hf. Qed.

Lemma keeps_gets {A} (f : World X E -> A) : keeps I (gets f).
Proof. by apply keeps_unchanged. Qed.

Lemma keeps_settle {A} (r : Result A) : keeps I (settle r : M (World X E) A).
Proof. by apply keeps_unchanged. Qed.

Lemma keeps_throw {A} (e : Error) : keeps I (throw e : M (World X E) A).
Proof. by apply keeps_unchanged. Qed.

Lemma keeps_exit_hook_fires {A}
    (continuation : list Occurrence -> M (World X E) A) :
  keeps I (Watch.exit_hook_fires continuation).
Proof. apply keeps_throw. Qed.

Lemma keeps_leaving
    (op : gmap string Entry -> Result unit * gmap string Entry) :
  keeps I (leaving op : M (World X E) unit).
Proof. by apply keeps_unchanged. Qed.

Lemma keeps_on_files (op : gmap string Entry -> Result (gmap string Entry)) :
  keeps I (on_files op : M (World X E) unit).
Proof.
  apply keeps_unchanged. intros w. unfold on_files.
  by destruct (op (files w)).
Qed.

Lemma keeps_for_each {A} (f : A -> M (World X E) unit) (xs : list A) :
  Forall (fun x => keeps I (f x)) xs -> keeps I (for_each f xs).
Proof.
  induction 1 as [|x xs Hx _ IH]; simpl.
  - apply keeps_ret.
  - apply keeps_bind; [exact Hx|]. intros _. exact IH.
Qed.

Lemma keeps_try_finally {A} (body : M (World X E) A)
    (fin : M (World X E) unit) :
  keeps I body -> keeps I fin -> keeps I (try_finally body fin).
Proof.
  intros Hbody Hfin w Hw. unfold try_finally.
  specialize (Hbody w Hw). destruct (body w) as [r w1]. simpl in *.
  specialize (Hfin w1 Hbody).
  destruct r as [a|[message|code path|]]; [..|done];
    by destruct (fin w1) as [[[]|e] w2].
Qed.

End Keeps.

(** Proves [keeps] for a computation written with the monad's operations. *)
Ltac keeps_steps :=
  repeat first
    [ apply keeps_ret
    | apply keeps_gets
    | apply keeps_settle
    | apply keeps_throw
    | apply keeps_exit_hook_fires
    | apply keeps_leaving
    | apply keeps_on_files
    | apply keeps_call
    | apply keeps_bind; [|intros ?] ].

(** Proves [adds] for a computation written with the monad's operations. *)
Ltac adds_steps :=
  repeat first
    [ apply adds_call
    | apply adds_ret; solve [tc_solve]
    | apply adds_gets; solve [tc_solve]
    | apply adds_settle; solve [tc_solve]
    | apply adds_throw; solve [tc_solve]
    | apply adds_exit_hook_fires; solve [tc_solve]
    | apply adds_leaving; solve [tc_solve]
    | apply adds_on_files; solve [tc_solve]
    | apply adds_modify; [tc_solve|reflexivity]
    | apply adds_bind; [tc_solve| |intros ?]
    | apply adds_for_each; [tc_solve|intros ?] ].

(** ** The listener of [dev] *)

Lemma listens_in_hook_weaken (after : bool) (t : list (Call Dev.DevCall)) :
  listens_in_hook false t = true -> listens_in_hook after t = true.
Proof.
  destruct t as [|c rest]; [done|]. simpl.
  destruct (is_listen c); [done|]. by destruct after.
Qed.

Lemma listens_in_hook_app (after : bool) (l k : list (Call Dev.DevCall)) :
  listens_in_hook after l = true -> listens_in_hook false k = true ->
  listens_in_hook after (l ++ k) = true.
Proof.
  revert after. induction l as [|c l IH]; intros after Hl Hk; simpl in *.
  - by apply listens_in_hook_weaken.
  - apply andb_true_iff in Hl as [Hc Hl]. rewrite Hc. simpl. by apply IH.
Qed.

(** What [listens_in_hook] says of each binding on the trace. *)
Lemma listens_in_hook_inv (after : bool) (t pre post : list (Call Dev.DevCall))
    (c : Call Dev.DevCall) :
  listens_in_hook after t = true -> t = pre ++ c :: post ->
  is_listen c = true ->
  (pre = [] /\ after = true) \/
  exists pre', pre = pre' ++ [hook_invoked InitialBuild].
Proof.
  revert after t. induction pre as [|a pre IH]; intros after t Ht -> Hc.
  - left. simpl in Ht. rewrite Hc in Ht. by destruct after.
  - right. simpl in Ht. apply andb_true_iff in Ht as [_ Ht].
    destruct (IH _ _ Ht eq_refl Hc) as [[-> Ha]|[pre' ->]].
    + exists []. simpl. f_equal. destruct a; try discriminate.
      match goal with h : Hook |- _ => by destruct h end.
    + by exists (a :: pre').
Qed.

#[global] Instance listens_in_hook_closed :
  Closed (fun t => listens_in_hook false t = true).
Proof.
  split; [done|]. intros l k. apply listens_in_hook_app.
Qed.

Section ListenerFacts.
Context `{Collaborators}.
Implicit Types (w : World Dev.DevCall Dev.Locals) (config : RemixConfig).

Abbreviation in_hook := (fun t => listens_in_hook false t = true).

Lemma log_adds_in_hook config _message :
  adds in_hook
    (Watch.log config _message : M (World Dev.DevCall Dev.Locals) unit).
Proof.
  unfold Watch.log, Watch.broadcast. adds_steps; reflexivity.
Qed.

Lemma deliveries_in_hook (event : BroadcastEvent) (cs : list Client) :
  listens_in_hook false (deliveries (X := Dev.DevCall) event cs) = true.
Proof.
  unfold deliveries. generalize false.
  induction (filter _ cs) as [|client l IH]; intros after; [done|].
  simpl. apply IH.
Qed.

Lemma happen_adds_in_hook config port o :
  adds in_hook (Watch.happen config (Dev.callbacks port) o).
Proof.
  destruct o as [now|h|i|cs]; unfold Watch.happen.
  - adds_steps.
  - destruct h; unfold Watch.fire, Watch.onRebuildStart,
      Watch.onRebuildFinish, Watch.onFileCreated, Watch.onFileChanged,
      Watch.onFileDeleted, Dev.callbacks, Watch.invoke;
      cbn [WatchCallbacks.onInitialBuild WatchCallbacks.onRebuildStart].
    + intros w. eexists [_; _].
      split; [unfold Dev.onInitialBuild; run; cbn [map];
              by rewrite <- app_assoc|reflexivity].
    + adds_steps; first [reflexivity|apply log_adds_in_hook].
    + unfold Watch.broadcast.
      adds_steps; first [reflexivity|apply log_adds_in_hook].
    + adds_steps; first [reflexivity|apply log_adds_in_hook].
    + adds_steps; first [reflexivity|apply log_adds_in_hook].
    + adds_steps; first [reflexivity|apply log_adds_in_hook].
  - intros w. rewrite elapse_run.
    destruct (timers w !! i) as [[event delay]|].
    + eexists. split; [done|]. apply deliveries_in_hook.
    + exists []. by rewrite app_nil_r.
  - adds_steps.
Qed.

Lemma watch_adds_in_hook config mode port building waiting :
  adds in_hook
    (Watch.watch (inr config) mode (Some (Dev.callbacks port))
       building waiting).
Proof.
  unfold Watch.watch.
  adds_steps; first [reflexivity|apply happen_adds_in_hook].
Qed.

Lemma close_server_adds_in_hook : adds in_hook Dev.close_server.
Proof.
  unfold Dev.close_server. adds_steps.
  match goal with |- adds _ (match ?s with _ => _ end) => destruct s end;
    adds_steps; reflexivity.
Qed.

Lemma dev_adds_in_hook remixRoot modeArg building waiting :
  adds in_hook (Dev.dev remixRoot modeArg building waiting).
Proof.
  unfold Dev.dev, Dev.require_serve, Dev.use.
  adds_steps; try reflexivity.
  - destruct (resolves "@remix-run/serve"); adds_steps; try reflexivity.
    destruct (resolves "express"); adds_steps.
  - match goal with |- adds _ (if ?b then _ else _) => destruct b end;
      adds_steps; try reflexivity.
    apply adds_try_finally; [tc_solve| |apply close_server_adds_in_hook].
    apply watch_adds_in_hook.
Qed.

End ListenerFacts.

Section ServerFacts.
Context `{Collaborators}.
Implicit Types (w : World Dev.DevCall Dev.Locals) (config : RemixConfig).
Implicit Types (I : Dev.Locals -> Prop).

(** With the callbacks of [dev], a hook other than the initial build leaves
    the local variables of [dev] alone. *)
Lemma fire_caller config port h w :
  is_InitialBuild h = false ->
  caller (Watch.fire config (Dev.callbacks port) h w).2 = caller w.
Proof.
  intros Hh. destruct h; try discriminate; unfold Watch.fire.
  - by rewrite onRebuildStart_run.
  - by rewrite onRebuildFinish_run.
  - unfold Watch.onFileCreated. by rewrite log_run.
  - unfold Watch.onFileChanged. by rewrite log_run.
  - unfold Watch.onFileDeleted. by rewrite log_run.
Qed.

Lemma happen_caller config port o w :
  o <> Fires InitialBuild ->
  caller (Watch.happen config (Dev.callbacks port) o w).2 = caller w.
Proof.
  intros Ho. destruct o as [now|h|i|cs]; unfold Watch.happen; try done.
  - step. rewrite fire_caller; [done|]. by destruct h.
  - rewrite elapse_run. by destruct (timers w !! i) as [[? ?]|].
Qed.

(** The initial-build hook assigns [server] and nothing else. *)
Lemma happen_initial_build config port w :
  caller (Watch.happen config (Dev.callbacks port) (Fires InitialBuild) w).2
    = Dev.with_server
        (Some {| Dev.bound_port := port;
                 Dev.bound_host := if truthy env_HOST then env_HOST
                                   else None |})
        (caller w).
Proof. reflexivity. Qed.

Lemma happen_keeps_app config port o stack :
  keeps (fun e => Dev.app e = stack)
    (Watch.happen config (Dev.callbacks port) o).
Proof.
  assert (Hquiet : o <> Fires InitialBuild ->
            keeps (fun e => Dev.app e = stack)
              (Watch.happen config (Dev.callbacks port) o)).
  { intros Ho. apply keeps_unchanged. intros w. by apply happen_caller. }
  destruct o as [now|h|i|cs]; [by apply Hquiet| |by apply Hquiet..].
  destruct h; try by apply Hquiet.
  intros w Hw. by rewrite happen_initial_build.
Qed.

Lemma close_server_keeps I : keeps I Dev.close_server.
Proof.
  unfold Dev.close_server. keeps_steps.
  match goal with |- keeps _ (match ?s with _ => _ end) => destruct s end;
    keeps_steps.
Qed.

(** What [watch] keeps of the caller's state depends on its sessions only. *)
Lemma watch_keeps I config mode port building waiting :
  (forall config',
     Forall (fun o => keeps I (Watch.happen config' (Dev.callbacks port) o))
       (building ++ waiting)) ->
  keeps I (Watch.watch (inr config) mode (Some (Dev.callbacks port))
             building waiting).
Proof.
  intros Hos. unfold Watch.watch. keeps_steps.
  - by apply keeps_modify.
  - apply keeps_for_each.
    match goal with |- Forall (fun o => keeps _ (Watch.happen ?c _ o)) _ =>
      by destruct (proj1 (Forall_app _ _ _) (Hos c)) end.
  - apply keeps_for_each.
    match goal with |- Forall (fun o => keeps _ (Watch.happen ?c _ o)) _ =>
      by destruct (proj1 (Forall_app _ _ _) (Hos c)) end.
Qed.

Lemma watch_keeps_app config mode port building waiting stack :
  keeps (fun e => Dev.app e = stack)
    (Watch.watch (inr config) mode (Some (Dev.callbacks port))
       building waiting).
Proof.
  apply watch_keeps. intros config'. apply Forall_forall. intros o _.
  apply happen_keeps_app.
Qed.

(** As long as the initial-build hook does not fire, [server] stays null. *)
Lemma session_keeps_server_null config port os :
  InitialBuild ∉ fired os ->
  Forall (fun o => keeps (fun e => Dev.server e = None)
                     (Watch.happen config (Dev.callbacks port) o)) os.
Proof.
  intros Hos. apply Forall_forall. intros o Ho.
  apply keeps_unchanged. intros w. apply happen_caller. intros ->.
  apply Hos. unfold fired. apply list_elem_of_omap.
  by exists (Fires InitialBuild).
Qed.

End ServerFacts.

(** C7.  In every run of [dev], each binding of the HTTP listener on the
    trace comes right after an invocation of the initial-build hook by the
    compiler; with the callbacks of [dev], no other hook touches the local
    variables of [dev]; as long as the initial-build hook has not fired,
    [server] is null; and [server] is null in the world in which [dev] calls
    [watch]. *)
Theorem listener_bound_only_in_initial_build `{Collaborators} :
  (forall remixRoot modeArg building waiting
          (w : World Dev.DevCall Dev.Locals) pre post port host line,
     calls_of (Dev.dev remixRoot modeArg building waiting) w
       = pre ++ by_caller (Dev.app_listen port host line) :: post ->
     exists pre', pre = pre' ++ [hook_invoked InitialBuild]) /\
  (forall config port h (w : World Dev.DevCall Dev.Locals),
     is_InitialBuild h = false ->
     caller (Watch.fire config (Dev.callbacks port) h w).2 = caller w) /\
  (forall config port os (w : World Dev.DevCall Dev.Locals),
     InitialBuild ∉ fired os ->
     Dev.server (caller w) = None ->
     Dev.server
       (caller (for_each (Watch.happen config (Dev.callbacks port)) os w).2)
       = None) /\
  (forall remixRoot modeArg building waiting
          (w : World Dev.DevCall Dev.Locals) config port,
     resolves "@remix-run/serve" = true ->
     resolves "express" = true ->
     readConfig remixRoot = Ok config ->
     loadEnv (rootDirectory config) = Ok tt ->
     getPort Dev.port_request = Ok port ->
     truthy (serverEntryPoint config) = false ->
     let boot := booted remixRoot config (Dev.mode_of modeArg) w in
     Dev.dev remixRoot modeArg building waiting w =
       try_finally
         (Watch.watch (inr config) (Dev.mode_of modeArg)
            (Some (Dev.callbacks port)) building waiting)
         Dev.close_server boot /\
     Dev.server (caller boot) = None /\
     Forall (fun c => is_listen c = false)
       (drop (length (trace w)) (trace boot))).
Proof.
  split; [|split; [|split]].
  - intros remixRoot modeArg building waiting w pre post port host line Ht.
    pose proof (adds_calls_of (fun t => listens_in_hook false t = true)
                  (Dev.dev remixRoot modeArg building waiting) w
                  (dev_adds_in_hook _ _ _ _)) as Hin.
    destruct (listens_in_hook_inv _ _ _ _ _ Hin Ht eq_refl) as [[_ ?]|?];
      [discriminate|done].
  - intros config port h w. apply fire_caller.
  - intros config port os w Hos Hnull.
    by apply (keeps_for_each _ _ _ (session_keeps_server_null config port os Hos)).
  - intros remixRoot modeArg building waiting w config port
      Hserve Hexpress Hconfig Henv Hport Hcustom boot.
    split; [by apply dev_run|]. split; [done|].
    unfold boot, booted. simpl. rewrite drop_app_length.
    by repeat constructor.
Qed.

(** C9.  When [server] is still null, the closing step of [dev] returns and
    leaves the world as it is, trace included; so a body after which [server]
    is null runs under [try ... finally] exactly as it runs alone. *)
Theorem close_without_server_is_noop `{Collaborators}
    (w : World Dev.DevCall Dev.Locals) :
  Dev.server (caller w) = None ->
  Dev.close_server w = (Ok tt, w) /\
  forall (body : M (World Dev.DevCall Dev.Locals) unit) w0,
    (body w0).2 = w -> try_finally body Dev.close_server w0 = body w0.
Proof.
  intros Hnull.
  assert (Hclose : Dev.close_server w = (Ok tt, w)).
  { unfold Dev.close_server. step. by rewrite Hnull. }
  split; [exact Hclose|].
  intros body w0 Hbody. unfold try_finally.
  destruct (body w0) as [r w1]. simpl in Hbody. subst w1.
  rewrite Hclose. by destruct r as [a|[message|code path|]].
Qed.

(** C9 at work: a run of the sample project in which the compiler never
    reports the initial build; [server] is null at its end. *)
Lemma close_without_server_sample :
  let boot :=
    @booted Sample.collaborators "/app" Sample.config (Some "development")
      (Sample.world Sample.locals) in
  let body :=
    @Watch.watch Sample.collaborators _ _ (inr Sample.config)
      (Some "development") (Some (Dev.callbacks 3000))
      [] [Fires RebuildStart; Fires RebuildFinish] in
  @Dev.close_server Sample.collaborators (body boot).2 = (Ok tt, (body boot).2)
  /\ try_finally body Dev.close_server boot = body boot.
Proof.
  intros boot body.
  assert (Hnull : Dev.server (caller (body boot).2) = None).
  { vm_compute. reflexivity. }
  destruct (@close_without_server_is_noop Sample.collaborators
              (body boot).2 Hnull) as [Hclose Hfinally].
  split; [exact Hclose|]. by apply Hfinally.
Defined.

(** ** The module cache *)

Section CacheFacts.
Context {V : Type}.
Implicit Types (cache : gmap string V) (key buildPath : string).

(** The loop, stopped after any list of keys. *)
Lemma purge_keys_lookup buildPath (keys : list string) cache key :
  foldl (RequireCache.purge_step buildPath) cache keys !! key =
    if RequireCache.startsWith key buildPath && bool_decide (key ∈ keys)
    then None else cache !! key.
Proof.
  revert cache. induction keys as [|k keys IH]; intros cache; simpl.
  - by rewrite andb_false_r.
  - rewrite IH. unfold RequireCache.purge_step.
    destruct (decide (key = k)) as [->|Hne].
    + rewrite (bool_decide_eq_true_2 (k ∈ k :: keys)) by apply list_elem_of_here.
      rewrite andb_true_r.
      destruct (RequireCache.startsWith k buildPath); simpl; [|done].
      rewrite lookup_delete_eq. by destruct (bool_decide _).
    + assert (Hother :
        (if RequireCache.startsWith k buildPath
         then delete k cache else cache) !! key = cache !! key).
      { destruct (RequireCache.startsWith k buildPath); [|done].
        by rewrite lookup_delete_ne. }
      rewrite Hother.
      assert (Hmem : bool_decide (key ∈ k :: keys) = bool_decide (key ∈ keys)).
      { apply bool_decide_ext. rewrite elem_of_cons. tauto. }
      by rewrite Hmem.
Qed.

(** The purged cache, key by key. *)
Lemma purge_lookup buildPath cache key :
  RequireCache.purgeAppRequireCache buildPath cache !! key =
    if RequireCache.startsWith key buildPath then None else cache !! key.
Proof.
  unfold RequireCache.purgeAppRequireCache. rewrite purge_keys_lookup.
  destruct (RequireCache.startsWith key buildPath); simpl; [|done].
  case_bool_decide as Hin; [done|].
  destruct (cache !! key) as [m|] eqn:Hm; [|done].
  exfalso. apply Hin. apply list_elem_of_fmap. exists (key, m).
  split; [done|]. by apply elem_of_map_to_list.
Qed.

End CacheFacts.

(** C4, as stated, fails: the purge tests [key.startsWith(buildPath)], so for
    the build path [/app/build] it also evicts [/app/buildx] and
    [/app/build-other/x.js], which are not rooted under that path.  Of the
    five entries of the sample cache, only the module from [node_modules] is
    left. *)
Lemma purge_evicts_keys_beside_the_build :
  rooted_under "/app/build" "/app/buildx" = false /\
  rooted_under "/app/build" "/app/build-other/x.js" = false /\
  Sample.modules !! "/app/buildx" = Some tt /\
  Sample.modules !! "/app/build-other/x.js" = Some tt /\
  RequireCache.purgeAppRequireCache "/app/build" Sample.modules
    !! "/app/buildx" = None /\
  RequireCache.purgeAppRequireCache "/app/build" Sample.modules
    !! "/app/build-other/x.js" = None /\
  map_to_list (RequireCache.purgeAppRequireCache "/app/build" Sample.modules)
    = [("/app/node_modules/react/index.js", tt)].
Proof. repeat split; vm_compute; reflexivity. Qed.

(** C4, amended.  The purge removes exactly the entries whose key starts
    with the build path as a string, that is, whose key is the build path
    followed by any text: such a key is absent afterwards, and every other
    key maps to what it mapped to before.  The keys rooted under the build
    path are among those removed.  The request pipeline that [dev] mounts
    runs the purge with the server build path on every request and hands the
    purged cache to the handler of [createApp], whatever the request and the
    cache; and that pipeline is what [app] holds at the end of a run of [dev]
    whose start-up went through. *)
Theorem purge_scoped_to_build_path `{Collaborators} :
  (forall (V : Type) (buildPath : string) (cache : gmap string V)
          (key : string),
     RequireCache.purgeAppRequireCache buildPath cache !! key =
       if RequireCache.startsWith key buildPath then None
       else cache !! key) /\
  (forall buildPath key : string,
     RequireCache.startsWith key buildPath = true <->
     exists rest, key = buildPath +:+ rest) /\
  (forall buildPath key : string,
     rooted_under buildPath key = true ->
     RequireCache.startsWith key buildPath = true) /\
  (forall (config : RemixConfig) (mode : option string) (req : Request)
          (cache : gmap string Module_),
     Express.handle
       [Dev.purge_middleware config; Dev.createApp_middleware config mode]
       req cache =
     createApp (serverBuildPath config) mode req
       (RequireCache.purgeAppRequireCache (serverBuildPath config) cache)) /\
  (forall remixRoot modeArg building waiting
          (w : World Dev.DevCall Dev.Locals) config port,
     resolves "@remix-run/serve" = true ->
     resolves "express" = true ->
     readConfig remixRoot = Ok config ->
     loadEnv (rootDirectory config) = Ok tt ->
     getPort Dev.port_request = Ok port ->
     truthy (serverEntryPoint config) = false ->
     Dev.app (caller (Dev.dev remixRoot modeArg building waiting w).2) =
       [Dev.purge_middleware config;
        Dev.createApp_middleware config (Dev.mode_of modeArg)]).
Proof.
  split; [|split; [|split; [|split]]].
  - intros V buildPath cache key. apply purge_lookup.
  - intros buildPath key. unfold RequireCache.startsWith. split.
    + apply prefix_split.
    + intros [rest ->]. apply prefix_append.
  - intros buildPath key. unfold rooted_under, RequireCache.startsWith, below.
    intros [Hsame|Hbelow]%orb_true_iff.
    + apply String.eqb_eq in Hsame as ->. apply prefix_refl.
    + by apply (prefix_trans _ _ _ (prefix_append buildPath "/")).
  - intros config mode req cache. reflexivity.
  - intros remixRoot modeArg building waiting w config port
      Hserve Hexpress Hconfig Henv Hport Hcustom.
    rewrite (dev_run _ _ _ _ _ _ _ Hserve Hexpress Hconfig Henv Hport Hcustom).
    apply (keeps_try_finally (fun e => Dev.app e = _)).
    + apply watch_keeps_app.
    + apply close_server_keeps.
    + reflexivity.
Qed.

(** A request in the sample project: the entries whose key starts with the
    server build path go, [createApp]'s handler loads the build anew, and
    the module from [node_modules] stays. *)
Example request_purges_the_build :
  let cache : gmap string unit :=
    {[ "/tmp/server.js" := tt;
       "/tmp/server.js.map" := tt;
       "/app/node_modules/react/index.js" := tt ]} in
  map_to_list
    (RequireCache.purgeAppRequireCache "/tmp/server.js" cache)
    = [("/app/node_modules/react/index.js", tt)] /\
  dom (Express.handle
         [@Dev.purge_middleware Sample.collaborators Sample.config;
          @Dev.createApp_middleware Sample.collaborators Sample.config
            (Some "development")]
         "GET /" cache)
    = {[ "/tmp/server.js"; "/app/node_modules/react/index.js" ]}.
Proof. split; vm_compute; reflexivity. Qed.


(** ** Computations that only add to the trace *)

#[global] Instance any_trace_closed {X} : Closed (fun _ : list (Call X) => True).
Proof. by split. Qed.

Section ModeFacts.
Context `{Collaborators} {X E : Type}.
Implicit Types (w : World X E).

Abbreviation grows := (adds (fun _ => True)).

Lemma happen_grows config (callbacks : WatchCallbacks.t X E) o :
  grows (Watch.happen config callbacks o).
Proof.
  intros w. destruct (happen_trace config callbacks o w) as (l & Hl & _).
  by exists l.
Qed.

(** A computation that starts with a call has that call first among the
    calls it adds. *)
Lemma calls_of_first (c : Call X) (rest : M (World X E) unit) w :
  grows rest -> exists l, calls_of (call c ;; rest) w = c :: l.
Proof.
  intros Hrest.
  destruct (Hrest (with_trace (fun t => t ++ [c]) w)) as (l & Hl & _).
  exists l. apply calls_of_intro.
  change ((call c ;; rest) w) with (rest (with_trace (fun t => t ++ [c]) w)).
  rewrite Hl. simpl. by rewrite <- app_assoc.
Qed.

End ModeFacts.

(** * Part III: further properties of the commands *)

(** ** More on the purge *)


(** X1.  With the empty string as build path every key passes the test of
    the loop, so the purge empties the cache. *)
Theorem purge_with_empty_path_empties {V : Type} (cache : gmap string V) :
  RequireCache.purgeAppRequireCache "" cache = ∅.
Proof.
  apply map_eq. intros key. rewrite purge_lookup, lookup_empty.
  unfold RequireCache.startsWith. by destruct key.
Qed.

(** X2.  The purge leaves a cache as it is exactly when no key of the cache
    starts with the build path. *)
Theorem purge_unchanged_iff {V : Type} (buildPath : string)
    (cache : gmap string V) :
  RequireCache.purgeAppRequireCache buildPath cache = cache <->
  forall key, is_Some (cache !! key) ->
              RequireCache.startsWith key buildPath = false.
Proof.
  split.
  - intros Hsame key [v Hv].
    destruct (RequireCache.startsWith key buildPath) eqn:Hkey; [|done].
    rewrite <- Hsame, purge_lookup, Hkey in Hv. discriminate.
  - intros Hnone. apply map_eq. intros key. rewrite purge_lookup.
    destruct (cache !! key) as [v|] eqn:Hv.
    + by rewrite (Hnone key) by (by rewrite Hv).
    + by destruct (RequireCache.startsWith key buildPath).
Qed.

(** X3.  When one build path starts with another, purging with both, in
    either order, is purging with the shorter one. *)
Theorem purge_nested_paths {V : Type} (inner outer : string)
    (cache : gmap string V) :
  RequireCache.startsWith inner outer = true ->
  RequireCache.purgeAppRequireCache outer
    (RequireCache.purgeAppRequireCache inner cache)
    = RequireCache.purgeAppRequireCache outer cache /\
  RequireCache.purgeAppRequireCache inner
    (RequireCache.purgeAppRequireCache outer cache)
    = RequireCache.purgeAppRequireCache outer cache.
Proof.
  intros Hnested.
  assert (Hkeys : forall key, RequireCache.startsWith key inner = true ->
                              RequireCache.startsWith key outer = true).
  { intros key Hkey. unfold RequireCache.startsWith in *.
    by apply (prefix_trans outer inner key). }
  split; apply map_eq; intros key; rewrite !purge_lookup.
  - destruct (RequireCache.startsWith key outer) eqn:Hout; [done|].
    destruct (RequireCache.startsWith key inner) eqn:Hin; [|done].
    apply Hkeys in Hin. congruence.
  - destruct (RequireCache.startsWith key inner) eqn:Hin; [|done].
    by rewrite (Hkeys key Hin).
Qed.

(** X3 at work: the server build inside the build directory. *)
Lemma purge_nested_paths_sample :
  let cache : gmap string unit :=
    {[ "/app/build/index.js" := tt; "/app/build/assets.json" := tt;
       "/app/node_modules/react/index.js" := tt ]} in
  RequireCache.purgeAppRequireCache "/app/build"
    (RequireCache.purgeAppRequireCache "/app/build/index.js" cache)
    = RequireCache.purgeAppRequireCache "/app/build" cache /\
  RequireCache.purgeAppRequireCache "/app/build/index.js"
    (RequireCache.purgeAppRequireCache "/app/build" cache)
    = RequireCache.purgeAppRequireCache "/app/build" cache.
Proof.
  intros cache.
  apply (purge_nested_paths "/app/build/index.js" "/app/build" cache).
  reflexivity.
Defined.


(** ** More on sessions of [watch] *)

Section SessionFrame.
Context `{Collaborators} {X E : Type}.
Implicit Types (w : World X E) (config : RemixConfig).
Implicit Types (callbacks : WatchCallbacks.t X E) (o : Occurrence).

Lemma happen_fires_run config callbacks h w :
  Watch.happen config callbacks (Fires h) w =
    Watch.fire config callbacks h
      (with_trace (fun t => t ++ [hook_invoked h]) w).
Proof. reflexivity. Qed.

(** The world after a hook, field by field. *)
Lemma fire_fields config callbacks h w :
  let w' := (Watch.fire config callbacks h w).2 in
  files w' = files w /\ clients w' = clients w /\ clock w' = clock w /\
  start w' = match h with RebuildStart => clock w | _ => start w end /\
  timers w' = timers w ++
    map (fun event => (event, devServerBroadcastDelay config))
      (announced (clock w) (start w) h).
Proof.
  destruct h; unfold Watch.fire; cbv zeta.
  - rewrite invoke_run.
    destruct (WatchCallbacks.onInitialBuild callbacks); simpl;
      by rewrite app_nil_r.
  - rewrite onRebuildStart_run.
    by destruct (WatchCallbacks.onRebuildStart callbacks).
  - rewrite onRebuildFinish_run. simpl. by rewrite <- app_assoc.
  - unfold Watch.onFileCreated. by rewrite log_run.
  - unfold Watch.onFileChanged. by rewrite log_run.
  - unfold Watch.onFileDeleted. by rewrite log_run.
Qed.

Lemma happen_files config callbacks o w :
  files (Watch.happen config callbacks o w).2 = files w.
Proof.
  destruct o as [now|h|i|cs]; try done.
  - rewrite happen_fires_run. by destruct (fire_fields config callbacks h
      (with_trace (fun t => t ++ [hook_invoked h]) w)) as (-> & _).
  - unfold Watch.happen. rewrite elapse_run.
    by destruct (timers w !! i) as [[? ?]|].
Qed.

Lemma happen_start config callbacks o w :
  start (Watch.happen config callbacks o w).2 =
    match o with
    | Fires RebuildStart => clock w
    | _ => start w
    end.
Proof.
  destruct o as [now|h|i|cs]; try done.
  - rewrite happen_fires_run.
    destruct (fire_fields config callbacks h
      (with_trace (fun t => t ++ [hook_invoked h]) w)) as (_ & _ & _ & -> & _).
    by destruct h.
  - unfold Watch.happen. rewrite elapse_run.
    by destruct (timers w !! i) as [[? ?]|].
Qed.

Lemma happen_clock config callbacks o w :
  clock (Watch.happen config callbacks o w).2 =
    match o with
    | ClockReaches now => now
    | _ => clock w
    end.
Proof.
  destruct o as [now|h|i|cs]; try done.
  - rewrite happen_fires_run.
    by destruct (fire_fields config callbacks h
      (with_trace (fun t => t ++ [hook_invoked h]) w)) as (_ & _ & -> & _).
  - unfold Watch.happen. rewrite elapse_run.
    by destruct (timers w !! i) as [[? ?]|].
Qed.

Lemma session_files config callbacks os w :
  files (for_each (Watch.happen config callbacks) os w).2 = files w.
Proof.
  revert w. induction os as [|o os IH]; intros w; [done|].
  rewrite for_each_step by apply happen_returns.
  by rewrite IH, happen_files.
Qed.

End SessionFrame.


Section SessionTimers.
Context `{Collaborators} {X E : Type}.
Implicit Types (w : World X E) (config : RemixConfig).
Implicit Types (callbacks : WatchCallbacks.t X E) (o : Occurrence).

Lemma happen_timers config callbacks o w :
  (forall i, o <> TimerElapses i) ->
  timers (Watch.happen config callbacks o w).2 =
    timers w ++
    map (fun event => (event, devServerBroadcastDelay config))
      match o with
      | Fires h => announced (clock w) (start w) h
      | _ => []
      end.
Proof.
  intros Ho. destruct o as [now|h|i|cs].
  - simpl. by rewrite app_nil_r.
  - rewrite happen_fires_run.
    by destruct (fire_fields config callbacks h
      (with_trace (fun t => t ++ [hook_invoked h]) w)) as (_ & _ & _ & _ & ->).
  - by destruct (Ho i).
  - simpl. by rewrite app_nil_r.
Qed.

Lemma session_timers config callbacks os w :
  Forall (fun o => forall i, o <> TimerElapses i) os ->
  exists l,
    trace (for_each (Watch.happen config callbacks) os w).2 = trace w ++ l /\
    timers (for_each (Watch.happen config callbacks) os w).2 =
      timers w ++
      map (fun event => (event, devServerBroadcastDelay config)) (publishes l).
Proof.
  intros Hos. revert w. induction Hos as [|o os Ho _ IH]; intros w.
  - exists []. simpl. by rewrite !app_nil_r.
  - rewrite for_each_step by apply happen_returns.
    destruct (happen_trace config callbacks o w) as (l1 & Ht1 & Hp1).
    destruct (IH (Watch.happen config callbacks o w).2) as (l2 & Ht2 & Hq2).
    exists (l1 ++ l2). split; [by rewrite Ht2, Ht1, <- app_assoc|].
    rewrite Hq2, (happen_timers _ _ _ _ Ho), publishes_app, map_app, Hp1.
    by rewrite <- app_assoc.
Qed.

End SessionTimers.

(** X4.  While no timer fires, the queue of pending timers grows by exactly
    one timer per publish, in the order of the publishes, each with the
    configured broadcast delay. *)
Theorem each_publish_sets_one_timer `{Collaborators} {X E : Type}
    (config : RemixConfig) (callbacks : WatchCallbacks.t X E)
    (os : list Occurrence) (w : World X E) :
  Forall (fun o => forall i, o <> TimerElapses i) os ->
  let session := for_each (Watch.happen config callbacks) os in
  timers (session w).2 =
    timers w ++
    map (fun event => (event, devServerBroadcastDelay config))
      (publishes (calls_of session w)).
Proof.
  intros Hos session.
  destruct (session_timers config callbacks os w Hos) as (l & Ht & Hq).
  unfold session. by rewrite (calls_of_intro _ _ _ Ht).
Qed.

(** X4 at work: a file change and a rebuild in the sample project. *)
Lemma each_publish_sets_one_timer_sample :
  let session :=
    for_each (@Watch.happen Sample.collaborators unit unit Sample.config
                (WatchCallbacks.or_empty None))
      [Fires (FileChanged "/app/routes/index.tsx"); Fires RebuildStart;
       ClockReaches 1120; Fires RebuildFinish] in
  timers (session (Sample.world tt)).2 =
    [(LOG "💿 File changed: routes/index.tsx", 50);
     (LOG "💿 Rebuilding...", 50); (LOG "💿 Rebuilt in 120ms", 50);
     (RELOAD, 50)].
Proof.
  intros session. unfold session.
  rewrite (@each_publish_sets_one_timer Sample.collaborators unit unit
             Sample.config (WatchCallbacks.or_empty None) _ (Sample.world tt)).
  - vm_compute. reflexivity.
  - repeat constructor; discriminate.
Defined.


Section SessionWire.
Context `{Collaborators} {X E : Type}.
Implicit Types (w : World X E) (config : RemixConfig).
Implicit Types (callbacks : WatchCallbacks.t X E) (o : Occurrence).

Lemma sent_app (t l : list (Call X)) : sent (t ++ l) = sent t ++ sent l.
Proof. apply omap_app. Qed.

Lemma sent_by_caller (xs : list X) : sent (map (@by_caller X) xs) = [].
Proof. induction xs as [|x xs IH]; [done|]. exact IH. Qed.

Lemma sent_deliveries (event : BroadcastEvent) (cs : list Client) :
  sent (deliveries (X := X) event cs) =
    map (fun client => (client_id client, JSON_stringify event))
      (filter (fun client => readyState client = OPEN) cs).
Proof.
  unfold deliveries.
  induction (filter _ cs) as [|client l IH]; [done|]. simpl. by rewrite IH.
Qed.

(** A hook sends nothing. *)
Lemma fire_sent config callbacks h w :
  exists l,
    trace (Watch.fire config callbacks h w).2 = trace w ++ l /\
    publishes l = announced (clock w) (start w) h /\ sent l = [].
Proof.
  destruct h; unfold Watch.fire.
  - rewrite invoke_run.
    destruct (WatchCallbacks.onInitialBuild callbacks) as [f|]; simpl.
    + eexists. split; [done|].
      split; [apply publishes_by_caller|apply sent_by_caller].
    + exists []. by rewrite app_nil_r.
  - rewrite onRebuildStart_run.
    destruct (WatchCallbacks.onRebuildStart callbacks) as [f|]; simpl.
    + eexists. split; [by rewrite <- app_assoc|].
      rewrite publishes_app, sent_app, publishes_by_caller, sent_by_caller.
      done.
    + by eexists.
  - rewrite onRebuildFinish_run. simpl.
    eexists. split; [by rewrite <- app_assoc|]. done.
  - unfold Watch.onFileCreated. rewrite log_run. by eexists.
  - unfold Watch.onFileChanged. rewrite log_run. by eexists.
  - unfold Watch.onFileDeleted. rewrite log_run. by eexists.
Qed.

(** One occurrence: its sends are of events that were pending, to clients
    of the current set; afterwards the pending events are old or just
    published, and the client set is the old one or the one installed. *)
Lemma happen_accounted config callbacks o w :
  exists l,
    trace (Watch.happen config callbacks o w).2 = trace w ++ l /\
    accounted (timers w).*1 [clients w] l /\
    (forall event,
       event ∈ (timers (Watch.happen config callbacks o w).2).*1 ->
       event ∈ (timers w).*1 \/ event ∈ publishes l) /\
    clients (Watch.happen config callbacks o w).2 =
      match o with
      | Sockets cs => cs
      | _ => clients w
      end.
Proof.
  destruct o as [now|h|i|cs].
  - exists []. simpl. rewrite app_nil_r. split; [done|].
    split; [by intros ? ? ?%elem_of_nil|]. split; [by left|done].
  - rewrite happen_fires_run.
    destruct (fire_sent config callbacks h
                (with_trace (fun t => t ++ [hook_invoked h]) w))
      as (l & Ht & Hp & Hs).
    destruct (fire_fields config callbacks h
                (with_trace (fun t => t ++ [hook_invoked h]) w))
      as (_ & Hclients & _ & _ & Htimers).
    exists (hook_invoked h :: l).
    split; [rewrite Ht; simpl; by rewrite <- app_assoc|].
    split; [|split; [|exact Hclients]].
    + intros id payload Hin. simpl in Hin. rewrite Hs in Hin.
      by apply elem_of_nil in Hin.
    + intros event. rewrite Htimers, fmap_app. simpl.
      intros [Hold|Hnew]%elem_of_app; [by left|right].
      change (publishes (hook_invoked h :: l)) with (publishes l).
      rewrite Hp. rewrite <- list_fmap_compose in Hnew.
      apply list_elem_of_fmap in Hnew as (event' & -> & Hnew). done.
  - unfold Watch.happen. rewrite elapse_run.
    destruct (timers w !! i) as [[event delay]|] eqn:Hi.
    + eexists. split; [done|]. simpl.
      split; [|split; [|done]].
      * intros id payload Hin. rewrite sent_deliveries in Hin.
        apply list_elem_of_fmap in Hin as (client & [= -> ->] & Hclient).
        apply list_elem_of_filter in Hclient as [Hopen Hclient].
        exists event, client, (clients w).
        split; [done|]. split.
        { left. apply list_elem_of_fmap. exists (event, delay).
          split; [done|]. by apply list_elem_of_lookup_2 in Hi. }
        split; [apply list_elem_of_here|done].
      * intros event' Hin. left.
        apply list_elem_of_fmap in Hin as (timer & -> & Hin).
        apply list_elem_of_fmap. exists timer. split; [done|].
        by apply list_elem_of_delete_inv in Hin.
    + exists []. simpl. rewrite app_nil_r. split; [done|].
      split; [by intros ? ? ?%elem_of_nil|]. split; [by left|done].
  - exists []. simpl. rewrite app_nil_r. split; [done|].
    split; [by intros ? ? ?%elem_of_nil|]. split; [by left|done].
Qed.

Lemma session_accounted config callbacks os w :
  exists l,
    trace (for_each (Watch.happen config callbacks) os w).2 = trace w ++ l /\
    accounted (timers w).*1 (clients w :: socket_sets os) l /\
    (forall event,
       event ∈ (timers (for_each (Watch.happen config callbacks) os w).2).*1 ->
       event ∈ (timers w).*1 \/ event ∈ publishes l).
Proof.
  revert w. induction os as [|o os IH]; intros w.
  - exists []. simpl. rewrite app_nil_r. split; [done|].
    split; [by intros ? ? ?%elem_of_nil|by left].
  - rewrite for_each_step by apply happen_returns.
    destruct (happen_accounted config callbacks o w)
      as (l1 & Ht1 & Hs1 & Hq1 & Hc1).
    destruct (IH (Watch.happen config callbacks o w).2)
      as (l2 & Ht2 & Hs2 & Hq2).
    exists (l1 ++ l2). split; [by rewrite Ht2, Ht1, <- app_assoc|].
    assert (Hpending : forall event,
              event ∈ (timers (Watch.happen config callbacks o w).2).*1 \/
              event ∈ publishes l2 ->
              event ∈ (timers w).*1 \/ event ∈ publishes (l1 ++ l2)).
    { intros event [Hin|Hin]; rewrite publishes_app, elem_of_app.
      - destruct (Hq1 event Hin); tauto.
      - tauto. }
    split.
    + intros id payload Hin. rewrite sent_app in Hin.
      apply elem_of_app in Hin as [Hin|Hin].
      * destruct (Hs1 id payload Hin)
          as (event & client & cs & -> & Hev & Hcs & Hrest).
        exists event, client, cs. split; [done|].
        split; [rewrite publishes_app, elem_of_app; tauto|].
        split; [|done].
        apply list_elem_of_singleton in Hcs as ->. apply list_elem_of_here.
      * destruct (Hs2 id payload Hin)
          as (event & client & cs & -> & Hev & Hcs & Hrest).
        exists event, client, cs. split; [done|].
        split; [by apply Hpending|]. split; [|done].
        rewrite Hc1 in Hcs.
        destruct o; simpl;
          try exact Hcs;
          apply elem_of_cons in Hcs as [->|Hcs];
          rewrite !elem_of_cons; tauto.
    + intros event Hin. apply Hpending. by apply Hq2.
Qed.

End SessionWire.

(** X5.  Whatever happens during a session, every payload handed to
    [client.send] is the JSON text of an event that was pending when the
    session began or was published during it, and its recipient was open in
    the client set the session began with or in one installed during it. *)
Theorem sends_carry_published_events `{Collaborators} {X E : Type}
    (config : RemixConfig) (callbacks : WatchCallbacks.t X E)
    (os : list Occurrence) (w : World X E) (id : nat) (payload : string) :
  let session := for_each (Watch.happen config callbacks) os in
  (id, payload) ∈ sent (calls_of session w) ->
  exists event client cs,
    payload = JSON_stringify event /\
    (event ∈ (timers w).*1 \/ event ∈ publishes (calls_of session w)) /\
    cs ∈ clients w :: socket_sets os /\ client ∈ cs /\
    client_id client = id /\ readyState client = OPEN.
Proof.
  intros session.
  destruct (session_accounted config callbacks os w) as (l & Ht & Hs & _).
  unfold session. rewrite (calls_of_intro _ _ _ Ht). apply Hs.
Qed.


(** X5 at work: a pending RELOAD is delivered during a rebuild. *)
Lemma sends_carry_published_events_sample :
  let w : World unit unit :=
    with_timers (fun _ => [(RELOAD, 50)]) (Sample.world tt) in
  let session :=
    for_each (@Watch.happen Sample.collaborators unit unit Sample.config
                (WatchCallbacks.or_empty None))
      [Fires RebuildStart; TimerElapses 0] in
  exists event client cs,
    Sample.stringify RELOAD = @JSON_stringify Sample.collaborators event /\
    (event ∈ (timers w).*1 \/ event ∈ publishes (calls_of session w)) /\
    cs ∈ clients w :: socket_sets [Fires RebuildStart; TimerElapses 0] /\
    client ∈ cs /\ client_id client = 1%nat /\ readyState client = OPEN.
Proof.
  intros w session.
  apply (@sends_carry_published_events Sample.collaborators unit unit
           Sample.config (WatchCallbacks.or_empty None)
           [Fires RebuildStart; TimerElapses 0] w 1%nat
           (Sample.stringify RELOAD)).
  assert (Hsent :
    sent (calls_of session w) =
      [(1%nat, Sample.stringify RELOAD); (3%nat, Sample.stringify RELOAD)]).
  { vm_compute. reflexivity. }
  fold session. rewrite Hsent. apply list_elem_of_here.
Defined.

(** ** RELOAD and the rebuilt line, over a whole session *)

Section Preceded.
Context {A : Type} (p q : A -> bool).

Lemma preceded_weaken (after : bool) (l : list A) :
  preceded p q false l = true -> preceded p q after l = true.
Proof.
  destruct l as [|x rest]; [done|]. simpl.
  destruct (p x); [done|]. by destruct after.
Qed.

Lemma preceded_app (after : bool) (l k : list A) :
  preceded p q after l = true -> preceded p q false k = true ->
  preceded p q after (l ++ k) = true.
Proof.
  revert after. induction l as [|x l IH]; intros after Hl Hk; simpl in *.
  - by apply preceded_weaken.
  - apply andb_true_iff in Hl as [Hx Hl]. rewrite Hx. simpl. by apply IH.
Qed.

Lemma preceded_inv (after : bool) (l pre post : list A) (x : A) :
  preceded p q after l = true -> l = pre ++ x :: post -> p x = true ->
  (pre = [] /\ after = true) \/
  exists pre' y, pre = pre' ++ [y] /\ q y = true.
Proof.
  revert after l. induction pre as [|a pre IH]; intros after l Hl -> Hx.
  - left. simpl in Hl. rewrite Hx in Hl. by destruct after.
  - right. simpl in Hl. apply andb_true_iff in Hl as [_ Hl].
    destruct (IH _ _ Hl eq_refl Hx) as [[-> Ha]|(pre' & y & -> & Hy)].
    + by exists [], a.
    + by exists (a :: pre'), y.
Qed.

End Preceded.



#[global] Instance reloads_preceded_closed {X} :
  Closed (fun l : list (Call X) =>
            preceded is_RELOAD is_rebuilt_log false (publishes l) = true).
Proof.
  split; [done|]. intros l k Hl Hk. rewrite publishes_app.
  by apply preceded_app.
Qed.

(** X6.  In the publishes of a whole session, every RELOAD comes right
    after a LOG event whose message is the disc, [Rebuilt in] and a
    duration: file events and rebuild starts never come between the two. *)
Theorem reload_follows_rebuilt_log `{Collaborators} {X E : Type}
    (config : RemixConfig) (callbacks : WatchCallbacks.t X E)
    (os : list Occurrence) (w : World X E)
    (pre post : list BroadcastEvent) :
  publishes (calls_of (for_each (Watch.happen config callbacks) os) w)
    = pre ++ RELOAD :: post ->
  exists pre' duration,
    pre = pre' ++ [LOG ("💿 Rebuilt in " +:+ duration)].
Proof.
  intros Hsplit.
  assert (Hadds :
    adds (fun l => preceded is_RELOAD is_rebuilt_log false (publishes l) = true)
         (for_each (Watch.happen config callbacks) os)).
  { apply adds_for_each; [tc_solve|]. intros o w'.
    destruct (happen_trace config callbacks o w') as (l & Ht & Hp).
    exists l. split; [exact Ht|]. rewrite Hp.
    destruct o as [now|h|i|cs]; try done.
    destruct h; try done. simpl.
    change ("💿 Rebuilt in " +:+ prettyMs (clock w' - start w'))
      with (String.append "💿 Rebuilt in " (prettyMs (clock w' - start w'))).
    by rewrite prefix_append. }
  pose proof (adds_calls_of _ _ w Hadds) as Hpre. simpl in Hpre.
  destruct (preceded_inv _ _ _ _ _ _ _ Hpre Hsplit eq_refl)
    as [[_ ?]|(pre' & y & -> & Hy)]; [discriminate|].
  destruct y as [message|]; [|discriminate].
  apply prefix_split in Hy as [duration ->]. by exists pre', duration.
Qed.

(** X6 at work: the RELOAD of the sample session. *)
Lemma reload_follows_rebuilt_log_sample :
  exists pre' duration,
    [LOG "💿 File changed: routes/index.tsx"; LOG "💿 Rebuilding...";
     LOG "💿 Rebuilt in 120ms"]
    = pre' ++ [LOG ("💿 Rebuilt in " +:+ duration)].
Proof.
  apply (@reload_follows_rebuilt_log Sample.collaborators unit unit
           Sample.config (WatchCallbacks.or_empty None)
           [Fires (FileChanged "/app/routes/index.tsx"); Fires RebuildStart;
            ClockReaches 1120; Fires RebuildFinish]
           (Sample.world tt) _ []).
  vm_compute. reflexivity.
Defined.


(** ** The duration of a rebuild *)

Section Duration.
Context `{Collaborators} {X E : Type}.
Implicit Types (w : World X E) (config : RemixConfig).
Implicit Types (callbacks : WatchCallbacks.t X E).

Lemma session_start config callbacks os w :
  RebuildStart ∉ fired os ->
  start (for_each (Watch.happen config callbacks) os w).2 = start w.
Proof.
  revert w. induction os as [|o os IH]; intros w Hos; [done|].
  rewrite for_each_step by apply happen_returns.
  rewrite IH, happen_start.
  - destruct o as [now|h|i|cs]; try done. destruct h; try done.
    exfalso. apply Hos. apply list_elem_of_here.
  - intros Hin. apply Hos. destruct o as [now|h|i|cs]; try done.
    by apply list_elem_of_further.
Qed.

End Duration.

(** X7.  [start] is shared by the hooks: after a rebuild start it holds the
    time of that start until the next one, whatever else happens, so the
    rebuild-finish hook reports the time elapsed since the most recent
    rebuild start. *)
Theorem rebuild_duration_since_last_start `{Collaborators} {X E : Type}
    (config : RemixConfig) (callbacks : WatchCallbacks.t X E)
    (between : list Occurrence) (w : World X E) :
  RebuildStart ∉ fired between ->
  let w1 :=
    (for_each (Watch.happen config callbacks)
       (Fires RebuildStart :: between) w).2 in
  start w1 = clock w /\
  publishes (calls_of (Watch.fire config callbacks RebuildFinish) w1) =
    [LOG ("💿 Rebuilt in " +:+ prettyMs (clock w1 - clock w)); RELOAD].
Proof.
  intros Hbetween w1.
  assert (Hstart : start w1 = clock w).
  { unfold w1. rewrite for_each_step by apply happen_returns.
    rewrite session_start by done. by rewrite happen_start. }
  split; [exact Hstart|]. rewrite fire_publishes. simpl. by rewrite Hstart.
Qed.

(** X7 at work: files change and the clock moves twice during a rebuild
    that began at 1000. *)
Lemma rebuild_duration_sample :
  let w1 :=
    (for_each (@Watch.happen Sample.collaborators unit unit Sample.config
                 (WatchCallbacks.or_empty None))
       [Fires RebuildStart; ClockReaches 1040;
        Fires (FileChanged "/app/root.tsx"); ClockReaches 1300]
       (Sample.world tt)).2 in
  start w1 = 1000 /\
  publishes (calls_of (@Watch.fire Sample.collaborators unit unit
                         Sample.config (WatchCallbacks.or_empty None)
                         RebuildFinish) w1)
    = [LOG ("💿 Rebuilt in " +:+ @prettyMs Sample.collaborators
                                  (clock w1 - 1000)); RELOAD].
Proof.
  intros w1.
  apply (@rebuild_duration_since_last_start Sample.collaborators unit unit
           Sample.config (WatchCallbacks.or_empty None)
           [ClockReaches 1040; Fires (FileChanged "/app/root.tsx");
            ClockReaches 1300] (Sample.world tt)).
  simpl. intros Hin. apply list_elem_of_singleton in Hin. discriminate.
Defined.


(** ** Failures in the start-up of [watch] *)

#[global] Instance forall_calls_closed {X} (p : Call X -> bool) :
  Closed (fun l : list (Call X) => Forall (fun c => p c = true) l).
Proof. split; [by constructor|]. intros l k Hl Hk. by apply Forall_app. Qed.

Section WatchStartup.
Context `{Collaborators} {X E : Type}.
Implicit Types (w : World X E) (config : RemixConfig).
Implicit Types (callbacks : WatchCallbacks.t X E) (o : Occurrence).

Abbreviation session_calls :=
  (fun l : list (Call X) => Forall (fun c => is_session_call c = true) l).

Lemma by_caller_session_calls (xs : list X) :
  session_calls (map by_caller xs).
Proof. induction xs; by constructor. Qed.

Lemma invoke_adds_session_calls
    (callback : option (WatchCallbacks.Callback X E)) :
  adds session_calls (Watch.invoke callback).
Proof.
  intros w. rewrite invoke_run. destruct callback as [f|]; simpl.
  - eexists. split; [done|]. apply by_caller_session_calls.
  - exists []. by rewrite app_nil_r.
Qed.

Lemma log_adds_session_calls config _message :
  adds session_calls (Watch.log config _message : M (World X E) unit).
Proof.
  unfold Watch.log, Watch.broadcast. adds_steps; by repeat constructor.
Qed.

Lemma happen_adds_session_calls config callbacks o :
  adds session_calls (Watch.happen config callbacks o).
Proof.
  destruct o as [now|h|i|cs]; unfold Watch.happen.
  - adds_steps.
  - destruct h; unfold Watch.fire, Watch.onRebuildStart,
      Watch.onRebuildFinish, Watch.onFileCreated, Watch.onFileChanged,
      Watch.onFileDeleted, Watch.broadcast;
      adds_steps;
      first [ by repeat constructor
            | apply invoke_adds_session_calls
            | apply log_adds_session_calls ].
  - intros w. rewrite elapse_run.
    destruct (timers w !! i) as [[event delay]|].
    + eexists. split; [done|]. unfold deliveries.
      induction (filter _ (clients w)); by constructor.
    + exists []. by rewrite app_nil_r.
  - adds_steps.
Qed.

Lemma session_returns config callbacks os w :
  (for_each (Watch.happen config callbacks) os w).1 = Ok tt.
Proof. by destruct (session_trace config callbacks os w). Qed.

(** When the compiler fails to start, [watch] ends with the session that ran
    while it was starting. *)
Lemma watch_rejected remixRootOrConfig modeArg
    (callbacks : option (WatchCallbacks.t X E)) building waiting w config e :
  match remixRootOrConfig with
  | inl remixRoot => readConfig remixRoot
  | inr given => Ok given
  end = Ok config ->
  compiler_watch = Throw e ->
  Watch.watch remixRootOrConfig modeArg callbacks building waiting w =
    (Throw e,
     (for_each (Watch.happen config (WatchCallbacks.or_empty callbacks))
        building
        (with_trace
           (fun t => t ++ opening remixRootOrConfig modeArg config)
           (with_start (clock w) w))).2).
Proof.
  intros Hconfig Hcompiler. unfold Watch.watch, opening. cbv zeta.
  destruct remixRootOrConfig as [remixRoot|given]; step.
  - rewrite Hconfig. step.
    match goal with |- context [for_each ?f building ?w0] =>
      pose proof (session_returns config (WatchCallbacks.or_empty callbacks)
                    building w0) as Hok;
      destruct (for_each f building w0) as [[[]|e'] w1] eqn:Hrun
    end; simpl in Hok; [|discriminate].
    rewrite Hcompiler. f_equal.
    match type of Hrun with for_each _ _ ?w0 = _ =>
      match goal with |- _ = (for_each _ _ ?w0').2 =>
        replace w0' with w0; [by rewrite Hrun|]
      end
    end.
    unfold with_trace, with_start. simpl. by rewrite <- !app_assoc.
  - injection Hconfig as ->.
    match goal with |- context [for_each ?f building ?w0] =>
      pose proof (session_returns config (WatchCallbacks.or_empty callbacks)
                    building w0) as Hok;
      destruct (for_each f building w0) as [[[]|e'] w1] eqn:Hrun
    end; simpl in Hok; [|discriminate].
    rewrite Hcompiler. f_equal.
    match type of Hrun with for_each _ _ ?w0 = _ =>
      match goal with |- _ = (for_each _ _ ?w0').2 =>
        replace w0' with w0; [by rewrite Hrun|]
      end
    end.
    unfold with_trace, with_start. simpl. by rewrite <- !app_assoc.
Qed.

End WatchStartup.


(** X8.  When [compiler.watch] rejects, [watch] throws the compiler's
    error.  By then it has written its first console line, read the
    configuration if it was given a directory, opened the WebSocket server
    and called the compiler; what follows on the trace are the calls of the
    hooks and deliveries that ran meanwhile.  The WebSocket server is not
    closed, the exit hook is not registered and nothing is torn down. *)
Theorem watch_keeps_socket_open_when_compiler_rejects
    `{Collaborators} {X E : Type}
    (remixRootOrConfig : string + RemixConfig) (modeArg : option string)
    (callbacks : option (WatchCallbacks.t X E))
    (building waiting : list Occurrence) (w : World X E)
    (config : RemixConfig) (e : Error) :
  match remixRootOrConfig with
  | inl remixRoot => readConfig remixRoot
  | inr given => Ok given
  end = Ok config ->
  compiler_watch = Throw e ->
  let run := Watch.watch remixRootOrConfig modeArg callbacks building waiting in
  (run w).1 = Throw e /\
  (exists l,
     calls_of run w = opening remixRootOrConfig modeArg config ++ l /\
     Forall (fun c => is_session_call c = true) l) /\
  new_WebSocket_Server (devServerPort config) ∈ calls_of run w /\
  (wss_close ∉ calls_of run w) /\
  (exitHook_call ∉ calls_of run w) /\
  (closeWatcher_call ∉ calls_of run w).
Proof.
  intros Hconfig Hcompiler run.
  assert (Hcalls : exists l,
            calls_of run w = opening remixRootOrConfig modeArg config ++ l /\
            Forall (fun c => is_session_call c = true) l).
  { unfold run, calls_of.
    rewrite (watch_rejected _ _ _ _ _ _ _ _ Hconfig Hcompiler). simpl.
    destruct (adds_for_each _
                (Watch.happen config (WatchCallbacks.or_empty callbacks))
                building
                (happen_adds_session_calls config _)
                (with_trace
                   (fun t => t ++ opening remixRootOrConfig modeArg config)
                   (with_start (clock w) w))) as (l & Hl & Hsession).
    exists l. split; [|exact Hsession].
    rewrite Hl. simpl. by rewrite <- app_assoc, drop_app_length. }
  split.
  { unfold run. by rewrite (watch_rejected _ _ _ _ _ _ _ _ Hconfig Hcompiler). }
  split; [exact Hcalls|].
  destruct Hcalls as (l & -> & Hsession).
  assert (Hnot : forall c : Call X,
            is_session_call c = false ->
            c ∉ opening remixRootOrConfig modeArg config ->
            c ∉ opening remixRootOrConfig modeArg config ++ l).
  { intros c Hc Hopening [Hin|Hin]%elem_of_app; [done|].
    rewrite Forall_forall in Hsession. specialize (Hsession c Hin).
    congruence. }
  assert (Hopening : forall c : Call X,
            c <> console_log ("Watching Remix app in "
                              +:+ template (Watch.mode_of modeArg)
                              +:+ " mode...") ->
            (forall remixRoot, c <> readConfig_call remixRoot) ->
            c <> new_WebSocket_Server (devServerPort config) ->
            c <> compiler_watch_call (Watch.mode_of modeArg) ->
            c ∉ opening remixRootOrConfig modeArg config).
  { intros c Hlog Hread Hsocket Hcompile. unfold opening.
    destruct remixRootOrConfig as [remixRoot|given]; simpl;
      rewrite !elem_of_cons, elem_of_nil;
      pose proof (Hread ""); try pose proof (Hread remixRoot); tauto. }
  split.
  { apply elem_of_app. left. unfold opening.
    destruct remixRootOrConfig; simpl; rewrite !elem_of_cons; tauto. }
  repeat split; apply Hnot; try done; by apply Hopening.
Qed.

(** X8 at work: the sample project with a compiler that fails to start. *)
Lemma watch_compiler_rejects_sample :
  let run :=
    @Watch.watch Faulty.no_watcher unit unit (inl "/app") None None
      [Fires RebuildStart] [] in
  (run (Sample.world tt)).1 = Throw (JsError "esbuild failed to start") /\
  new_WebSocket_Server 8811 ∈ calls_of run (Sample.world tt) /\
  wss_close ∉ calls_of run (Sample.world tt).
Proof.
  intros run.
  destruct (@watch_keeps_socket_open_when_compiler_rejects Faulty.no_watcher
              unit unit (inl "/app") None None [Fires RebuildStart] []
              (Sample.world tt) Sample.config
              (JsError "esbuild failed to start") eq_refl eq_refl)
    as (Hthrows & _ & Hopen & Hclosed & _).
  by repeat split.
Defined.

(** X9.  Given a directory whose configuration cannot be read, [watch]
    throws the reader's error after its first console line and the call of
    the reader: no WebSocket server is opened and the compiler is not
    called.  Apart from the trace and [start], the world is as it was. *)
Theorem watch_fails_before_opening_the_socket `{Collaborators} {X E : Type}
    (remixRoot : string) (modeArg : option string)
    (callbacks : option (WatchCallbacks.t X E))
    (building waiting : list Occurrence) (w : World X E) (e : Error) :
  readConfig remixRoot = Throw e ->
  let run := Watch.watch (inl remixRoot) modeArg callbacks building waiting in
  (run w).1 = Throw e /\
  calls_of run w =
    [console_log ("Watching Remix app in " +:+ template (Watch.mode_of modeArg)
                  +:+ " mode...");
     readConfig_call remixRoot] /\
  (run w).2 = with_trace (fun t => t ++ calls_of run w)
                (with_start (clock w) w).
Proof.
  intros Hconfig run.
  assert (Hrun :
    run w =
      (Throw e,
       with_trace
         (fun t => t ++
            [console_log ("Watching Remix app in "
                          +:+ template (Watch.mode_of modeArg)
                          +:+ " mode...");
             readConfig_call remixRoot])
         (with_start (clock w) w))).
  { unfold run, Watch.watch. cbv zeta. step. rewrite Hconfig.
    f_equal. unfold with_trace, with_start. simpl. by rewrite <- app_assoc. }
  assert (Hcalls :
    calls_of run w =
      [console_log ("Watching Remix app in "
                    +:+ template (Watch.mode_of modeArg) +:+ " mode...");
       readConfig_call remixRoot]).
  { apply calls_of_intro. by rewrite Hrun. }
  by rewrite Hcalls, Hrun.
Qed.

(** X9 at work: a directory without configuration. *)
Lemma watch_without_config_sample :
  let run :=
    @Watch.watch Faulty.no_config unit unit (inl "/nowhere") None None
      [Fires InitialBuild] [] in
  (run (Sample.world tt)).1 = Throw (JsError "no remix.config.js") /\
  calls_of run (Sample.world tt) =
    [console_log "Watching Remix app in development mode...";
     readConfig_call "/nowhere"].
Proof.
  intros run.
  destruct (@watch_fails_before_opening_the_socket Faulty.no_config
              unit unit "/nowhere" None None [Fires InitialBuild] []
              (Sample.world tt) (JsError "no remix.config.js") eq_refl)
    as (Hthrows & Hcalls & _).
  split; [exact Hthrows|exact Hcalls].
Defined.


(** ** The exit of [watch] *)

Section WatchExit.
Context `{Collaborators} {X E : Type}.
Implicit Types (w : World X E) (config : RemixConfig).
Implicit Types (callbacks : option (WatchCallbacks.t X E)).

(** Once the compiler has started, [watch] registers its exit hook and
    waits; its run ends with the process, in the world that the session of
    the wait has left. *)
Lemma watch_exits remixRootOrConfig modeArg callbacks building waiting w
    config :
  match remixRootOrConfig with
  | inl remixRoot => readConfig remixRoot
  | inr given => Ok given
  end = Ok config ->
  compiler_watch = Ok tt ->
  Watch.watch remixRootOrConfig modeArg callbacks building waiting w =
    (Throw ProcessExit,
     (for_each (Watch.happen config (WatchCallbacks.or_empty callbacks))
        waiting
        (watching remixRootOrConfig modeArg callbacks building config w)).2).
Proof.
  intros Hconfig Hcompiler. unfold Watch.watch. cbv zeta.
  assert (Hrest : forall w0,
    w0 = opened remixRootOrConfig modeArg config w ->
    match
      for_each (Watch.happen config (WatchCallbacks.or_empty callbacks))
        building w0
    with
    | (Ok _, w1) =>
        match compiler_watch with
        | Ok _ =>
            match
              for_each
                (Watch.happen config (WatchCallbacks.or_empty callbacks))
                waiting
                (with_trace (fun t => t ++ [exitHook_call])
                   (with_trace
                      (fun t => t ++
                         [console_log
                            ("💿 Built in " +:+ prettyMs (clock w1 - start w1))])
                      w1))
            with
            | (Ok _, w3) =>
                Watch.exit_hook_fires
                  (Watch.teardown config (WatchCallbacks.or_empty callbacks))
                  w3
            | (Throw e, w3) => (Throw e, w3)
            end
        | Throw e => (Throw e, w1)
        end
    | (Throw e, w1) => (Throw e, w1)
    end =
    (Throw ProcessExit,
     (for_each (Watch.happen config (WatchCallbacks.or_empty callbacks))
        waiting
        (watching remixRootOrConfig modeArg callbacks building config w)).2)).
  { intros w0 ->. unfold watching. cbv zeta.
    pose proof (session_returns config (WatchCallbacks.or_empty callbacks)
                  building (opened remixRootOrConfig modeArg config w))
      as Hok.
    destruct (for_each _ building _) as [[[]|e] w1]; simpl in Hok;
      [|discriminate].
    rewrite Hcompiler. cbn [snd].
    assert (Hsame :
      with_trace (fun t => t ++ [exitHook_call])
        (with_trace
           (fun t => t ++
              [console_log ("💿 Built in " +:+ prettyMs (clock w1 - start w1))])
           w1) =
      with_trace
        (fun t => t ++
           [console_log ("💿 Built in " +:+ prettyMs (clock w1 - start w1));
            exitHook_call]) w1).
    { unfold with_trace. simpl. by rewrite <- app_assoc. }
    rewrite Hsame.
    pose proof (session_returns config (WatchCallbacks.or_empty callbacks)
                  waiting
                  (with_trace
                     (fun t => t ++
                        [console_log
                           ("💿 Built in " +:+ prettyMs (clock w1 - start w1));
                         exitHook_call]) w1)) as Hok'.
    destruct (for_each _ waiting _) as [[[]|e] w3]; simpl in Hok';
      [|discriminate].
    reflexivity. }
  destruct remixRootOrConfig as [remixRoot|given]; step.
  - rewrite Hconfig. apply Hrest.
    unfold opened, opening, with_trace, with_start. simpl.
    by rewrite <- !app_assoc.
  - injection Hconfig as ->. apply Hrest.
    unfold opened, opening, with_trace, with_start. simpl.
    by rewrite <- !app_assoc.
Qed.

End WatchExit.

(** C2, as the code has it.  Take a run of [watch] in which the compiler
    starts.  The run registers the exit hook and waits, and it ends with the
    process: the continuation that closes the WebSocket server, awaits the
    watcher's stop function, empties the assets build directory and removes
    the server build never runs.  The calls of the run are the opening, the
    calls of the sessions before and after the [Built in] line and the
    registration of the exit hook; none of the four steps of the teardown is
    among them. *)
Theorem watch_exits_before_its_teardown `{Collaborators} {X E : Type}
    (remixRootOrConfig : string + RemixConfig) (modeArg : option string)
    (callbacks : option (WatchCallbacks.t X E))
    (building waiting : list Occurrence) (w : World X E)
    (config : RemixConfig) :
  match remixRootOrConfig with
  | inl remixRoot => readConfig remixRoot
  | inr given => Ok given
  end = Ok config ->
  compiler_watch = Ok tt ->
  let run := Watch.watch remixRootOrConfig modeArg callbacks building waiting in
  (run w).1 = Throw ProcessExit /\
  (exists l k line,
     calls_of run w =
       opening remixRootOrConfig modeArg config ++ l
       ++ [console_log line; exitHook_call] ++ k /\
     Forall (fun c => is_session_call c = true) l /\
     Forall (fun c => is_session_call c = true) k) /\
  (wss_close ∉ calls_of run w) /\
  (closeWatcher_call ∉ calls_of run w) /\
  (forall dir, emptyDirSync_call dir ∉ calls_of run w) /\
  (forall path, rmSync_call path ∉ calls_of run w).
Proof.
  intros Hconfig Hcompiler run.
  pose proof (watch_exits _ modeArg callbacks building waiting w _
                Hconfig Hcompiler) as Hrun.
  destruct (adds_for_each _
              (Watch.happen config (WatchCallbacks.or_empty callbacks))
              building (happen_adds_session_calls config _)
              (opened remixRootOrConfig modeArg config w))
    as (l & Hl & Hsession).
  destruct (adds_for_each _
              (Watch.happen config (WatchCallbacks.or_empty callbacks))
              waiting (happen_adds_session_calls config _)
              (watching remixRootOrConfig modeArg callbacks building config w))
    as (k & Hk & Hsession').
  assert (Hcalls : exists line,
    calls_of run w =
      opening remixRootOrConfig modeArg config ++ l
      ++ [console_log line; exitHook_call] ++ k).
  { eexists. apply calls_of_intro. unfold run. rewrite Hrun. cbn [snd].
    rewrite Hk. unfold watching. cbv zeta.
    unfold with_trace at 1. cbn [trace]. rewrite Hl.
    unfold opened, with_trace, with_start. cbn [trace].
    rewrite <- !app_assoc. reflexivity. }
  destruct Hcalls as [line Hcalls].
  split; [unfold run; by rewrite Hrun|].
  split; [by exists l, k, line|].
  rewrite Hcalls.
  assert (Hnot : forall c : Call X,
            is_session_call c = false ->
            (forall remixRoot, c <> readConfig_call remixRoot) ->
            c <> new_WebSocket_Server (devServerPort config) ->
            c <> compiler_watch_call (Watch.mode_of modeArg) ->
            c <> exitHook_call ->
            c ∉ opening remixRootOrConfig modeArg config ++ l
                ++ [console_log line; exitHook_call] ++ k).
  { intros c Hc Hread Hsocket Hcompile Hexit.
    rewrite Forall_forall in Hsession, Hsession'.
    rewrite !elem_of_app. intros [Hin|[Hin|[Hin|Hin]]].
    - unfold opening in Hin.
      destruct remixRootOrConfig as [remixRoot|given]; simpl in Hin;
        rewrite !elem_of_cons, elem_of_nil in Hin;
        try pose proof (Hread remixRoot);
        destruct Hin as [->|Hin]; try discriminate; tauto.
    - specialize (Hsession _ Hin). congruence.
    - rewrite !elem_of_cons, elem_of_nil in Hin.
      destruct Hin as [->|[->|[]]]; [discriminate|done].
    - specialize (Hsession' _ Hin). congruence. }
  repeat split; intros; by apply Hnot.
Qed.

(** C2 at work: the sample project rebuilds once and is then told to exit.
    The exit hook is the last thing registered, the calls of the rebuild
    follow it, and then the process ends: the WebSocket server is not
    closed, the build directory is not emptied and the server build is not
    removed. *)
Lemma watch_exit_sample :
  let run :=
    @Watch.watch Sample.collaborators unit unit (inr Sample.config) None None
      [Fires InitialBuild]
      [Fires RebuildStart; ClockReaches 1120; Fires RebuildFinish] in
  (run (Sample.world tt)).1 = Throw ProcessExit /\
  (wss_close ∉ calls_of run (Sample.world tt)) /\
  (closeWatcher_call ∉ calls_of run (Sample.world tt)) /\
  (emptyDirSync_call "/tmp/build" ∉ calls_of run (Sample.world tt)) /\
  (rmSync_call "/tmp/server.js" ∉ calls_of run (Sample.world tt)).
Proof.
  intros run.
  destruct (@watch_exits_before_its_teardown Sample.collaborators unit unit
              (inr Sample.config) None None [Fires InitialBuild]
              [Fires RebuildStart; ClockReaches 1120; Fires RebuildFinish]
              (Sample.world tt) Sample.config eq_refl eq_refl)
    as (Hexit & _ & Hwss & Hwatcher & Hempty & Hrm).
  split; [exact Hexit|]. split; [exact Hwss|]. split; [exact Hwatcher|].
  split; [apply Hempty|apply Hrm].
Defined.

(** The whole run of the sample project, call by call. *)
Example watch_exit_trace :
  calls_of
    (@Watch.watch Sample.collaborators unit unit (inr Sample.config) None None
       [Fires InitialBuild]
       [Fires RebuildStart; ClockReaches 1120; Fires RebuildFinish])
    (Sample.world tt)
  = [console_log "Watching Remix app in development mode...";
     new_WebSocket_Server 8811;
     compiler_watch_call (Some "development");
     hook_invoked InitialBuild;
     console_log "💿 Built in 0ms";
     exitHook_call;
     hook_invoked RebuildStart;
     console_log "💿 Rebuilding...";
     setTimeout_call (LOG "💿 Rebuilding...") 50;
     hook_invoked RebuildFinish;
     console_log "💿 Rebuilt in 120ms";
     setTimeout_call (LOG "💿 Rebuilt in 120ms") 50;
     setTimeout_call RELOAD 50].
Proof. vm_compute. reflexivity. Qed.

(** ** The mode that reaches the compiler *)

Section ModeCalls.
Context `{Collaborators} {X E : Type}.
Implicit Types (w : World X E) (config : RemixConfig).

(** Once [watch] has its configuration, its calls begin with the opening,
    whatever happens afterwards. *)
Lemma watch_opens remixRootOrConfig modeArg
    (callbacks : option (WatchCallbacks.t X E)) building waiting w config :
  match remixRootOrConfig with
  | inl remixRoot => readConfig remixRoot
  | inr given => Ok given
  end = Ok config ->
  exists rest,
    trace (Watch.watch remixRootOrConfig modeArg callbacks building waiting
             w).2
    = trace w ++ opening remixRootOrConfig modeArg config ++ rest.
Proof.
  intros Hconfig.
  destruct (adds_for_each _
              (Watch.happen config (WatchCallbacks.or_empty callbacks))
              building (happen_grows config _)
              (opened remixRootOrConfig modeArg config w)) as (l & Hl & _).
  destruct compiler_watch as [[]|e] eqn:Hcompiler.
  - destruct (adds_for_each _
                (Watch.happen config (WatchCallbacks.or_empty callbacks))
                waiting (happen_grows config _)
                (watching remixRootOrConfig modeArg callbacks building
                   config w)) as (k & Hk & _).
    eexists.
    rewrite (watch_exits _ _ _ _ _ _ _ Hconfig Hcompiler). cbn [snd].
    rewrite Hk. unfold watching. cbv zeta.
    unfold with_trace at 1. cbn [trace]. rewrite Hl.
    unfold opened, with_trace, with_start. cbn [trace].
    rewrite <- !app_assoc. reflexivity.
  - exists l.
    rewrite (watch_rejected _ _ _ _ _ _ _ _ Hconfig Hcompiler). cbn [snd].
    unfold opened in Hl. rewrite Hl.
    unfold with_trace, with_start. cbn [trace].
    by rewrite <- !app_assoc.
Qed.

(** What a [finally] block adds comes after what the body has added. *)
Lemma try_finally_opens {A} (body : M (World X E) A)
    (fin : M (World X E) unit) w (pre rest : list (Call X)) :
  trace (body w).2 = trace w ++ pre ++ rest ->
  adds (fun _ => True) fin ->
  exists rest', trace (try_finally body fin w).2 = trace w ++ pre ++ rest'.
Proof.
  intros Hbody Hfin. unfold try_finally.
  destruct (body w) as [r w1]. simpl in Hbody.
  destruct (Hfin w1) as (l & Hl & _).
  destruct r as [a|[message|code path|]]; [..|by exists rest];
    exists (rest ++ l);
    destruct (fin w1) as [[[]|e] w2]; simpl in *;
    by rewrite Hl, Hbody, <- !app_assoc.
Qed.

(** [build] hands the compiler the mode it has announced: a call of the
    compiler on its trace carries that mode and the source-map flag it was
    given; and once the configuration is read and the directory emptied, the
    compiler is called, and the run ends as the compiler says for that
    mode. *)
Lemma build_compiles_in_its_mode remixRoot modeArg sourcemap finished w :
  let run := Build.build remixRoot modeArg sourcemap finished in
  (forall mode flag,
     compiler_build_call mode flag ∈ calls_of run w ->
     mode = Build.mode_of modeArg /\ flag = sourcemap) /\
  (forall config emptied,
     readConfig remixRoot = Ok config ->
     emptyDirSync (assetsBuildDirectory config) (files w) = Ok emptied ->
     compiler_build_call (Build.mode_of modeArg) sourcemap ∈ calls_of run w /\
     match compiler_build config (Build.mode_of modeArg) sourcemap emptied with
     | Built fs => (run w).1 = Ok tt /\ files (run w).2 = fs
     | BuildFailure fs =>
         (run w).1 = Throw (JsError "") /\ files (run w).2 = fs
     end).
Proof.
  intros run. destruct w as [t ts cs fs now began e].
  assert (Hone : forall (l : list (Call X)) mode flag,
    compiler_build_call mode flag ∈ l ->
    Forall (fun c => forall mode' flag', c = compiler_build_call mode' flag' ->
                       mode' = Build.mode_of modeArg /\ flag' = sourcemap) l ->
    mode = Build.mode_of modeArg /\ flag = sourcemap).
  { intros l mode flag Hin Hall. rewrite Forall_forall in Hall.
    by apply (Hall _ Hin). }
  split.
  - intros mode flag Hin. apply (Hone _ _ _ Hin). clear Hin.
    unfold run, calls_of, Build.build, on_files. cbv zeta.
    destruct (bool_decide (modeArg = Some BuildMode_Production) && sourcemap);
      run;
      (destruct (readConfig remixRoot) as [config|e0]; run;
       [destruct (emptyDirSync (assetsBuildDirectory config) fs)
          as [emptied|e']; run;
        [destruct (compiler_build config (Build.mode_of modeArg) sourcemap
                     emptied); settle_trace
        |settle_trace]
       |settle_trace]);
      repeat (constructor; [by intros ? ? [=]|]); constructor.
  - intros config emptied Hconfig Hempty. cbn [files] in Hempty.
    unfold run, calls_of, Build.build, on_files. cbv zeta.
    destruct (bool_decide (modeArg = Some BuildMode_Production) && sourcemap);
      run; rewrite Hconfig; run; rewrite Hempty; run;
      destruct (compiler_build config (Build.mode_of modeArg) sourcemap
                  emptied);
      settle_trace; (split; [|done]);
      rewrite !elem_of_cons; tauto.
Qed.

End ModeCalls.

Section DevMode.
Context `{Collaborators}.
Implicit Types (w : World Dev.DevCall Dev.Locals) (config : RemixConfig).

(** When the start-up goes through, the calls of [dev] are those of the
    start-up, then the opening of the [watch] it calls with its own mode. *)
Lemma dev_opens remixRoot modeArg building waiting w config port :
  resolves "@remix-run/serve" = true ->
  resolves "express" = true ->
  readConfig remixRoot = Ok config ->
  loadEnv (rootDirectory config) = Ok tt ->
  getPort Dev.port_request = Ok port ->
  truthy (serverEntryPoint config) = false ->
  exists rest,
    calls_of (Dev.dev remixRoot modeArg building waiting) w =
      drop (length (trace w))
        (trace (booted remixRoot config (Dev.mode_of modeArg) w))
      ++ opening (inr config) (Dev.mode_of modeArg) config ++ rest.
Proof.
  intros Hserve Hexpress Hconfig Henv Hport Hcustom.
  destruct (watch_opens (inr config) (Dev.mode_of modeArg)
              (Some (Dev.callbacks port)) building waiting
              (booted remixRoot config (Dev.mode_of modeArg) w) config
              eq_refl) as [rest Hrest].
  destruct (try_finally_opens _ Dev.close_server _ _ _ Hrest) as [rest' Hrun].
  { intros w1. destruct (close_server_adds_in_hook w1) as (l & Hl & _).
    by exists l. }
  exists rest'. apply calls_of_intro.
  rewrite (dev_run _ _ _ _ _ _ _ Hserve Hexpress Hconfig Henv Hport Hcustom).
  rewrite Hrun. unfold booted. simpl. rewrite drop_app_length.
  by rewrite <- !app_assoc.
Qed.

End DevMode.

(** C10.  Given a mode argument that the guard [isBuildMode] rejects, as it
    does an absent or an unrecognised one, [build] works in production mode
    while [watch] and [dev] work in development mode.  [build] announces
    production on its first console line; a call of [compiler.build] on its
    trace carries production, and once the configuration is read and the
    assets build directory emptied that call is made and the run ends as the
    compiler says for production.  [watch] announces development on its
    first console line and, once it has its configuration, opens the
    WebSocket server and calls [compiler.watch] with development.  [dev],
    when its start-up goes through, gives development to [createApp], whose
    handler it mounts after the purge, and to [watch], which announces it and
    hands it to [compiler.watch]. *)
Theorem mode_defaults `{Collaborators} (modeArg : option string) :
  isBuildMode modeArg = false ->
  Build.mode_of modeArg = Some BuildMode_Production /\
  Watch.mode_of modeArg = Some BuildMode_Development /\
  Dev.mode_of modeArg = Some BuildMode_Development /\
  Watch.mode_of (Dev.mode_of modeArg) = Some BuildMode_Development /\
  (forall (X E : Type) remixRoot sourcemap finished (w : World X E),
     let run := Build.build remixRoot modeArg sourcemap finished in
     (exists rest,
        calls_of run w =
          console_log ("Building Remix app in " +:+ BuildMode_Production
                       +:+ " mode...") :: rest) /\
     (forall mode flag,
        compiler_build_call mode flag ∈ calls_of run w ->
        mode = Some BuildMode_Production /\ flag = sourcemap) /\
     (forall config emptied,
        readConfig remixRoot = Ok config ->
        emptyDirSync (assetsBuildDirectory config) (files w) = Ok emptied ->
        compiler_build_call (Some BuildMode_Production) sourcemap
          ∈ calls_of run w /\
        match
          compiler_build config (Some BuildMode_Production) sourcemap emptied
        with
        | Built fs => (run w).1 = Ok tt /\ files (run w).2 = fs
        | BuildFailure fs =>
            (run w).1 = Throw (JsError "") /\ files (run w).2 = fs
        end)) /\
  (forall (X E : Type) remixRootOrConfig
          (callbacks : option (WatchCallbacks.t X E)) building waiting
          (w : World X E),
     let run :=
       Watch.watch remixRootOrConfig modeArg callbacks building waiting in
     (exists rest,
        calls_of run w =
          console_log ("Watching Remix app in " +:+ BuildMode_Development
                       +:+ " mode...") :: rest) /\
     (forall config,
        match remixRootOrConfig with
        | inl remixRoot => readConfig remixRoot
        | inr given => Ok given
        end = Ok config ->
        exists rest,
          calls_of run w =
            console_log ("Watching Remix app in " +:+ BuildMode_Development
                         +:+ " mode...")
            :: match remixRootOrConfig with
               | inl remixRoot => [readConfig_call remixRoot]
               | inr _ => []
               end
            ++ [new_WebSocket_Server (devServerPort config);
                compiler_watch_call (Some BuildMode_Development)]
            ++ rest)) /\
  (forall remixRoot building waiting (w : World Dev.DevCall Dev.Locals)
          config port,
     resolves "@remix-run/serve" = true ->
     resolves "express" = true ->
     readConfig remixRoot = Ok config ->
     loadEnv (rootDirectory config) = Ok tt ->
     getPort Dev.port_request = Ok port ->
     truthy (serverEntryPoint config) = false ->
     let run := Dev.dev remixRoot modeArg building waiting in
     Dev.app (caller (run w).2) =
       [Dev.purge_middleware config;
        Dev.createApp_middleware config (Some BuildMode_Development)] /\
     exists rest,
       calls_of run w =
         [by_caller (Dev.require_call "@remix-run/serve");
          by_caller (Dev.require_call "express");
          readConfig_call remixRoot;
          by_caller (Dev.loadEnv_call (rootDirectory config));
          by_caller (Dev.getPort_call Dev.port_request);
          by_caller Dev.express_call;
          by_caller (Dev.app_disable "x-powered-by");
          by_caller Dev.app_use;
          by_caller (Dev.createApp_call (serverBuildPath config)
                       (Some BuildMode_Development));
          by_caller Dev.app_use;
          console_log ("Watching Remix app in " +:+ BuildMode_Development
                       +:+ " mode...");
          new_WebSocket_Server (devServerPort config);
          compiler_watch_call (Some BuildMode_Development)]
         ++ rest).
Proof.
  intros Hguard.
  assert (Hbuild : Build.mode_of modeArg = Some BuildMode_Production)
    by (unfold Build.mode_of; by rewrite Hguard).
  assert (Hwatch : Watch.mode_of modeArg = Some BuildMode_Development)
    by (unfold Watch.mode_of; by rewrite Hguard).
  assert (Hdev : Dev.mode_of modeArg = Some BuildMode_Development)
    by (unfold Dev.mode_of; by rewrite Hguard).
  assert (Hnested :
    Watch.mode_of (Some BuildMode_Development) = Some BuildMode_Development).
  { unfold Watch.mode_of.
    by destruct (isBuildMode (Some BuildMode_Development)). }
  split; [exact Hbuild|]. split; [exact Hwatch|]. split; [exact Hdev|].
  split; [by rewrite Hdev|].
  split; [|split].
  - intros X E remixRoot sourcemap finished w run.
    destruct (build_compiles_in_its_mode remixRoot modeArg sourcemap
                finished w) as [Honly Hcalled].
    fold run in Honly, Hcalled. rewrite Hbuild in Honly, Hcalled.
    split; [|split; [exact Honly|exact Hcalled]].
    unfold run, Build.build. cbv zeta. rewrite Hbuild.
    apply calls_of_first. adds_steps; try done.
    + destruct (_ && _); adds_steps; done.
    + destruct (compiler_build _ _ _ _); adds_steps; done.
  - intros X E remixRootOrConfig callbacks building waiting w run.
    split.
    + unfold run, Watch.watch. cbv zeta. rewrite Hwatch.
      apply calls_of_first.
      adds_steps; try done; try apply happen_grows.
      destruct remixRootOrConfig; adds_steps; done.
    + intros config Hconfig.
      destruct (watch_opens remixRootOrConfig modeArg callbacks building
                  waiting w config Hconfig) as [rest Hrest].
      exists rest. apply calls_of_intro. fold run in Hrest.
      rewrite Hrest. unfold opening. rewrite Hwatch. simpl.
      by rewrite <- app_assoc.
  - intros remixRoot building waiting w config port
      Hserve Hexpress Hconfig Henv Hport Hcustom run.
    split.
    + unfold run.
      rewrite (dev_run _ _ _ _ _ _ _ Hserve Hexpress Hconfig Henv Hport
                 Hcustom).
      apply (keeps_try_finally (fun e => Dev.app e = _)).
      * apply watch_keeps_app.
      * apply close_server_keeps.
      * by rewrite Hdev.
    + destruct (dev_opens remixRoot modeArg building waiting w config port
                  Hserve Hexpress Hconfig Henv Hport Hcustom)
        as [rest Hrest].
      exists rest. fold run in Hrest. rewrite Hrest.
      unfold booted, opening. simpl. rewrite drop_app_length.
      by rewrite Hdev, Hnested.
Qed.

(** C10 at work in the sample project, with the guard of the two-member
    enumeration and no mode argument: [build] compiles for production, and
    [dev] gives development to [createApp] and to the compiler. *)
Lemma mode_defaults_sample :
  (@Build.mode_of Sample.collaborators None = Some "production" /\
   @Watch.mode_of Sample.collaborators None = Some "development" /\
   @Dev.mode_of Sample.collaborators None = Some "development") /\
  compiler_build_call (Some "production") false
    ∈ calls_of (@Build.build Sample.collaborators unit unit "/app" None
                  false 1450) (Sample.world tt) /\
  (exists rest,
     calls_of (@Dev.dev Sample.collaborators "/app" None
                 [Fires InitialBuild] [])
       (Sample.world Sample.locals) =
       [by_caller (Dev.require_call "@remix-run/serve");
        by_caller (Dev.require_call "express");
        readConfig_call "/app";
        by_caller (Dev.loadEnv_call "/app");
        by_caller (Dev.getPort_call (PortRange 3000 3100));
        by_caller Dev.express_call;
        by_caller (Dev.app_disable "x-powered-by");
        by_caller Dev.app_use;
        by_caller (Dev.createApp_call "/tmp/server.js" (Some "development"));
        by_caller Dev.app_use;
        console_log "Watching Remix app in development mode...";
        new_WebSocket_Server 8811;
        compiler_watch_call (Some "development")]
       ++ rest).
Proof.
  destruct (@mode_defaults Sample.collaborators None eq_refl)
    as (Hbuild & Hwatch & Hdev & _ & Hbuilds & _ & Hdevs).
  split; [by repeat split|]. split.
  - destruct (Hbuilds unit unit "/app" false 1450 (Sample.world tt))
      as (_ & _ & Hcalled).
    refine (proj1 (Hcalled Sample.config
                     {[ "/tmp/build" := Directory; "/tmp/server.js" := File ]}
                     eq_refl _)).
    vm_compute. reflexivity.
  - destruct (Hdevs "/app" [Fires InitialBuild] []
                (Sample.world Sample.locals) Sample.config 3000
                eq_refl eq_refl eq_refl eq_refl eq_refl eq_refl)
      as [_ Hcalls].
    exact Hcalls.
Defined.


(** ** More on [dev] *)

(** X11.  When [@remix-run/serve] or [express] cannot be required, [dev]
    throws its own error about the missing package.  It has tried the one or
    two requires and nothing else: the configuration is not read, and apart
    from the trace the world is as it was. *)
Theorem dev_without_serve_reads_nothing `{Collaborators}
    (remixRoot : string) (modeArg : option string)
    (building waiting : list Occurrence)
    (w : World Dev.DevCall Dev.Locals) :
  resolves "@remix-run/serve" && resolves "express" = false ->
  let run := Dev.dev remixRoot modeArg building waiting in
  (run w).1 =
    Throw (JsError ("Could not locate @remix-run/serve. Please verify you "
                    +:+ "have it installed to use the dev command.")) /\
  calls_of run w =
    by_caller (Dev.require_call "@remix-run/serve")
    :: (if resolves "@remix-run/serve"
        then [by_caller (Dev.require_call "express")] else []) /\
  (run w).2 = with_trace (fun t => t ++ calls_of run w) w.
Proof.
  intros Hmissing run.
  unfold run, calls_of, Dev.dev, Dev.require_serve. run.
  destruct (resolves "@remix-run/serve") eqn:Hserve; simpl in *.
  - rewrite Hmissing. simpl.
    rewrite <- !app_assoc, drop_app_length. by repeat split.
  - rewrite drop_app_length. by repeat split.
Qed.

(** X11 at work: an installation without [express]. *)
Lemma dev_without_express_sample :
  let run := @Dev.dev Faulty.no_express "/app" None [Fires InitialBuild] [] in
  (run (Sample.world (@Dev.Build_Locals Faulty.no_express [] None))).1 =
    Throw (JsError ("Could not locate @remix-run/serve. Please verify you "
                    +:+ "have it installed to use the dev command.")) /\
  calls_of run (Sample.world (@Dev.Build_Locals Faulty.no_express [] None)) =
    [by_caller (Dev.require_call "@remix-run/serve");
     by_caller (Dev.require_call "express")].
Proof.
  intros run.
  destruct (@dev_without_serve_reads_nothing Faulty.no_express "/app" None
              [Fires InitialBuild] []
              (Sample.world (@Dev.Build_Locals Faulty.no_express [] None)) eq_refl)
    as (Hthrows & Hcalls & _).
  split; [exact Hthrows|exact Hcalls].
Defined.


Section Ensures.
Context {X E : Type} (J : E -> Prop).

Lemma total_call (c : Call X) : total (call c : M (World X E) unit).
Proof. intros w. by exists tt. Qed.

Lemma total_modify (f : World X E -> World X E) : total (modify f).
Proof. intros w. by exists tt. Qed.

Lemma total_gets {A} (f : World X E -> A) : total (gets f).
Proof. intros w. by eexists. Qed.

Lemma total_ret {A} (a : A) : total (mret a : M (World X E) A).
Proof. intros w. by exists a. Qed.

(** After a step that never throws, what the rest ensures is ensured. *)
Lemma ensures_after {A B} (m : M (World X E) A) (k : A -> M (World X E) B) :
  total m -> (forall a, ensures J (k a)) -> ensures J (m ≫= k).
Proof.
  intros Hm Hk w. unfold mbind, M_bind.
  destruct (Hm w) as [a Ha]. destruct (m w) as [[a'|e] w1]; simpl in *.
  - apply Hk.
  - discriminate.
Qed.

(** What a step ensures and the rest keeps is ensured. *)
Lemma ensures_then_keeps {A B} (m : M (World X E) A)
    (k : A -> M (World X E) B) :
  ensures J m -> (forall a, keeps J (k a)) -> ensures J (m ≫= k).
Proof.
  intros Hm Hk w. specialize (Hm w). unfold mbind, M_bind.
  destruct (m w) as [[a|e] w1]; simpl in *; [|done]. by apply Hk.
Qed.

End Ensures.

#[global] Instance forall_prop_closed {X} (Q : Call X -> Prop) :
  Closed (fun l : list (Call X) => Forall Q l).
Proof. split; [by constructor|]. intros l k Hl Hk. by apply Forall_app. Qed.

Section ServerBound.
Context `{Collaborators}.
Implicit Types (w : World Dev.DevCall Dev.Locals) (config : RemixConfig).

Abbreviation bound := (fun e : Dev.Locals => is_Some (Dev.server e)).

Abbreviation still_open :=
  (fun l : list (Call Dev.DevCall) =>
     Forall (fun c => c <> by_caller Dev.server_close) l).

Lemma happen_keeps_bound config port o :
  keeps bound (Watch.happen config (Dev.callbacks port) o).
Proof.
  assert (Hquiet : o <> Fires InitialBuild ->
            keeps bound (Watch.happen config (Dev.callbacks port) o)).
  { intros Ho. apply keeps_unchanged. intros w. by apply happen_caller. }
  destruct o as [now|h|i|cs]; [by apply Hquiet| |by apply Hquiet..].
  destruct h; try by apply Hquiet.
  intros w _. by rewrite happen_initial_build.
Qed.

(** A session in which the initial-build hook fires leaves [server] bound. *)
Lemma session_ensures_bound config port os :
  InitialBuild ∈ fired os ->
  ensures bound (for_each (Watch.happen config (Dev.callbacks port)) os).
Proof.
  induction os as [|o os IH]; intros Hos w.
  - by apply elem_of_nil in Hos.
  - rewrite for_each_step by apply happen_returns.
    assert (Hnow : ensures bound
              (fun w0 => for_each (Watch.happen config (Dev.callbacks port)) os
                 (Watch.happen config (Dev.callbacks port)
                    (Fires InitialBuild) w0).2)).
    { intros w0. apply (keeps_for_each bound).
      - apply Forall_forall. intros o' _. apply happen_keeps_bound.
      - by rewrite happen_initial_build. }
    destruct o as [now|h|i|cs]; try by apply IH.
    destruct h; [exact (Hnow w)|..];
      apply elem_of_cons in Hos as [[=]|Hos]; by apply IH.
Qed.

Lemma watch_ensures_bound config mode port building waiting :
  InitialBuild ∈ fired building ->
  ensures bound
    (Watch.watch (inr config) mode (Some (Dev.callbacks port))
       building waiting).
Proof.
  intros Hfired. unfold Watch.watch. cbv zeta.
  apply ensures_after; [apply total_call|]. intros _.
  apply ensures_after; [apply total_gets|]. intros now.
  apply ensures_after; [apply total_modify|]. intros _.
  apply ensures_after; [apply total_ret|]. intros config'.
  apply ensures_after; [apply total_call|]. intros _.
  apply ensures_after; [apply total_call|]. intros _.
  apply ensures_then_keeps; [by apply session_ensures_bound|]. intros _.
  keeps_steps.
  apply keeps_for_each. apply Forall_forall. intros o _.
  apply happen_keeps_bound.
Qed.

(** With the callbacks of [dev], nothing that occurs while [watch] runs
    closes the server. *)
Lemma happen_adds_no_close config port o :
  adds still_open (Watch.happen config (Dev.callbacks port) o).
Proof.
  destruct o as [now|h|i|cs]; unfold Watch.happen.
  - adds_steps.
  - destruct h; unfold Watch.fire, Watch.onRebuildStart,
      Watch.onRebuildFinish, Watch.onFileCreated, Watch.onFileChanged,
      Watch.onFileDeleted, Watch.log, Watch.broadcast, Dev.callbacks,
      Watch.invoke;
      cbn [WatchCallbacks.onInitialBuild WatchCallbacks.onRebuildStart];
      adds_steps; by repeat constructor.
  - intros w. rewrite elapse_run.
    destruct (timers w !! i) as [[event delay]|].
    + eexists. split; [done|]. unfold deliveries.
      induction (filter _ (clients w)); by constructor.
    + exists []. by rewrite app_nil_r.
  - adds_steps.
Qed.

Lemma watch_adds_no_close config mode port building waiting :
  adds still_open
    (Watch.watch (inr config) mode (Some (Dev.callbacks port))
       building waiting).
Proof.
  unfold Watch.watch.
  adds_steps; first [by repeat constructor|apply happen_adds_no_close].
Qed.

End ServerBound.

(** X12.  [dev] closes the server only when [watch] throws.  When
    [compiler.watch] rejects after the initial-build hook has fired, [dev]
    closes the server it bound and throws the compiler's error: the one call
    it adds to what [watch] did is the closing of the server.  When the
    compiler starts, the run ends with the process: [dev] ends as [watch]
    does, its [finally] block does not run, and the server is never
    closed. *)
Theorem dev_closes_the_server_only_when_watch_throws `{Collaborators}
    (remixRoot : string) (modeArg : option string)
    (building waiting : list Occurrence)
    (w : World Dev.DevCall Dev.Locals) (config : RemixConfig) (port : Z) :
  resolves "@remix-run/serve" = true ->
  resolves "express" = true ->
  readConfig remixRoot = Ok config ->
  loadEnv (rootDirectory config) = Ok tt ->
  getPort Dev.port_request = Ok port ->
  truthy (serverEntryPoint config) = false ->
  let watched :=
    Watch.watch (inr config) (Dev.mode_of modeArg) (Some (Dev.callbacks port))
      building waiting (booted remixRoot config (Dev.mode_of modeArg) w) in
  let run := Dev.dev remixRoot modeArg building waiting in
  (forall e,
     compiler_watch = Throw e -> e <> ProcessExit ->
     InitialBuild ∈ fired building ->
     watched.1 = Throw e /\
     run w =
       (Throw e,
        with_trace (fun t => t ++ [by_caller Dev.server_close]) watched.2)) /\
  (compiler_watch = Ok tt ->
   (run w).1 = Throw ProcessExit /\
   run w = watched /\
   (by_caller Dev.server_close ∉ calls_of run w)).
Proof.
  intros Hserve Hexpress Hconfig Henv Hport Hcustom watched run.
  unfold run, calls_of.
  rewrite (dev_run _ _ _ _ _ _ _ Hserve Hexpress Hconfig Henv Hport Hcustom).
  split.
  - intros e Hcompiler He Hfired.
    pose proof (watch_ensures_bound config (Dev.mode_of modeArg) port
                  building waiting Hfired
                  (booted remixRoot config (Dev.mode_of modeArg) w))
      as [s Hbound].
    assert (Hthrows : watched.1 = Throw e).
    { unfold watched.
      by rewrite (watch_rejected (inr config) _ _ _ _ _ config e eq_refl
                    Hcompiler). }
    split; [exact Hthrows|].
    unfold try_finally. fold watched in Hbound |- *.
    destruct watched as [r w1]. simpl in *. subst r.
    unfold Dev.close_server. step. rewrite Hbound.
    by destruct e.
  - intros Hcompiler.
    assert (Hexits : watched.1 = Throw ProcessExit).
    { unfold watched.
      by rewrite (watch_exits (inr config) _ _ _ _ _ config eq_refl
                    Hcompiler). }
    assert (Hrun :
      try_finally
        (Watch.watch (inr config) (Dev.mode_of modeArg)
           (Some (Dev.callbacks port)) building waiting)
        Dev.close_server (booted remixRoot config (Dev.mode_of modeArg) w)
      = watched).
    { unfold try_finally. fold watched.
      destruct watched as [r w1]. simpl in Hexits. by subst r. }
    rewrite Hrun. split; [exact Hexits|]. split; [done|].
    destruct (watch_adds_no_close config (Dev.mode_of modeArg) port
                building waiting
                (booted remixRoot config (Dev.mode_of modeArg) w))
      as (l & Hl & Hopen).
    fold watched in Hl. rewrite Hl. unfold booted. simpl.
    rewrite <- app_assoc, drop_app_length.
    intros Hin. apply elem_of_app in Hin as [Hin|Hin].
    + repeat (apply elem_of_cons in Hin as [?|Hin]; [discriminate|]).
      by apply elem_of_nil in Hin.
    + rewrite Forall_forall in Hopen. by apply (Hopen _ Hin).
Qed.

(** X12 at work in the sample project.  With a compiler that fails to
    start, the last call of [dev] closes the server; with the sample
    compiler the run ends with the process and the server stays open. *)
Lemma dev_closes_the_server_sample :
  ((@Dev.dev Faulty.no_watcher "/app" None [Fires InitialBuild] []
      (Sample.world (@Dev.Build_Locals Faulty.no_watcher [] None))).1
     = Throw (JsError "esbuild failed to start") /\
   last (calls_of
           (@Dev.dev Faulty.no_watcher "/app" None [Fires InitialBuild] [])
           (Sample.world (@Dev.Build_Locals Faulty.no_watcher [] None)))
     = Some (by_caller Dev.server_close)) /\
  ((@Dev.dev Sample.collaborators "/app" None [Fires InitialBuild] []
      (Sample.world Sample.locals)).1 = Throw ProcessExit /\
   by_caller Dev.server_close
     ∉ calls_of
         (@Dev.dev Sample.collaborators "/app" None [Fires InitialBuild] [])
         (Sample.world Sample.locals)).
Proof.
  split.
  - destruct (@dev_closes_the_server_only_when_watch_throws Faulty.no_watcher
                "/app" None [Fires InitialBuild] []
                (Sample.world (@Dev.Build_Locals Faulty.no_watcher [] None))
                Sample.config 3000
                eq_refl eq_refl eq_refl eq_refl eq_refl eq_refl)
      as [Hthrows _].
    destruct (Hthrows (JsError "esbuild failed to start") eq_refl)
      as [_ Hrun]; [discriminate|apply list_elem_of_here|].
    unfold calls_of. rewrite Hrun. split; [reflexivity|].
    vm_compute. reflexivity.
  - destruct (@dev_closes_the_server_only_when_watch_throws
                Sample.collaborators "/app" None [Fires InitialBuild] []
                (Sample.world Sample.locals) Sample.config 3000
                eq_refl eq_refl eq_refl eq_refl eq_refl eq_refl)
      as [_ Hexits].
    destruct (Hexits eq_refl) as (Hexit & _ & Hopen).
    split; [exact Hexit|exact Hopen].
Defined.


Section ListenArguments.
Context `{Collaborators}.
Implicit Types (w : World Dev.DevCall Dev.Locals) (config : RemixConfig).

Abbreviation as_asked :=
  (fun l : list (Call Dev.DevCall) => Forall listens_as_asked l).

(** A step whose outcome is known binds that outcome. *)
Lemma adds_settle_bind {A B} (P : list (Call Dev.DevCall) -> Prop)
    `{!Closed P} (r : Result A)
    (k : A -> M (World Dev.DevCall Dev.Locals) B) :
  (forall a, r = Ok a -> adds P (k a)) -> adds P (settle r ≫= k).
Proof.
  intros Hk w. unfold mbind, M_bind, settle. destruct r as [a|e].
  - by apply Hk.
  - exists []. simpl. split; [by rewrite app_nil_r|apply closed_nil].
Qed.

(** Proves that a call other than a binding of the listener is as asked. *)
Ltac not_a_listen :=
  solve [ constructor; [by intros ? ? ? [=]|constructor] ].

Lemma log_adds_as_asked config _message :
  adds as_asked
    (Watch.log config _message : M (World Dev.DevCall Dev.Locals) unit).
Proof. unfold Watch.log, Watch.broadcast. adds_steps; not_a_listen. Qed.

Lemma happen_adds_as_asked config port o :
  getPort Dev.port_request = Ok port ->
  adds as_asked (Watch.happen config (Dev.callbacks port) o).
Proof.
  intros Hport. destruct o as [now|h|i|cs]; unfold Watch.happen.
  - adds_steps.
  - destruct h; unfold Watch.fire, Watch.onRebuildStart,
      Watch.onRebuildFinish, Watch.onFileCreated, Watch.onFileChanged,
      Watch.onFileDeleted, Dev.callbacks, Watch.invoke;
      cbn [WatchCallbacks.onInitialBuild WatchCallbacks.onRebuildStart].
    + intros w. eexists [_; _].
      split; [unfold Dev.onInitialBuild; run; cbn [map];
              by rewrite <- app_assoc|].
      constructor; [intros ? ? ? [=]|].
      constructor; [|constructor]. by intros ? ? ? [= <- <- <-].
    + adds_steps; first [not_a_listen|apply log_adds_as_asked].
    + unfold Watch.broadcast.
      adds_steps; first [not_a_listen|apply log_adds_as_asked].
    + adds_steps; first [not_a_listen|apply log_adds_as_asked].
    + adds_steps; first [not_a_listen|apply log_adds_as_asked].
    + adds_steps; first [not_a_listen|apply log_adds_as_asked].
  - intros w. rewrite elapse_run.
    destruct (timers w !! i) as [[event delay]|].
    + eexists. split; [done|]. unfold deliveries.
      induction (filter _ (clients w)); constructor;
        [by intros ? ? ? [=]|done].
    + exists []. by rewrite app_nil_r.
  - adds_steps.
Qed.

Lemma dev_adds_as_asked remixRoot modeArg building waiting :
  adds as_asked (Dev.dev remixRoot modeArg building waiting).
Proof.
  unfold Dev.dev.
  apply adds_bind; [tc_solve| |intros _].
  { unfold Dev.require_serve. adds_steps; try not_a_listen.
    destruct (resolves "@remix-run/serve"); adds_steps; try not_a_listen.
    destruct (resolves "express"); adds_steps. }
  apply adds_bind; [tc_solve|apply adds_call; not_a_listen|intros _].
  apply adds_bind; [tc_solve|apply adds_settle; tc_solve|intros config].
  apply adds_bind; [tc_solve|apply adds_call; not_a_listen|intros _].
  apply adds_bind; [tc_solve|apply adds_settle; tc_solve|intros _].
  apply adds_bind; [tc_solve|apply adds_call; not_a_listen|intros _].
  apply adds_settle_bind; [tc_solve|]. intros port Hport.
  destruct (truthy (serverEntryPoint config)); [apply adds_throw; tc_solve|].
  unfold Dev.use. adds_steps; try not_a_listen.
  apply adds_try_finally; [tc_solve| |].
  - unfold Watch.watch, Watch.teardown.
    adds_steps;
      first [not_a_listen|by apply happen_adds_as_asked].
  - unfold Dev.close_server. adds_steps.
    match goal with |- adds _ (match ?s with _ => _ end) => destruct s end;
      adds_steps; not_a_listen.
Qed.

End ListenArguments.

(** X13.  Whenever a run of [dev] binds the listener, it binds the port
    that [get-port] resolved at start-up, on the host named by the
    environment if it names one and on no particular host otherwise, and the
    line to be written on listening is the one for that port. *)
Theorem listener_binds_the_resolved_port `{Collaborators}
    (remixRoot : string) (modeArg : option string)
    (building waiting : list Occurrence)
    (w : World Dev.DevCall Dev.Locals)
    (port : Z) (host : option string) (line : string) :
  by_caller (Dev.app_listen port host line)
    ∈ calls_of (Dev.dev remixRoot modeArg building waiting) w ->
  getPort Dev.port_request = Ok port /\
  host = (if truthy env_HOST then env_HOST else None) /\
  line = Dev.onListen port.
Proof.
  intros Hin.
  pose proof (adds_calls_of (fun l => Forall listens_as_asked l)
                (Dev.dev remixRoot modeArg building waiting) w
                (dev_adds_as_asked _ _ _ _)) as Hall.
  rewrite Forall_forall in Hall. by apply (Hall _ Hin).
Qed.

(** X13 at work: with PORT and HOST in the environment, the sample project
    listens on the port that [get-port] gave for that request. *)
Lemma listener_binds_the_resolved_port_sample :
  @getPort Faulty.with_env (@Dev.port_request Faulty.with_env) = Ok 8080 /\
  Some "0.0.0.0" =
    (if truthy (@env_HOST Faulty.with_env) then @env_HOST Faulty.with_env
     else None) /\
  "Remix App Server started at http://localhost:8080 (http://0.0.0.0:8080)"
    = @Dev.onListen Faulty.with_env 8080.
Proof.
  apply (@listener_binds_the_resolved_port Faulty.with_env "/app" None
           [Fires InitialBuild] []
           (Sample.world (@Dev.Build_Locals Faulty.with_env [] None))).
  assert (Hcalls :
    exists pre post,
      calls_of (@Dev.dev Faulty.with_env "/app" None [Fires InitialBuild] [])
        (Sample.world (@Dev.Build_Locals Faulty.with_env [] None))
      = pre ++ by_caller (Dev.app_listen 8080 (Some "0.0.0.0")
          "Remix App Server started at http://localhost:8080 (http://0.0.0.0:8080)")
        :: post).
  { eexists (_ :: _ :: _ :: _ :: _ :: _ :: _ :: _ :: _ :: _ :: _ :: _ :: _
             :: _ :: []), _.
    vm_compute. reflexivity. }
  destruct Hcalls as (pre & post & ->).
  apply elem_of_app. right. apply list_elem_of_here.
Defined.


(** ** [build] *)

(** X14.  [build] empties the assets build directory before it calls the
    compiler, which therefore starts from a file system in which that
    directory is there with nothing in it.  When the compiler writes a
    build, [build] returns and its last console line gives the time from
    the reading of the configuration to the end of the build; when the
    compiler reports a failure, [build] formats it and throws, no such line
    is written, and the file system stays as the compiler has left it:
    [build] cleans nothing up. *)
Theorem build_compiles_into_an_emptied_directory `{Collaborators}
    {X E : Type} (remixRoot : string) (modeArg : option string)
    (sourcemap : bool) (finished : Z) (w : World X E)
    (config : RemixConfig) (emptied : gmap string Entry) :
  readConfig remixRoot = Ok config ->
  emptyDirSync (assetsBuildDirectory config) (files w) = Ok emptied ->
  let run := Build.build remixRoot modeArg sourcemap finished in
  (forall p, below (assetsBuildDirectory config) p = true ->
             emptied !! p = None) /\
  emptied !! assetsBuildDirectory config = Some Directory /\
  match compiler_build config (Build.mode_of modeArg) sourcemap emptied with
  | Built fs =>
      (run w).1 = Ok tt /\ files (run w).2 = fs /\
      last (calls_of run w) =
        Some (console_log ("Built in " +:+ prettyMs (finished - clock w)))
  | BuildFailure fs =>
      (run w).1 = Throw (JsError "") /\ files (run w).2 = fs /\
      last (calls_of run w) = Some formatBuildFailure_call
  end.
Proof.
  intros Hconfig Hempty run.
  split; [by apply (emptyDirSync_empties _ _ _ Hempty)|].
  split; [by apply (emptyDirSync_directory _ _ _ Hempty)|].
  destruct w as [t ts cs fs now began e]. cbn [files] in Hempty.
  unfold run, calls_of, Build.build, on_files. cbv zeta.
  destruct (bool_decide (modeArg = Some BuildMode_Production) && sourcemap);
    run; rewrite Hconfig; run; rewrite Hempty; run;
    destruct (compiler_build config (Build.mode_of modeArg) sourcemap emptied);
    settle_trace; done.
Qed.

(** X14 at work: the sample project builds; with a compiler that fails
    after it has written one asset, [build] throws and the asset stays. *)
Lemma build_sample :
  ((@Build.build Sample.collaborators unit unit "/app" None false 1450
      (Sample.world tt)).1 = Ok tt /\
   last (calls_of (@Build.build Sample.collaborators unit unit "/app" None
                     false 1450) (Sample.world tt))
     = Some (console_log "Built in 450ms")) /\
  ((@Build.build Faulty.broken_build unit unit "/app" None false 1450
      (Sample.world tt)).1 = Throw (JsError "") /\
   files (@Build.build Faulty.broken_build unit unit "/app" None false 1450
            (Sample.world tt)).2
     = {[ "/tmp/build" := Directory; "/tmp/server.js" := File;
          "/tmp/build/partial.css" := File ]} /\
   last (calls_of (@Build.build Faulty.broken_build unit unit "/app" None
                     false 1450) (Sample.world tt))
     = Some formatBuildFailure_call).
Proof.
  assert (Hempty :
    emptyDirSync "/tmp/build" Sample.disk
      = Ok {[ "/tmp/build" := Directory; "/tmp/server.js" := File ]}).
  { vm_compute. reflexivity. }
  destruct (@build_compiles_into_an_emptied_directory Sample.collaborators
              unit unit "/app" None false 1450 (Sample.world tt)
              Sample.config _ eq_refl Hempty) as (_ & _ & Hok & _ & Hlast).
  destruct (@build_compiles_into_an_emptied_directory Faulty.broken_build
              unit unit "/app" None false 1450 (Sample.world tt)
              Sample.config _ eq_refl Hempty)
    as (_ & _ & Hthrow & Hfiles & Hlast').
  split; [by split|]. split; [exact Hthrow|]. split; [|exact Hlast'].
  rewrite Hfiles. vm_compute. reflexivity.
Defined.

(** X15.  [build] writes its three warnings about source maps exactly when
    the mode argument is literally the production mode and source maps are
    asked for, and no warning otherwise.  In particular a build without
    mode argument, which runs in production mode whenever the guard rejects
    the absent argument, writes no warning even with source maps on. *)
Theorem sourcemap_warning_needs_explicit_production `{Collaborators}
    {X E : Type} (remixRoot : string) (modeArg : option string)
    (sourcemap : bool) (finished : Z) (w : World X E) :
  count is_console_warn
    (calls_of (Build.build remixRoot modeArg sourcemap finished) w)
    = (if bool_decide (modeArg = Some BuildMode_Production) && sourcemap
       then 3 else 0)%nat /\
  (isBuildMode None = false ->
   Build.mode_of None = Some BuildMode_Production /\
   count is_console_warn
     (calls_of (Build.build remixRoot None true finished) w) = 0%nat).
Proof.
  assert (Hcount : forall modeArg' sourcemap',
    count is_console_warn
      (calls_of (Build.build remixRoot modeArg' sourcemap' finished) w)
      = (if bool_decide (modeArg' = Some BuildMode_Production) && sourcemap'
         then 3 else 0)%nat).
  { intros modeArg' sourcemap'. destruct w as [t ts cs fs now began e].
    unfold calls_of, Build.build, on_files. cbv zeta.
    destruct (bool_decide (modeArg' = Some BuildMode_Production) && sourcemap');
      run;
      (destruct (readConfig remixRoot) as [config|e0]; run;
       [destruct (emptyDirSync (assetsBuildDirectory config) fs)
          as [emptied|e']; run;
        [destruct (compiler_build config (Build.mode_of modeArg') sourcemap'
                     emptied); settle_trace; reflexivity
        |settle_trace; reflexivity]
       |settle_trace; reflexivity]). }
  split; [apply Hcount|].
  intros Hguard. split.
  - unfold Build.mode_of. by rewrite Hguard.
  - rewrite Hcount. by rewrite bool_decide_eq_false_2.
Qed.


(** X15 at work in the sample project: production named, and production by
    default. *)
Example sourcemap_warning_sample :
  count is_console_warn
    (calls_of (@Build.build Sample.collaborators unit unit "/app"
                 (Some "production") true 1450) (Sample.world tt)) = 3%nat /\
  @Build.mode_of Sample.collaborators None = Some "production" /\
  count is_console_warn
    (calls_of (@Build.build Sample.collaborators unit unit "/app"
                 None true 1450) (Sample.world tt)) = 0%nat.
Proof. repeat split; vm_compute; reflexivity. Qed.

(** ** [init] *)

(** Unfolds a run of [init]. *)
Ltac init_run :=
  cbv beta iota zeta delta
    [mbind mret Init.I_bind Init.I_ret Init.act Init.pathExists Init.on_disk
     Init.settled Init.raise Init.try_catch with_trace with_files
     trace timers clients files clock start caller].

Section InitFacts.
Context `{Tooling}.
Implicit Types (w : World ToolCall unit) (fs : gmap string Entry).

(** [init], from the file system and the trace it starts with, when the
    init script is there. *)
Lemma init_with_script projectDir packageManager t ts cs fs now began e :
  is_Some (fs !! init_script projectDir) ->
  let w := {| trace := t; timers := ts; clients := cs; files := fs;
              clock := now; start := began; caller := e |} in
  let after fs' l :=
    {| trace := t ++ l; timers := ts; clients := cs; files := fs';
       clock := now; start := began; caller := e |} in
  let arguments := init_arguments projectDir packageManager fs in
  Init.init projectDir packageManager w =
    match init_installed projectDir packageManager fs with
    | Threw thrown =>
        (Threw thrown,
         after fs [by_caller
                     (execSync_call
                        (PackageManager_name packageManager +:+ " install")
                        (path_join projectDir "remix.init"))])
    | Returned installed =>
        match require_init (init_script projectDir) with
        | Threw thrown =>
            (Threw thrown,
             after installed (init_preparation projectDir packageManager fs))
        | Returned initFn =>
            match initFn arguments installed with
            | Returned fs' =>
                (Returned tt,
                 after fs' (init_preparation projectDir packageManager fs
                            ++ [by_caller (initFn_call arguments)]))
            | Threw thrown =>
                (Threw match thrown with
                       | ErrorObject message =>
                           ErrorObject (Init.oops message)
                       | OtherValue _ => thrown
                       end,
                 after installed
                   (init_preparation projectDir packageManager fs
                    ++ [by_caller (initFn_call arguments)]))
            end
        end
    end.
Proof.
  intros Hscript w after arguments.
  unfold Init.init, init_installed, init_preparation, w, after, arguments,
    init_arguments.
  fold (init_script projectDir). fold (init_package projectDir).
  init_run.
  rewrite (bool_decide_eq_true_2 _ Hscript).
  destruct (bool_decide (is_Some (fs !! init_package projectDir))).
  - destruct (execSync _ _ fs) as [installed|thrown]; [|done].
    destruct (require_init (init_script projectDir)) as [initFn|thrown];
      [|by rewrite <- app_assoc].
    destruct (initFn _ installed) as [fs'|[message|value]];
      by rewrite <- !app_assoc.
  - destruct (require_init (init_script projectDir)) as [initFn|thrown];
      [|done].
    destruct (initFn _ fs) as [fs'|[message|value]];
      by rewrite <- !app_assoc.
Qed.

End InitFacts.


(** X16.  Without an init script in the project, [init] does nothing: no
    installation runs, nothing is required, and the world is as it was, also
    when a package file lies in the [remix.init] directory. *)
Theorem init_without_script_does_nothing `{Tooling} (projectDir : string)
    (packageManager : PackageManager) (w : World ToolCall unit) :
  files w !! init_script projectDir = None ->
  Init.init projectDir packageManager w = (Returned tt, w).
Proof.
  intros Hscript. destruct w as [t ts cs fs now began e].
  cbn [files] in Hscript.
  unfold Init.init. fold (init_script projectDir). init_run.
  rewrite bool_decide_eq_false_2; [done|].
  rewrite Hscript. by intros [? [=]].
Qed.

(** X16 at work: a package file without a script. *)
Lemma init_without_script_sample :
  let w := SampleTools.world {[ "/app/remix.init/package.json" := File ]} in
  @Init.init SampleTools.tooling "/app" npm w = (Returned tt, w).
Proof.
  intros w.
  by apply (@init_without_script_does_nothing SampleTools.tooling "/app" npm w).
Defined.

(** X17.  With an init script, [init] first installs the script's
    dependencies, in the [remix.init] directory and with the given package
    manager, if and only if a package file lies there; then it requires the
    script and calls the function it exports.  The function is told
    whether the project had a [tsconfig.json] before the installation ran,
    and it works on the file system that the installation left. *)
Theorem init_installs_then_runs_the_script `{Tooling} (projectDir : string)
    (packageManager : PackageManager) (w : World ToolCall unit)
    (installed fs' : gmap string Entry) (initFn : InitFunction) :
  is_Some (files w !! init_script projectDir) ->
  init_installed projectDir packageManager (files w) = Returned installed ->
  require_init (init_script projectDir) = Returned initFn ->
  initFn (init_arguments projectDir packageManager (files w)) installed
    = Returned fs' ->
  let run := Init.init projectDir packageManager in
  (run w).1 = Returned tt /\
  files (run w).2 = fs' /\
  trace (run w).2 =
    trace w ++ init_preparation projectDir packageManager (files w)
    ++ [by_caller
          (initFn_call
             (init_arguments projectDir packageManager (files w)))].
Proof.
  destruct w as [t ts cs fs now began e]. cbn [files trace].
  intros Hscript Hinstalled Hrequire HinitFn.
  rewrite (init_with_script _ _ _ _ _ _ _ _ _ Hscript).
  cbv zeta. by rewrite Hinstalled, Hrequire, HinitFn.
Qed.

(** X17 at work: the sample project, with a package file and a
    [tsconfig.json]. *)
Lemma init_sample :
  let w := SampleTools.world (SampleTools.project "/app") in
  let run := @Init.init SampleTools.tooling "/app" yarn in
  (run w).1 = Returned tt /\
  files (run w).2 =
    <["/app/README.md" := File]>
      (<["/app/remix.init/node_modules" := Directory]>
         (SampleTools.project "/app")) /\
  trace (run w).2 =
    [by_caller (execSync_call "yarn install" "/app/remix.init");
     by_caller (require_script "/app/remix.init/index.js");
     by_caller (initFn_call {| init_isTypeScript := true;
                               init_packageManager := yarn;
                               init_rootDirectory := "/app" |})].
Proof.
  intros w run.
  apply (@init_installs_then_runs_the_script SampleTools.tooling "/app" yarn w
           (<["/app/remix.init/node_modules" := Directory]>
              (SampleTools.project "/app"))
           _ SampleTools.initFn).
  - vm_compute. by eexists.
  - vm_compute. reflexivity.
  - reflexivity.
  - vm_compute. reflexivity.
Defined.

(** X18.  When the init function throws an [Error], [init] throws that
    error with its message put after the banner and a blank line; when the
    function throws a value that is no [Error], [init] throws that value as
    it is.  Either way the file system is as the installation left it. *)
Theorem init_puts_a_banner_on_errors_of_the_script `{Tooling}
    (projectDir : string) (packageManager : PackageManager)
    (w : World ToolCall unit) (installed : gmap string Entry)
    (initFn : InitFunction) (thrown : Thrown) :
  is_Some (files w !! init_script projectDir) ->
  init_installed projectDir packageManager (files w) = Returned installed ->
  require_init (init_script projectDir) = Returned initFn ->
  initFn (init_arguments projectDir packageManager (files w)) installed
    = Threw thrown ->
  let run := Init.init projectDir packageManager in
  (run w).1 =
    Threw match thrown with
          | ErrorObject message =>
              ErrorObject (colors_error "🚨 Oops, remix.init failed"
                           +:+ Build.newline +:+ Build.newline +:+ message)
          | OtherValue _ => thrown
          end /\
  files (run w).2 = installed.
Proof.
  destruct w as [t ts cs fs now began e]. cbn [files trace].
  intros Hscript Hinstalled Hrequire HinitFn.
  rewrite (init_with_script _ _ _ _ _ _ _ _ _ Hscript).
  cbv zeta. by rewrite Hinstalled, Hrequire, HinitFn.
Qed.

(** X18 at work: an [Error] and a string thrown by the sample script. *)
Lemma init_banner_sample :
  (@Init.init SampleTools.tooling "/broken" npm
     (SampleTools.world {[ "/broken/remix.init/index.js" := File ]})).1
    = Threw (ErrorObject
               ("🚨 Oops, remix.init failed" +:+ Build.newline
                +:+ Build.newline +:+ "cannot write README.md")) /\
  (@Init.init SampleTools.tooling "/odd" npm
     (SampleTools.world {[ "/odd/remix.init/index.js" := File ]})).1
    = Threw (OtherValue "stop").
Proof.
  split.
  - apply (@init_puts_a_banner_on_errors_of_the_script SampleTools.tooling
             "/broken" npm
             (SampleTools.world {[ "/broken/remix.init/index.js" := File ]})
             {[ "/broken/remix.init/index.js" := File ]}
             SampleTools.initFn (ErrorObject "cannot write README.md")).
    + vm_compute. by eexists.
    + vm_compute. reflexivity.
    + reflexivity.
    + vm_compute. reflexivity.
  - apply (@init_puts_a_banner_on_errors_of_the_script SampleTools.tooling
             "/odd" npm
             (SampleTools.world {[ "/odd/remix.init/index.js" := File ]})
             {[ "/odd/remix.init/index.js" := File ]}
             SampleTools.initFn (OtherValue "stop")).
    + vm_compute. by eexists.
    + vm_compute. reflexivity.
    + reflexivity.
    + vm_compute. reflexivity.
Defined.

(** X19.  A failure of the installation or of the loading of the script is
    thrown by [init] as it is, without the banner, and the init function is
    not called; after a failed installation the script is not even
    required. *)
Theorem init_passes_on_failures_before_the_script `{Tooling}
    (projectDir : string) (packageManager : PackageManager)
    (w : World ToolCall unit) (thrown : Thrown) :
  is_Some (files w !! init_script projectDir) ->
  init_installed projectDir packageManager (files w) = Threw thrown \/
  (exists installed,
     init_installed projectDir packageManager (files w) = Returned installed /\
     require_init (init_script projectDir) = Threw thrown) ->
  let run := Init.init projectDir packageManager in
  (run w).1 = Threw thrown /\
  (forall arguments,
     by_caller (initFn_call arguments)
       ∉ drop (length (trace w)) (trace (run w).2)) /\
  (init_installed projectDir packageManager (files w) = Threw thrown ->
   by_caller (require_script (init_script projectDir))
     ∉ drop (length (trace w)) (trace (run w).2)).
Proof.
  destruct w as [t ts cs fs now began e]. cbn [files trace].
  intros Hscript Hfailure.
  rewrite (init_with_script _ _ _ _ _ _ _ _ _ Hscript). cbv zeta.
  destruct Hfailure as [Hinstall|(installed & Hinstall & Hrequire)].
  - rewrite Hinstall. cbn [fst snd trace]. rewrite drop_app_length.
    split; [done|]. split.
    + intros arguments [[=]|Hin%elem_of_nil]%elem_of_cons. done.
    + intros _ [[=]|Hin%elem_of_nil]%elem_of_cons. done.
  - rewrite Hinstall, Hrequire. cbn [fst snd trace]. rewrite drop_app_length.
    split; [done|]. split; [|intros [=]].
    intros arguments. unfold init_preparation.
    destruct (bool_decide _); cbn [app];
      rewrite ?elem_of_cons, elem_of_nil; intros Hin;
      repeat destruct Hin as [Hin|Hin]; done.
Qed.

(** X19 at work: the installation fails in the sample project. *)
Lemma init_offline_sample :
  let w := SampleTools.world (SampleTools.project "/app") in
  (@Init.init SampleTools.offline "/app" npm w).1
    = Threw (ErrorObject "npm ERR! network") /\
  trace (@Init.init SampleTools.offline "/app" npm w).2
    = [by_caller (execSync_call "npm install" "/app/remix.init")].
Proof.
  intros w.
  destruct (@init_passes_on_failures_before_the_script SampleTools.offline
              "/app" npm w (ErrorObject "npm ERR! network"))
    as (Hthrows & _ & _).
  - vm_compute. by eexists.
  - left. vm_compute. reflexivity.
  - split; [exact Hthrows|]. vm_compute. reflexivity.
Defined.


(** ** [create], [setup] and [routes] *)

(** X20.  [create] stops and clears its spinner only after [createApp] has
    resolved.  When [createApp] rejects, [create] throws its error at once:
    the spinner that was started is neither stopped nor cleared, and the
    file system is as it was. *)
Theorem create_stops_the_spinner_on_success_only `{Tooling} {E : Type}
    (options : CreateOptions) (w : World ToolCall E) :
  let run := Create.create options in
  match createApp_of_create options (files w) with
  | Ok created =>
      (run w).1 = Ok tt /\ files (run w).2 = created /\
      calls_of run w =
        [by_caller (ora_start "Creating your app…");
         by_caller (create_createApp options);
         by_caller spinner_stop; by_caller spinner_clear]
  | Throw e =>
      (run w).1 = Throw e /\ files (run w).2 = files w /\
      calls_of run w =
        [by_caller (ora_start "Creating your app…");
         by_caller (create_createApp options)]
  end.
Proof.
  destruct w as [t ts cs fs now began e].
  unfold Create.create, calls_of, on_files. run.
  destruct (createApp_of_create options fs) as [created|e'];
    settle_trace; done.
Qed.

(** X21.  The platform that [setup] hands to [setupRemix], in its one call
    of it, is the Cloudflare platform, the Node platform, or the argument
    itself when the guard accepts it; the two deprecated names always give
    the Cloudflare platform, with one warning and whatever the guard says,
    and no other argument is warned about.  The outcome of [setup] is the
    outcome of [setupRemix]. *)
Theorem setup_hands_over_a_valid_platform `{Tooling} {E : Type}
    (platformArg : option string) (w : World ToolCall E) :
  let run := Setup.setup platformArg in
  exists platform,
    (platform = Some SetupPlatform_Cloudflare \/
     platform = Some SetupPlatform_Node \/
     (platform = platformArg /\ isSetupPlatform platformArg = true)) /\
    (Setup.deprecated platformArg = true ->
     platform = Some SetupPlatform_Cloudflare) /\
    omap (fun c => match c with by_caller x => Some x | _ => None end)
      (calls_of run w) = [setupRemix_call platform] /\
    count is_console_warn (calls_of run w)
      = (if Setup.deprecated platformArg then 1 else 0)%nat /\
    (run w).1 = setupRemix platform.
Proof.
  destruct w as [t ts cs fs now began e].
  unfold Setup.setup, calls_of. cbv zeta.
  destruct (Setup.deprecated platformArg) eqn:Hdeprecated; run.
  - exists (Some SetupPlatform_Cloudflare).
    destruct (setupRemix (Some SetupPlatform_Cloudflare)) as [[]|e'];
      settle_trace; repeat split; auto.
  - destruct (isSetupPlatform platformArg) eqn:Hguard.
    + exists platformArg.
      destruct (setupRemix platformArg) as [[]|e'];
        settle_trace; repeat split; auto; discriminate.
    + exists (Some SetupPlatform_Node).
      destruct (setupRemix (Some SetupPlatform_Node)) as [[]|e'];
        settle_trace; repeat split; auto; discriminate.
Qed.

(** [setup] at work: a deprecated name, whatever the guard thinks of it. *)
Example setup_of_a_deprecated_name :
  calls_of (@Setup.setup SampleTools.tooling unit (Some "cloudflare-pages"))
    (SampleTools.world ∅)
  = [console_warn ("Using 'cloudflare-pages' as a platform value is "
                   +:+ "deprecated. Use 'cloudflare' instead.");
     console_log "HINT: check the `postinstall` script in `package.json`";
     by_caller (setupRemix_call (Some "cloudflare"));
     console_log "Successfully setup Remix for cloudflare."].
Proof. vm_compute. reflexivity. Qed.

(** X22.  [routes] writes one console line, the routes of the
    configuration in the format of its argument if the guard accepts that
    argument and in the jsx format otherwise; when the configuration
    cannot be read it throws the reader's error and writes nothing. *)
Theorem routes_prints_in_a_valid_format `{Collaborators} `{Tooling}
    {X E : Type} (remixRoot formatArg : option string) (w : World X E) :
  let run := Routes.routes remixRoot formatArg in
  match match remixRoot with
        | Some directory => readConfig directory
        | None => readConfig_default
        end with
  | Ok config =>
      (run w).1 = Ok tt /\
      exists format,
        (format = Some RoutesFormat_jsx \/
         (format = formatArg /\ isRoutesFormat formatArg = true)) /\
        (isRoutesFormat formatArg = false -> format = Some RoutesFormat_jsx) /\
        calls_of run w = [console_log (formatRoutes config format)]
  | Throw e => (run w).1 = Throw e /\ calls_of run w = []
  end.
Proof.
  destruct w as [t ts cs fs now began e].
  unfold Routes.routes, Routes.format_of, calls_of. cbv zeta. run.
  destruct (match remixRoot with
            | Some directory => readConfig directory
            | None => readConfig_default
            end) as [config|e']; settle_trace.
  - split; [done|]. destruct (isRoutesFormat formatArg) eqn:Hguard.
    + exists formatArg. repeat split; auto. discriminate.
    + exists (Some RoutesFormat_jsx). repeat split; auto.
  - split; [done|]. rewrite <- (app_nil_r t) at 2.
    by rewrite drop_app_length.
Qed.
